(** * Risk-gated refund approval pipeline (cxzrdxy/ecommerce)

    A shallow embedding of the refund pipeline of the repository:
    - [app/models/*.py]                the tables and their enumerations,
    - [app/websocket/manager.py]       the connection manager,
    - [app/tasks/refund_tasks.py]      the Celery tasks,
    - [app/graph/nodes.py]             the refund node and the audit node,
    - [app/api/v1/admin.py]            the reviewer decision endpoint,
    - [app/api/v1/status.py]           the polling endpoint,
    - [app/services/refund_service.py] eligibility rules and creation.

    Conventions.  A table is a finite map from primary key to row; a new
    row gets a key above those in use.  A Python [float] or [Numeric]
    amount is a rational number: comparison of finite floats is
    comparison of the rationals they denote.  A [datetime] is an integer
    number of seconds, and an operation reads the clock once.  An
    f-string is the list of its literal pieces and formatted values.  The
    database, the broker, the sockets and the clock are explicit: every
    operation takes the world and returns the new one, and an exception
    the source raises is a value of the result.  The database and the
    broker are taken to be reachable, except where the source itself
    catches their failure ([create_refund_application]).  The
    operations of the transition system run one after the other; two
    decisions on one case that overlap are modelled apart
    ([overlapping_decisions]).  A task is run as a worker runs one
    delivery of it, with the retry count the delivery carries. *)

From Stdlib Require Import ZArith QArith Lia.
From stdpp Require Import gmap strings list fin_maps sorting.

Local Open Scope Z_scope.
Local Open Scope string_scope.

(** ** Enumerations *)

(** [app/models/audit.py] *)
Module RiskLevel.
Inductive t := LOW | MEDIUM | HIGH | CRITICAL.
#[global] Instance eq_dec : EqDecision t.
Proof. solve_decision. Defined.
End RiskLevel.

Module AuditAction.
Inductive t := APPROVE | REJECT | ESCALATE | PENDING.
#[global] Instance eq_dec : EqDecision t.
Proof. solve_decision. Defined.
End AuditAction.

(** [app/models/refund.py] *)
Module RefundStatus.
Inductive t := PENDING | APPROVED | REJECTED | COMPLETED | CANCELLED.
#[global] Instance eq_dec : EqDecision t.
Proof. solve_decision. Defined.
End RefundStatus.

Module RefundReason.
Inductive t :=
  QUALITY_ISSUE | SIZE_NOT_FIT | NOT_AS_DESCRIBED | CHANGED_MIND | OTHER.
#[global] Instance eq_dec : EqDecision t.
Proof. solve_decision. Defined.
End RefundReason.

(** [app/models/order.py] *)
Module OrderStatus.
Inductive t := PENDING | PAID | SHIPPED | DELIVERED | CANCELLED.
#[global] Instance eq_dec : EqDecision t.
Proof. solve_decision. Defined.
End OrderStatus.

(** [app/models/message.py] *)
Module MessageType.
Inductive t := TEXT | AUDIT_CARD | ORDER_CARD | REFUND_CARD | SYSTEM.
End MessageType.

Module MessageStatus.
Inductive t := PENDING | SENT | READ | FAILED.
End MessageStatus.

(** ** Values *)

(** An f-string before rendering: literal text and the values formatted
    into it, in order. *)
Inductive Piece :=
  | Lit (s : string)
  | FmtInt (z : Z)
  | FmtOptInt (z : option Z)
  | FmtNum (q : Q)
  | FmtStr (s : string)
  | FmtOptStr (s : option string)
  | FmtRisk (r : RiskLevel.t)
  | FmtRefundStatus (s : RefundStatus.t)
  | FmtOrderStatus (s : OrderStatus.t).

Abbreviation Text := (list Piece) (only parsing).

(** A Python value held in a dictionary: the payload of a message, a
    card or a snapshot.  [JDecimal] is a [decimal.Decimal], what a
    [Numeric] column gives back, and [JDatetime] a [datetime]: neither
    is JSON, and [json.dumps] raises [TypeError] on them. *)
#[local] Unset Elimination Schemes.
Inductive Json :=
  | JNone
  | JInt (z : Z)
  | JNum (q : Q)
  | JStr (s : string)
  | JText (t : Text)
  | JRisk (r : RiskLevel.t)
  | JDecimal (q : Q)
  | JDatetime (z : Z)
  | JList (l : list Json)
  | JDict (d : list (string * Json)).
#[local] Set Elimination Schemes.

(** Whether [json.dumps] accepts the value: what the [JSON] column type
    asks when a row that holds it is flushed. *)
Fixpoint json_ok (j : Json) : bool :=
  match j with
  | JDecimal _ | JDatetime _ => false
  | JList l => forallb json_ok l
  | JDict d => forallb (fun kv => json_ok (snd kv)) d
  | _ => true
  end.

Definition opt_str (o : option string) : Json :=
  match o with Some s => JStr s | None => JNone end.

Definition opt_int (o : option Z) : Json :=
  match o with Some z => JInt z | None => JNone end.

(** [d.get(k)] on a dictionary literal. *)
Fixpoint dict_get (k : string) (d : list (string * Json)) : option Json :=
  match d with
  | [] => None
  | (k', v) :: d' => if String.eqb k k' then Some v else dict_get k d'
  end.

(** ** Settings ([app/core/config.py], the risk thresholds) *)

Record Settings := {
  HIGH_RISK_REFUND_AMOUNT : Q;
  MEDIUM_RISK_REFUND_AMOUNT : Q;
}.

Definition default_settings : Settings :=
  {| HIGH_RISK_REFUND_AMOUNT := 2000; MEDIUM_RISK_REFUND_AMOUNT := 500 |}.

(** [a >= b] on amounts. *)
Definition Qge_bool (a b : Q) : bool := Qle_bool b a.

(** The tier chosen by the [if]/[elif]/[else] of
    [check_refund_eligibility] ([app/graph/nodes.py], the block
    "判断风险等级"); the [else] branch is the one the source calls
    "低风险". *)
Definition risk_tier (settings : Settings) (refund_amount : Q) : RiskLevel.t :=
  if Qge_bool refund_amount (HIGH_RISK_REFUND_AMOUNT settings)
  then RiskLevel.HIGH
  else if Qge_bool refund_amount (MEDIUM_RISK_REFUND_AMOUNT settings)
  then RiskLevel.MEDIUM
  else RiskLevel.LOW.

(** ** Tables *)

(** [app/models/order.py]; an item of [Order.items] is a dictionary
    without a schema, of which the code reads the keys ["name"] and
    ["qty"]: either may be absent. *)
Module Item.
Record t := { name : option string; qty : option Z }.
End Item.

Module Order.
Record t := {
  order_sn : string;
  user_id : Z;
  status : OrderStatus.t;
  total_amount : Q;
  items : list Item.t;
  tracking_number : option string;
  shipping_address : string;
  created_at : Z;
  updated_at : Z;
}.
End Order.

(** [app/models/refund.py] *)
Module RefundApplication.
Record t := {
  order_id : Z;
  user_id : Z;
  status : RefundStatus.t;
  reason_category : option RefundReason.t;
  reason_detail : string;
  refund_amount : Q;
  admin_note : option string;
  reviewed_by : option Z;
  reviewed_at : option Z;
  created_at : Z;
  updated_at : Z;
}.
End RefundApplication.

(** [app/models/audit.py] *)
Module AuditLog.
Record t := {
  thread_id : string;
  order_id : option Z;
  refund_application_id : option Z;
  user_id : Z;
  trigger_reason : Text;
  risk_level : RiskLevel.t;
  action : AuditAction.t;
  admin_id : option Z;
  admin_comment : option string;
  context_snapshot : Json;
  decision_metadata : Json;
  created_at : Z;
  reviewed_at : option Z;
  updated_at : Z;
}.
End AuditLog.

(** [app/models/message.py] *)
Module MessageCard.
Record t := {
  thread_id : string;
  message_type : MessageType.t;
  status : MessageStatus.t;
  content : Json;
  sender_id : option Z;
  sender_type : string;
  receiver_id : option Z;
  meta_data : Json;
  created_at : Z;
  updated_at : Z;
}.
End MessageCard.

(** The database: one finite map per table, from primary key to row. *)
Record Db := {
  orders : gmap Z Order.t;
  refund_applications : gmap Z RefundApplication.t;
  audit_logs : gmap Z AuditLog.t;
  message_cards : gmap Z MessageCard.t;
}.

(** The key a serial primary key column gives to the next row: above
    every key in use. *)
Definition next_id {A} (m : gmap Z A) : Z :=
  1 + map_fold (fun k _ acc => Z.max k acc) 0 m.

(** ** The connection manager ([app/websocket/manager.py]) *)

(** A socket object is known by its identity. *)
Abbreviation WebSocket := Z (only parsing).

Record ConnectionManager := {
  active_connections : gmap Z (gmap string WebSocket);
  admin_connections : gmap Z WebSocket;
  thread_subscribers : gmap string (gset WebSocket);
}.

(** ** Celery ([app/tasks/refund_tasks.py], [app/celery_app.py]) *)

(** What [task.delay(...)] publishes: the task and its arguments.  The
    call sites pass nothing else.  [retry_msg] is what [self.retry]
    publishes from a worker: the same task and arguments, with the
    number of the retry in the headers. *)
Inductive TaskMessage :=
  | send_refund_sms_msg (refund_id : Z) (phone : string) (message : Text)
  | process_refund_payment_msg (refund_id : Z) (amount : Q)
      (payment_method : string)
  | notify_admin_audit_msg (audit_log_id : Z)
  | retry_msg (retries : nat) (task : TaskMessage).

(** The task and the arguments of a message, whatever retry it is. *)
Fixpoint task_of (msg : TaskMessage) : TaskMessage :=
  match msg with
  | retry_msg _ task => task_of task
  | _ => msg
  end.

(** ** The world *)

Record World := {
  db : Db;
  (** messages published to the broker, oldest first *)
  broker : list TaskMessage;
  manager : ConnectionManager;
  (** sockets on which [send_json] raises *)
  closed : gset WebSocket;
  (** frames delivered by [send_json], oldest first *)
  wire : list (WebSocket * Json);
  (** calls that reached the payment placeholder: amount and method *)
  payments : list (Q * string);
  (** calls that reached the SMS placeholder: phone and text *)
  sms : list (string * Text);
}.

Definition with_db (d : Db) (w : World) : World :=
  {| db := d; broker := broker w; manager := manager w; closed := closed w;
     wire := wire w; payments := payments w; sms := sms w |}.

Definition with_broker (b : list TaskMessage) (w : World) : World :=
  {| db := db w; broker := b; manager := manager w; closed := closed w;
     wire := wire w; payments := payments w; sms := sms w |}.

Definition with_manager (m : ConnectionManager) (w : World) : World :=
  {| db := db w; broker := broker w; manager := m; closed := closed w;
     wire := wire w; payments := payments w; sms := sms w |}.

Definition with_wire (l : list (WebSocket * Json)) (w : World) : World :=
  {| db := db w; broker := broker w; manager := manager w; closed := closed w;
     wire := l; payments := payments w; sms := sms w |}.

Definition with_payments (l : list (Q * string)) (w : World) : World :=
  {| db := db w; broker := broker w; manager := manager w; closed := closed w;
     wire := wire w; payments := l; sms := sms w |}.

Definition with_sms (l : list (string * Text)) (w : World) : World :=
  {| db := db w; broker := broker w; manager := manager w; closed := closed w;
     wire := wire w; payments := payments w; sms := l |}.

Definition with_refund_applications
    (m : gmap Z RefundApplication.t) (d : Db) : Db :=
  {| orders := orders d; refund_applications := m;
     audit_logs := audit_logs d; message_cards := message_cards d |}.

Definition with_audit_logs (m : gmap Z AuditLog.t) (d : Db) : Db :=
  {| orders := orders d; refund_applications := refund_applications d;
     audit_logs := m; message_cards := message_cards d |}.

Definition with_message_cards (m : gmap Z MessageCard.t) (d : Db) : Db :=
  {| orders := orders d; refund_applications := refund_applications d;
     audit_logs := audit_logs d; message_cards := m |}.

(** [session.add(row)] of a new row followed by [commit]: the row gets
    the next key. *)
Definition add_row {A} (row : A) (m : gmap Z A) : gmap Z A :=
  <[next_id m := row]> m.

(** [task.delay(...)]: one more message on the broker. *)
Definition delay (msg : TaskMessage) (w : World) : World :=
  with_broker (broker w ++ [msg]) w.

(** *** Sending *)

(** [websocket.send_json(message)]: [None] stands for the exception. *)
Definition send_json (ws : WebSocket) (message : Json) (w : World)
    : option World :=
  if decide (ws ∈ closed w) then None
  else Some (with_wire (wire w ++ [(ws, message)]) w).

(** The loop of [send_to_thread] and of [broadcast_to_admins]: try each
    socket, collect those that raised. *)
Fixpoint send_each {K} (message : Json) (targets : list (K * WebSocket))
    (disconnected : list K) (w : World) : list K * World :=
  match targets with
  | [] => (disconnected, w)
  | (k, ws) :: rest =>
      match send_json ws message w with
      | Some w' => send_each message rest disconnected w'
      | None => send_each message rest (disconnected ++ [k]) w
      end
  end.

Definition with_thread_subscribers
    (m : gmap string (gset WebSocket)) (c : ConnectionManager)
    : ConnectionManager :=
  {| active_connections := active_connections c;
     admin_connections := admin_connections c;
     thread_subscribers := m |}.

Definition with_admin_connections
    (m : gmap Z WebSocket) (c : ConnectionManager) : ConnectionManager :=
  {| active_connections := active_connections c;
     admin_connections := m;
     thread_subscribers := thread_subscribers c |}.

(** [ConnectionManager.send_to_thread] *)
Definition send_to_thread (thread_id : string) (message : Json) (w : World)
    : World :=
  match thread_subscribers (manager w) !! thread_id with
  | Some subscribers =>
      let '(disconnected, w') :=
        send_each message
          ((fun ws => (ws, ws)) <$> elements subscribers) [] w in
      with_manager
        (with_thread_subscribers
           (<[thread_id := subscribers ∖ list_to_set disconnected]>
              (thread_subscribers (manager w')))
           (manager w'))
        w'
  | None => w
  end.

(** [ConnectionManager.disconnect_admin] *)
Definition disconnect_admin (admin_id : Z) (w : World) : World :=
  with_manager
    (with_admin_connections
       (delete admin_id (admin_connections (manager w))) (manager w))
    w.

(** [ConnectionManager.broadcast_to_admins] *)
Definition broadcast_to_admins (message : Json) (w : World) : World :=
  let '(disconnected, w') :=
    send_each message (map_to_list (admin_connections (manager w))) [] w in
  foldl (fun acc admin_id => disconnect_admin admin_id acc) w' disconnected.

(** [data or {}] *)
Definition or_empty (data : option (list (string * Json)))
    : list (string * Json) :=
  match data with Some d => d | None => [] end.

Definition opt_dict (data : option (list (string * Json))) : Json :=
  match data with Some d => JDict d | None => JNone end.

(** The frame [notify_status_change] sends to the thread. *)
Definition status_change_frame (now : Z) (thread_id status : string)
    (data : list (string * Json)) : Json :=
  JDict [
    ("type", JStr "status_change");
    ("thread_id", JStr thread_id);
    ("status", JStr status);
    ("data", JDict data);
    ("timestamp", JInt now) ].

(** [ConnectionManager.notify_status_change]; [now] is the reading of
    the clock. *)
Definition notify_status_change (now : Z) (thread_id : string)
    (status : string) (data : option (list (string * Json))) (w : World)
    : World :=
  let message :=
    status_change_frame now thread_id status (or_empty data) in
  let w1 := send_to_thread thread_id message w in
  if String.eqb status "WAITING_ADMIN" then
    broadcast_to_admins (JDict [
      ("type", JStr "new_audit_task");
      ("thread_id", JStr thread_id);
      ("data", opt_dict data);
      ("timestamp", JInt now) ]) w1
  else w1.

(** ** The tasks ([app/tasks/refund_tasks.py]) *)

(** How a task ends in a worker: with its return value, by raising the
    [Retry] that [self.retry(exc=exc)] returns after it has published
    the task again, or, when the retries are used up, by raising [exc]
    itself. *)
Inductive TaskOutcome :=
  | Success (result : Json)
  | Retry (exc : Text)
  | Failure (exc : Text).

(** [self.retry(exc=exc)] in a worker.  [retries] is [request.retries],
    the number of retries the delivery carries, and [max_retries] the
    ceiling the task was declared with: below the ceiling the task is
    published again, with one retry more, and [Retry] is raised; at the
    ceiling nothing is published and [exc] is raised. *)
Definition self_retry (retries max_retries : nat) (task : TaskMessage)
    (exc : Text) (w : World) : TaskOutcome * World :=
  if (retries <? max_retries)%nat
  then (Retry exc, delay (retry_msg (S retries) task) w)
  else (Failure exc, w).

(** [send_refund_sms]; nothing in its [try] block raises, so the call
    of [self.retry] in its handler is never reached. *)
Definition send_refund_sms (now : Z) (refund_id : Z) (phone : string)
    (message : Text) (w : World) : TaskOutcome * World :=
  let w1 := with_sms (sms w ++ [(phone, message)]) w in
  (Success (JDict [
     ("status", JStr "success");
     ("refund_id", JInt refund_id);
     ("phone", JStr phone);
     ("sent_at", JInt now) ]), w1).

Definition set_completed (now : Z) (r : RefundApplication.t)
    : RefundApplication.t :=
  {| RefundApplication.order_id := RefundApplication.order_id r;
     RefundApplication.user_id := RefundApplication.user_id r;
     RefundApplication.status := RefundStatus.COMPLETED;
     RefundApplication.reason_category := RefundApplication.reason_category r;
     RefundApplication.reason_detail := RefundApplication.reason_detail r;
     RefundApplication.refund_amount := RefundApplication.refund_amount r;
     RefundApplication.admin_note := RefundApplication.admin_note r;
     RefundApplication.reviewed_by := RefundApplication.reviewed_by r;
     RefundApplication.reviewed_at := RefundApplication.reviewed_at r;
     RefundApplication.created_at := RefundApplication.created_at r;
     RefundApplication.updated_at := now |}.

(** [process_refund_payment], [max_retries=3]; [retries] is
    [self.request.retries]. *)
Definition process_refund_payment (retries : nat) (now : Z) (refund_id : Z)
    (amount : Q) (payment_method : string) (w : World)
    : TaskOutcome * World :=
  match refund_applications (db w) !! refund_id with
  | None =>
      self_retry retries 3
        (process_refund_payment_msg refund_id amount payment_method)
        [Lit "Refund application "; FmtInt refund_id; Lit " not found"] w
  | Some refund =>
      let w1 := with_payments (payments w ++ [(amount, payment_method)]) w in
      let w2 :=
        with_db
          (with_refund_applications
             (<[refund_id := set_completed now refund]>
                (refund_applications (db w1)))
             (db w1))
          w1 in
      (Success (JDict [
         ("status", JStr "success");
         ("refund_id", JInt refund_id);
         ("amount", JNum amount);
         ("transaction_id", JText [Lit "TXN"; FmtInt refund_id; FmtInt now]);
         ("completed_at", JInt now) ]), w2)
  end.

(** [notify_admin_audit], [max_retries=2]; [retries] is
    [self.request.retries]. *)
Definition notify_admin_audit (retries : nat) (now : Z) (audit_log_id : Z)
    (w : World) : TaskOutcome * World :=
  match audit_logs (db w) !! audit_log_id with
  | None =>
      self_retry retries 2 (notify_admin_audit_msg audit_log_id)
        [Lit "Audit log "; FmtInt audit_log_id; Lit " not found"] w
  | Some audit_log =>
      let message := {|
        MessageCard.thread_id := AuditLog.thread_id audit_log;
        MessageCard.message_type := MessageType.SYSTEM;
        MessageCard.status := MessageStatus.SENT;
        MessageCard.content := JDict [
          ("type", JStr "admin_notification");
          ("audit_log_id", JInt audit_log_id);
          ("risk_level", JRisk (AuditLog.risk_level audit_log));
          ("message", JText [Lit "新的";
                             FmtRisk (AuditLog.risk_level audit_log);
                             Lit "风险审核任务"]) ];
        MessageCard.sender_id := None;
        MessageCard.sender_type := "system";
        MessageCard.receiver_id := None;
        MessageCard.meta_data := JDict [];
        MessageCard.created_at := now;
        MessageCard.updated_at := now |} in
      (Success (JDict [
         ("status", JStr "success");
         ("audit_log_id", JInt audit_log_id);
         ("notified_at", JInt now) ]),
       with_db
         (with_message_cards (add_row message (message_cards (db w))) (db w))
         w)
  end.

(** What a worker does with a message that carries [retries] retries. *)
Fixpoint run_delivery (retries : nat) (now : Z) (msg : TaskMessage)
    (w : World) : TaskOutcome * World :=
  match msg with
  | send_refund_sms_msg refund_id phone message =>
      send_refund_sms now refund_id phone message w
  | process_refund_payment_msg refund_id amount payment_method =>
      process_refund_payment retries now refund_id amount payment_method w
  | notify_admin_audit_msg audit_log_id =>
      notify_admin_audit retries now audit_log_id w
  | retry_msg retries' task => run_delivery retries' now task w
  end.

(** What a worker does with a message taken from the broker; one that
    [delay] published carries no retry. *)
Definition run_task (now : Z) (msg : TaskMessage) (w : World)
    : TaskOutcome * World :=
  run_delivery 0 now msg w.

(** ** The reviewer decision endpoint ([app/api/v1/admin.py]) *)

Record HTTPException := { status_code : Z; detail : string }.

Inductive Result (A : Type) :=
  | Ok (a : A)
  | Raise (e : HTTPException).
Arguments Ok {A} a.
Arguments Raise {A} e.

Module AdminDecisionRequest.
Record t := { action : string; admin_comment : option string }.
End AdminDecisionRequest.

Module AdminDecisionResponse.
Record t := {
  success : bool;
  message : Text;
  audit_log_id : Z;
  action : string;
}.
End AdminDecisionResponse.

(** Truth value of an [Optional[int]]: [None] and [0] are false. *)
Definition truthy_id (o : option Z) : option Z :=
  match o with
  | Some z => if Z.eqb z 0 then None else Some z
  | None => None
  end.

Definition set_decision (now : Z) (action_enum : AuditAction.t)
    (current_admin_id : Z) (comment : option string) (a : AuditLog.t)
    : AuditLog.t :=
  {| AuditLog.thread_id := AuditLog.thread_id a;
     AuditLog.order_id := AuditLog.order_id a;
     AuditLog.refund_application_id := AuditLog.refund_application_id a;
     AuditLog.user_id := AuditLog.user_id a;
     AuditLog.trigger_reason := AuditLog.trigger_reason a;
     AuditLog.risk_level := AuditLog.risk_level a;
     AuditLog.action := action_enum;
     AuditLog.admin_id := Some current_admin_id;
     AuditLog.admin_comment := comment;
     AuditLog.context_snapshot := AuditLog.context_snapshot a;
     AuditLog.decision_metadata := AuditLog.decision_metadata a;
     AuditLog.created_at := AuditLog.created_at a;
     AuditLog.reviewed_at := Some now;
     AuditLog.updated_at := now |}.

(** What a commit writes to one column of a row the session loaded:
    the [UPDATE] lists the attributes whose value the call changed, so a
    column the call left as it was loaded keeps what the table holds. *)
Definition flushed {A} `{EqDecision A} (loaded assigned stored : A) : A :=
  if decide (assigned = loaded) then stored else assigned.

(** The [UPDATE] of an audit log the session loaded as [loaded] and the
    call turned into [assigned], on the row as the table holds it at the
    commit: [UPDATE audit_logs SET ... WHERE id = ...], with no condition
    on [action].  [action] is among the columns set, since the call got
    past the guard, and [updated_at] has [onupdate]. *)
Definition flush_decision (loaded assigned stored : AuditLog.t)
    : AuditLog.t :=
  {| AuditLog.thread_id := AuditLog.thread_id stored;
     AuditLog.order_id := AuditLog.order_id stored;
     AuditLog.refund_application_id := AuditLog.refund_application_id stored;
     AuditLog.user_id := AuditLog.user_id stored;
     AuditLog.trigger_reason := AuditLog.trigger_reason stored;
     AuditLog.risk_level := AuditLog.risk_level stored;
     AuditLog.action :=
       flushed (AuditLog.action loaded) (AuditLog.action assigned)
         (AuditLog.action stored);
     AuditLog.admin_id :=
       flushed (AuditLog.admin_id loaded) (AuditLog.admin_id assigned)
         (AuditLog.admin_id stored);
     AuditLog.admin_comment :=
       flushed (AuditLog.admin_comment loaded)
         (AuditLog.admin_comment assigned) (AuditLog.admin_comment stored);
     AuditLog.context_snapshot := AuditLog.context_snapshot stored;
     AuditLog.decision_metadata := AuditLog.decision_metadata stored;
     AuditLog.created_at := AuditLog.created_at stored;
     AuditLog.reviewed_at :=
       flushed (AuditLog.reviewed_at loaded) (AuditLog.reviewed_at assigned)
         (AuditLog.reviewed_at stored);
     AuditLog.updated_at := AuditLog.updated_at assigned |}.

Definition set_reviewed (now : Z) (status : RefundStatus.t)
    (note : option string) (reviewer : option Z) (r : RefundApplication.t)
    : RefundApplication.t :=
  {| RefundApplication.order_id := RefundApplication.order_id r;
     RefundApplication.user_id := RefundApplication.user_id r;
     RefundApplication.status := status;
     RefundApplication.reason_category := RefundApplication.reason_category r;
     RefundApplication.reason_detail := RefundApplication.reason_detail r;
     RefundApplication.refund_amount := RefundApplication.refund_amount r;
     RefundApplication.admin_note := note;
     RefundApplication.reviewed_by := reviewer;
     RefundApplication.reviewed_at := Some now;
     RefundApplication.created_at := RefundApplication.created_at r;
     RefundApplication.updated_at := now |}.

(** Step 3 and 4 of [admin_decision]: the linked refund application and
    the two tasks. *)
Definition update_refund (now : Z) (action_enum : AuditAction.t)
    (request : AdminDecisionRequest.t) (current_admin_id : Z)
    (audit_log : AuditLog.t) (w : World) : World :=
  match truthy_id (AuditLog.refund_application_id audit_log) with
  | None => w
  | Some rid =>
      match refund_applications (db w) !! rid with
      | None => w
      | Some refund =>
          let store (r : RefundApplication.t) (w0 : World) :=
            with_db
              (with_refund_applications
                 (<[rid := r]> (refund_applications (db w0))) (db w0))
              w0 in
          let note := AdminDecisionRequest.admin_comment request in
          if decide (action_enum = AuditAction.APPROVE) then
            let w1 :=
              store
                (set_reviewed now RefundStatus.APPROVED note
                   (Some current_admin_id) refund)
                w in
            let w2 :=
              delay
                (process_refund_payment_msg rid
                   (RefundApplication.refund_amount refund) "原支付方式")
                w1 in
            delay
              (send_refund_sms_msg rid "138****1234"
                 [Lit "您的退款申请已通过，退款金额¥";
                  FmtNum (RefundApplication.refund_amount refund);
                  Lit "将在3-5个工作日退回。"])
              w2
          else
            store
              (set_reviewed now RefundStatus.REJECTED note
                 (Some current_admin_id) refund)
              w
      end
  end.

(** [AuditAction.APPROVE if request.action == "APPROVE" else
    AuditAction.REJECT] *)
Definition action_enum_of (request : AdminDecisionRequest.t)
    : AuditAction.t :=
  if String.eqb (AdminDecisionRequest.action request) "APPROVE"
  then AuditAction.APPROVE else AuditAction.REJECT.

(** The text of the status change, step 5 of [admin_decision]. *)
Definition status_message_of (request : AdminDecisionRequest.t) : Text :=
  if decide (action_enum_of request = AuditAction.APPROVE)
  then [Lit " 审核通过，资金将在3-5个工作日内原路退回"]
  else [Lit " 审核未通过: ";
        FmtOptStr (AdminDecisionRequest.admin_comment request)].

(** Whether an id fits the [INTEGER] column it is compared with: the
    driver refuses to bind any other, and the request ends in a 500. *)
Definition int32 (z : Z) : bool :=
  Z.leb (- 2 ^ 31) z && Z.ltb z (2 ^ 31).

(** Lines 105-122 of [admin_decision]: the query and the two guards.
    The answer is the row as the query read it; no lock is taken on it.
    The key of a stored row fits its column, so the driver can only
    refuse an id for which there is no row. *)
Definition admin_decision_select (audit_log_id : Z) (w : World)
    : Result AuditLog.t :=
  match audit_logs (db w) !! audit_log_id with
  | None =>
      if int32 audit_log_id then
        Raise {| status_code := 404; detail := "Audit log not found" |}
      else
        Raise {| status_code := 500; detail := "Internal Server Error" |}
  | Some audit_log =>
      if decide (AuditLog.action audit_log ≠ AuditAction.PENDING) then
        Raise {| status_code := 400;
                 detail := "This audit has already been processed" |}
      else Ok audit_log
  end.

(** Lines 124-207 of [admin_decision]: what the call does with the row
    it read.  The commit writes the columns the call assigned to the row
    the table holds by then, [flush_decision].  The tasks are enqueued
    before the commit; were the row gone at the commit, the [UPDATE]
    would match nothing, the commit would raise and nothing would be
    written (no code deletes an audit log). *)
Definition admin_decision_apply (now : Z) (audit_log_id : Z)
    (request : AdminDecisionRequest.t) (current_admin_id : Z)
    (audit_log : AuditLog.t) (w : World)
    : Result AdminDecisionResponse.t * World :=
  let action := AdminDecisionRequest.action request in
  let comment := AdminDecisionRequest.admin_comment request in
  let action_enum := action_enum_of request in
  match audit_logs (db w) !! audit_log_id with
  | None =>
      (Raise {| status_code := 500; detail := "Internal Server Error" |},
       with_broker
         (broker
            (update_refund now action_enum request current_admin_id
               audit_log w))
         w)
  | Some stored =>
      let w1 :=
        with_db
          (with_audit_logs
             (<[audit_log_id :=
                  flush_decision audit_log
                    (set_decision now action_enum current_admin_id comment
                       audit_log)
                    stored]> (audit_logs (db w)))
             (db w))
          w in
      let w2 :=
        update_refund now action_enum request current_admin_id audit_log
          w1 in
      let status_message := status_message_of request in
      let message_card := {|
        MessageCard.thread_id := AuditLog.thread_id audit_log;
        MessageCard.message_type := MessageType.AUDIT_CARD;
        MessageCard.status := MessageStatus.SENT;
        MessageCard.content := JDict [
          ("card_type", JStr "audit_result");
          ("action", JStr action);
          ("message", JText status_message);
          ("admin_comment", opt_str comment);
          ("timestamp", JInt now) ];
        MessageCard.sender_id := Some current_admin_id;
        MessageCard.sender_type := "admin";
        MessageCard.receiver_id := Some (AuditLog.user_id audit_log);
        MessageCard.meta_data := JDict [];
        MessageCard.created_at := now;
        MessageCard.updated_at := now |} in
      let w3 :=
        with_db
          (with_message_cards
             (add_row message_card (message_cards (db w2))) (db w2))
          w2 in
      let w4 :=
        notify_status_change now (AuditLog.thread_id audit_log) action
          (Some [("message", JText status_message);
                 ("admin_comment", opt_str comment)])
          w3 in
      (Ok {| AdminDecisionResponse.success := true;
             AdminDecisionResponse.message :=
               [Lit "审核决策已提交:  "; FmtStr action];
             AdminDecisionResponse.audit_log_id := audit_log_id;
             AdminDecisionResponse.action := action |}, w4)
  end.

(** [admin_decision], for a call that no other call overlaps: its
    query and its commit see the same table. *)
Definition admin_decision (now : Z) (audit_log_id : Z)
    (request : AdminDecisionRequest.t) (current_admin_id : Z) (w : World)
    : Result AdminDecisionResponse.t * World :=
  match admin_decision_select audit_log_id w with
  | Raise e => (Raise e, w)
  | Ok audit_log =>
      admin_decision_apply now audit_log_id request current_admin_id
        audit_log w
  end.

(** Two calls of [admin_decision] on one case that overlap: both
    queries run before either commit, then the first call runs to its
    end and then the second.  Each call awaits between its query and its
    commit, so the server may run them in this order.  The two queries
    read the same table, so they give the same answer, and the second
    call still holds the row as its query read it. *)
Definition overlapping_decisions (now1 now2 : Z) (audit_log_id : Z)
    (request1 request2 : AdminDecisionRequest.t) (admin1 admin2 : Z)
    (w : World)
    : Result AdminDecisionResponse.t * Result AdminDecisionResponse.t
      * World :=
  match admin_decision_select audit_log_id w with
  | Raise e => (Raise e, Raise e, w)
  | Ok audit_log =>
      let '(response1, w1) :=
        admin_decision_apply now1 audit_log_id request1 admin1 audit_log
          w in
      let '(response2, w2) :=
        admin_decision_apply now2 audit_log_id request2 admin2 audit_log
          w1 in
      (response1, response2, w2)
  end.

(** ** The audit node ([app/graph/nodes.py], [check_refund_eligibility]) *)

(** The dictionary [handle_refund] leaves under ["refund_data"]; the
    node reads it with [get], so a key may be absent. *)
Module RefundData.
Record t := {
  refund_id : option Z;
  order_id : option Z;
  order_sn : string;
  amount : option Q;
  reason : string;
  reason_category : RefundReason.t;
}.
End RefundData.

(** The state dictionary as the node reads it.  [question], [user_id],
    [thread_id], [history], [order_data] and [answer] are keys of
    [AgentState] ([app/graph/state.py]); ["refund_data"] is not, the
    node reads it with [state.get], and it has a value only when the
    caller put it in the dictionary. *)
Module AgentState.
Record t := {
  question : string;
  user_id : Z;
  thread_id : string;
  history : list Json;
  order_data : option Json;
  refund_data : option RefundData.t;
  answer : option Text;
}.
End AgentState.

(** The update the node returns. *)
Module AuditUpdate.
Record t := {
  audit_required : bool;
  audit_log_id : option Z;
  answer : Text;
}.
End AuditUpdate.

Definition reason_name (r : RefundReason.t) : string :=
  match r with
  | RefundReason.QUALITY_ISSUE => "QUALITY_ISSUE"
  | RefundReason.SIZE_NOT_FIT => "SIZE_NOT_FIT"
  | RefundReason.NOT_AS_DESCRIBED => "NOT_AS_DESCRIBED"
  | RefundReason.CHANGED_MIND => "CHANGED_MIND"
  | RefundReason.OTHER => "OTHER"
  end.

Definition opt_num (o : option Q) : list (string * Json) :=
  match o with Some q => [("amount", JNum q)] | None => [] end.

Definition refund_data_json (d : RefundData.t) : Json :=
  JDict ([("refund_id", opt_int (RefundData.refund_id d));
          ("order_id", opt_int (RefundData.order_id d));
          ("order_sn", JStr (RefundData.order_sn d))]
         ++ opt_num (RefundData.amount d)
         ++ [("reason", JStr (RefundData.reason d));
             ("reason_category",
              JStr (reason_name (RefundData.reason_category d)))]).

(** [state.get("answer", "")] *)
Definition state_answer (state : AgentState.t) : Text :=
  match AgentState.answer state with Some a => a | None => [] end.

(** The low-risk branch: [session.get(RefundApplication, refund_id)] and,
    when the row is there, its approval. *)
Definition auto_approve (now : Z) (refund_id : option Z) (w : World)
    : World :=
  match refund_id with
  | None => w
  | Some rid =>
      match refund_applications (db w) !! rid with
      | None => w
      | Some refund =>
          with_db
            (with_refund_applications
               (<[rid :=
                    set_reviewed now RefundStatus.APPROVED
                      (RefundApplication.admin_note refund)
                      (RefundApplication.reviewed_by refund) refund]>
                  (refund_applications (db w)))
               (db w))
            w
      end
  end.

(** The [context_snapshot] the node hands to [AuditLog]. *)
Definition context_snapshot_of (state : AgentState.t)
    (refund_data : RefundData.t) : Json :=
  JDict [
    ("question", JStr (AgentState.question state));
    ("refund_data", refund_data_json refund_data);
    ("order_data",
     match AgentState.order_data state with
     | Some o => o
     | None => JNone
     end);
    ("history", JList (AgentState.history state)) ].

(** [check_refund_eligibility].  The result is [None] when the node
    raises: [context_snapshot] is a JSON column, so [session.commit()]
    serialises it with [json.dumps], which raises on a [Decimal] or a
    [datetime]; the session is left without a write, and the lines after
    the commit (the task, the notification, the [return]) are not
    reached.  The tier is the one of the [if]/[elif]/[else],
    [risk_tier]. *)
Definition check_refund_eligibility (settings : Settings) (now : Z)
    (state : AgentState.t) (w : World) : option AuditUpdate.t * World :=
  match AgentState.refund_data state with
  | None =>
      (Some {| AuditUpdate.audit_required := false;
               AuditUpdate.audit_log_id := None;
               AuditUpdate.answer := state_answer state |}, w)
  | Some refund_data =>
      let refund_amount :=
        match RefundData.amount refund_data with
        | Some a => a
        | None => 0%Q
        end in
      let refund_id := RefundData.refund_id refund_data in
      let escalate (risk_level : RiskLevel.t) (trigger_reason : Text) :=
        let audit_log := {|
          AuditLog.thread_id := AgentState.thread_id state;
          AuditLog.order_id := RefundData.order_id refund_data;
          AuditLog.refund_application_id := refund_id;
          AuditLog.user_id := AgentState.user_id state;
          AuditLog.trigger_reason := trigger_reason;
          AuditLog.risk_level := risk_level;
          AuditLog.action := AuditAction.PENDING;
          AuditLog.admin_id := None;
          AuditLog.admin_comment := None;
          AuditLog.context_snapshot := context_snapshot_of state refund_data;
          AuditLog.decision_metadata := JDict [];
          AuditLog.created_at := now;
          AuditLog.reviewed_at := None;
          AuditLog.updated_at := now |} in
        let audit_log_id := next_id (audit_logs (db w)) in
        let w1 :=
          with_db
            (with_audit_logs (add_row audit_log (audit_logs (db w))) (db w))
            w in
        let w2 := delay (notify_admin_audit_msg audit_log_id) w1 in
        let w3 :=
          notify_status_change now (AgentState.thread_id state)
            "WAITING_ADMIN"
            (Some [("risk_level", JRisk risk_level);
                   ("trigger_reason", JText trigger_reason);
                   ("audit_log_id", JInt audit_log_id);
                   ("refund_amount", JNum refund_amount)])
            w2 in
        if negb (json_ok (AuditLog.context_snapshot audit_log)) then (None, w)
        else
        (Some
         {| AuditUpdate.audit_required := true;
            AuditUpdate.audit_log_id := Some audit_log_id;
            AuditUpdate.answer :=
              [Lit " 您的退货申请需要人工审核

 申请编号: "; FmtOptInt refund_id;
               Lit "
 退款金额: ¥"; FmtNum refund_amount;
               Lit "
 风险等级: "; FmtRisk risk_level;
               Lit "
 触发原因: "] ++ trigger_reason ++
              [Lit "

我们将在 24 小时内完成审核，请耐心等待。您可以关闭页面，稍后返回查看结果。"] |},
         w3) in
      match risk_tier settings refund_amount with
      | RiskLevel.HIGH =>
        escalate RiskLevel.HIGH
          [Lit "高额退款申请：¥"; FmtNum refund_amount; Lit " (≥ ¥";
           FmtNum (HIGH_RISK_REFUND_AMOUNT settings); Lit ")"]
      | RiskLevel.MEDIUM =>
        escalate RiskLevel.MEDIUM
          [Lit "中额退款申请：¥"; FmtNum refund_amount; Lit " (≥ ¥";
           FmtNum (MEDIUM_RISK_REFUND_AMOUNT settings); Lit ")"]
      | _ =>
        let w1 := auto_approve now refund_id w in
        (Some
         {| AuditUpdate.audit_required := false;
            AuditUpdate.audit_log_id := None;
            AuditUpdate.answer :=
              [Lit " 您的退货申请已自动审核通过！

 申请编号:  "; FmtOptInt refund_id;
               Lit "
 退款金额: ¥"; FmtNum refund_amount;
               Lit "

资金将在 3-5 个工作日内原路退回，请注意查收。"] |}, w1)
      end
  end.

(** ** The polling endpoint ([app/api/v1/status.py]) *)

Module StatusResponse.
Record t := {
  thread_id : string;
  status : string;
  message : Text;
  data : Json;
  (** [None] stands for the empty string *)
  timestamp : option Z;
}.
End StatusResponse.

(** [select ... where P order by created_at desc limit 1] on a table.
    Among rows of equal [created_at] the database is free to choose; the
    model takes the one of greatest key. *)
Definition latest_by {A} (created_at : A -> Z) (P : A -> bool)
    (m : gmap Z A) : option (Z * A) :=
  map_fold
    (fun k row best =>
       if P row then
         match best with
         | None => Some (k, row)
         | Some (k', row') =>
             if Z.ltb (created_at row') (created_at row)
                || (Z.eqb (created_at row') (created_at row) && Z.ltb k' k)
             then Some (k, row) else best
         end
       else best)
    None m.

(** [x or default] on an optional string. *)
Definition str_or (x : option string) (default : string) : string :=
  match x with
  | Some s => if String.eqb s "" then default else s
  | None => default
  end.

(** The filter of the audit query of [get_thread_status]. *)
Definition of_thread (thread_id : string) (current_user_id : Z)
    (a : AuditLog.t) : bool :=
  String.eqb (AuditLog.thread_id a) thread_id
  && Z.eqb (AuditLog.user_id a) current_user_id.

(** [get_thread_status] *)
Definition get_thread_status (thread_id : string) (current_user_id : Z)
    (w : World) : StatusResponse.t * World :=
  let latest_audit :=
    latest_by AuditLog.created_at (of_thread thread_id current_user_id)
      (audit_logs (db w)) in
  let latest_message :=
    latest_by MessageCard.created_at
      (fun c => String.eqb (MessageCard.thread_id c) thread_id)
      (message_cards (db w)) in
  let processing := {|
    StatusResponse.thread_id := thread_id;
    StatusResponse.status := "PROCESSING";
    StatusResponse.message := [Lit "正在处理您的请求..."];
    StatusResponse.data := JDict [];
    StatusResponse.timestamp :=
      match latest_message with
      | Some (_, c) => Some (MessageCard.created_at c)
      | None => None
      end |} in
  let reviewed (a : AuditLog.t) := JDict [
    ("admin_comment", opt_str (AuditLog.admin_comment a));
    ("reviewed_at", opt_int (AuditLog.reviewed_at a)) ] in
  (match latest_audit with
   | Some (id, a) =>
       match AuditLog.action a with
       | AuditAction.PENDING =>
           {| StatusResponse.thread_id := thread_id;
              StatusResponse.status := "WAITING_ADMIN";
              StatusResponse.message := [Lit "人工审核中，请稍候.. ."];
              StatusResponse.data := JDict [
                ("audit_log_id", JInt id);
                ("risk_level", JRisk (AuditLog.risk_level a));
                ("trigger_reason", JText (AuditLog.trigger_reason a)) ];
              StatusResponse.timestamp := Some (AuditLog.created_at a) |}
       | AuditAction.APPROVE =>
           {| StatusResponse.thread_id := thread_id;
              StatusResponse.status := "APPROVED";
              StatusResponse.message := [Lit "审核通过，正在处理退款.. ."];
              StatusResponse.data := reviewed a;
              StatusResponse.timestamp := Some (AuditLog.updated_at a) |}
       | AuditAction.REJECT =>
           {| StatusResponse.thread_id := thread_id;
              StatusResponse.status := "REJECTED";
              StatusResponse.message :=
                [Lit "审核未通过:  ";
                 FmtStr (str_or (AuditLog.admin_comment a) "请联系客服")];
              StatusResponse.data := reviewed a;
              StatusResponse.timestamp := Some (AuditLog.updated_at a) |}
       | AuditAction.ESCALATE => processing
       end
   | None => processing
   end, w).

(** ** Eligibility and creation ([app/services/refund_service.py]) *)

Module RefundRules.
Definition REFUND_DEADLINE_DAYS : Z := 7.
Definition ALLOWED_ORDER_STATUSES : list OrderStatus.t :=
  [OrderStatus.DELIVERED; OrderStatus.SHIPPED].
Definition NON_REFUNDABLE_CATEGORIES : list string :=
  ["内衣"; "食品"; "定制商品"].
End RefundRules.

(** [needle in haystack] on strings. *)
Fixpoint contains (needle haystack : string) : bool :=
  String.prefix needle haystack
  || match haystack with
     | EmptyString => false
     | String _ rest => contains needle rest
     end.

(** The [where] clause of [_check_existing_refund]. *)
Definition open_for (order_id : Z) (r : RefundApplication.t) : bool :=
  Z.eqb (RefundApplication.order_id r) order_id
  && bool_decide (RefundApplication.status r
                    ∈ [RefundStatus.PENDING; RefundStatus.APPROVED]).

(** [RefundEligibilityChecker._check_existing_refund] *)
Definition _check_existing_refund (order_id : Z) (d : Db)
    : option (Z * RefundApplication.t) :=
  List.find (fun kr => open_for order_id (snd kr))
    (map_to_list (refund_applications d)).

Definition seconds_per_day : Z := 86400.

(** [RefundEligibilityChecker._check_time_limit] *)
Definition _check_time_limit (now : Z) (order : Order.t) : bool * Text :=
  let order_time := Order.created_at order in
  let days_passed := (now - order_time) / seconds_per_day in
  if Z.ltb RefundRules.REFUND_DEADLINE_DAYS days_passed then
    (false,
     [Lit "订单已超过退货期限（"; FmtInt RefundRules.REFUND_DEADLINE_DAYS;
      Lit "天），"; Lit "当前已过 "; FmtInt days_passed; Lit " 天"])
  else
    (true, [Lit "在退货期限内（已过 "; FmtInt days_passed; Lit " 天）"]).

(** The inner loop of [_check_category]. *)
Fixpoint first_category (item_name : string) (categories : list string)
    : option string :=
  match categories with
  | [] => None
  | non_refundable :: rest =>
      if contains non_refundable item_name then Some non_refundable
      else first_category item_name rest
  end.

(** [RefundEligibilityChecker._check_category] *)
Fixpoint check_items (items : list Item.t) : bool * Text :=
  match items with
  | [] => (true, [Lit "商品类别符合退货条件"])
  | item :: rest =>
      let item_name :=
        match Item.name item with Some n => n | None => "" end in
      match first_category item_name RefundRules.NON_REFUNDABLE_CATEGORIES
      with
      | Some non_refundable =>
          (false,
           [Lit "订单包含不可退货商品："; FmtStr item_name; Lit "（";
            FmtStr non_refundable; Lit "类商品不支持退货）"])
      | None => check_items rest
      end
  end.

Definition _check_category (order : Order.t) : bool * Text :=
  check_items (Order.items order).

(** [RefundEligibilityChecker.check_eligibility]; [order_id] is
    [order.id]. *)
Definition check_eligibility (now : Z) (order_id : Z) (order : Order.t)
    (d : Db) : bool * Text :=
  if negb (bool_decide
             (Order.status order ∈ RefundRules.ALLOWED_ORDER_STATUSES))
  then
    (false,
     [Lit "订单状态为 "; FmtOrderStatus (Order.status order);
      Lit "，只有已发货或已签收的订单才能退货"])
  else
    match _check_existing_refund order_id d with
    | Some (_, existing_refund) =>
        (false,
         [Lit "该订单已存在退货申请（状态：";
          FmtRefundStatus (RefundApplication.status existing_refund);
          Lit "）"])
    | None =>
        let '(time_limit_check, time_msg) := _check_time_limit now order in
        if negb time_limit_check then (false, time_msg)
        else
          let '(category_check, category_msg) := _check_category order in
          if negb category_check then (false, category_msg)
          else (true, [Lit "订单符合退货条件"])
    end.

(** [RefundApplicationService.create_refund_application].
    [commit_error] is the exception [session.commit()] raises, if any. *)
Definition create_refund_application (now : Z) (commit_error : option string)
    (order_id : Z) (user_id : Z) (reason_detail : string)
    (reason_category : option RefundReason.t) (w : World)
    : (bool * Text * option (Z * RefundApplication.t)) * World :=
  let order :=
    match orders (db w) !! order_id with
    | Some o => if Z.eqb (Order.user_id o) user_id then Some o else None
    | None => None
    end in
  match order with
  | None => ((false, [Lit "订单不存在或无权访问"], None), w)
  | Some order =>
      let '(is_eligible, eligibility_msg) :=
        check_eligibility now order_id order (db w) in
      if negb is_eligible then
        ((false, ([Lit "退货申请被拒绝："] ++ eligibility_msg)%list, None), w)
      else
        let refund_app := {|
          RefundApplication.order_id := order_id;
          RefundApplication.user_id := user_id;
          RefundApplication.status := RefundStatus.PENDING;
          RefundApplication.reason_category := reason_category;
          RefundApplication.reason_detail := reason_detail;
          RefundApplication.refund_amount := Order.total_amount order;
          RefundApplication.admin_note := None;
          RefundApplication.reviewed_by := None;
          RefundApplication.reviewed_at := None;
          RefundApplication.created_at := now;
          RefundApplication.updated_at := now |} in
        match commit_error with
        | None =>
            let id := next_id (refund_applications (db w)) in
            ((true,
              [Lit "退货申请已提交（申请编号："; FmtInt id;
               Lit "），等待审核"],
              Some (id, refund_app)),
             with_db
               (with_refund_applications
                  (add_row refund_app (refund_applications (db w))) (db w))
               w)
        | Some e =>
            ((false, [Lit "提交失败："; FmtStr e], None), w)
        end
  end.

(** ** The refund node ([app/graph/nodes.py], [handle_refund]) *)

(** The update [handle_refund] returns; [None] is a key the update does
    not have. *)
Module RefundUpdate.
Record t := {
  answer : Text;
  refund_flow_active : option bool;
  order_data : option Json;
  refund_data : option RefundData.t;
}.
End RefundUpdate.

(** An item as [order.items] holds it: the keys it has. *)
Definition item_json (i : Item.t) : Json :=
  JDict ((match Item.name i with
          | Some name => [("name", JStr name)]
          | None => []
          end
          ++ match Item.qty i with
             | Some qty => [("qty", JInt qty)]
             | None => []
             end)%list).

(** [order.model_dump()]: the attributes of the row as Python values.
    The amount comes from a [Numeric] column as a [Decimal], and the two
    times are [datetime] objects. *)
Definition order_json (id : Z) (o : Order.t) : Json :=
  JDict [
    ("id", JInt id);
    ("order_sn", JStr (Order.order_sn o));
    ("user_id", JInt (Order.user_id o));
    ("status", JText [FmtOrderStatus (Order.status o)]);
    ("total_amount", JDecimal (Order.total_amount o));
    ("items", JList (item_json <$> Order.items o));
    ("tracking_number", opt_str (Order.tracking_number o));
    ("shipping_address", JStr (Order.shipping_address o));
    ("created_at", JDatetime (Order.created_at o));
    ("updated_at", JDatetime (Order.updated_at o)) ].

(** The reason the node reads off the question. *)
Definition reason_of (question : string) : RefundReason.t :=
  if contains "质量" question || contains "破损" question
  then RefundReason.QUALITY_ISSUE
  else if contains "尺码" question || contains "大小" question
          || contains "不合适" question
  then RefundReason.SIZE_NOT_FIT
  else if contains "不符" question || contains "描述" question
  then RefundReason.NOT_AS_DESCRIBED
  else RefundReason.OTHER.

(** The names of the items of step 4, those that contain "内衣". *)
Definition non_returnable_names (items : list Item.t) : list string :=
  omap
    (fun i =>
       let n := match Item.name i with Some n => n | None => "" end in
       if contains "内衣" n then Some n else None)
    items.

(** [handle_refund].  [order_sn_match] is what
    [re.search(r'(SN\d+)', question, re.IGNORECASE)] found, in upper
    case; the order number is unique among orders. *)
Definition handle_refund (now : Z) (order_sn_match : option string)
    (state : AgentState.t) (w : World) : RefundUpdate.t * World :=
  let stop (answer : Text) :=
    ({| RefundUpdate.answer := answer;
        RefundUpdate.refund_flow_active := Some false;
        RefundUpdate.order_data := None;
        RefundUpdate.refund_data := None |}, w) in
  let question := AgentState.question state in
  let user_id := AgentState.user_id state in
  match order_sn_match with
  | None => stop [Lit " 请提供订单号。例如：我要退货，订单号 SN20240003"]
  | Some order_sn =>
      match List.find
              (fun ko => String.eqb (Order.order_sn (snd ko)) order_sn
                         && Z.eqb (Order.user_id (snd ko)) user_id)
              (map_to_list (orders (db w)))
      with
      | None =>
          stop [Lit " 未找到订单 "; FmtStr order_sn;
                Lit "，请确认订单号是否正确。"]
      | Some (id, order) =>
          if negb (bool_decide
                     (Order.status order
                        ∈ [OrderStatus.PAID; OrderStatus.SHIPPED;
                           OrderStatus.DELIVERED]))
          then
            stop [Lit " 订单 "; FmtStr order_sn; Lit " 当前状态为 ";
                  FmtOrderStatus (Order.status order);
                  Lit "，不符合退货条件。"]
          else
            match non_returnable_names (Order.items order) with
            | _ :: _ as non_returnable =>
                stop [Lit " 该订单包含不可退货商品：";
                      FmtStr (String.concat ", " non_returnable);
                      Lit "。根据平台政策，贴身衣物拆封后不支持退货。"]
            | [] =>
                let reason_detail := question in
                let reason_category := reason_of question in
                let refund := {|
                  RefundApplication.order_id := id;
                  RefundApplication.user_id := user_id;
                  RefundApplication.status := RefundStatus.PENDING;
                  RefundApplication.reason_category := Some reason_category;
                  RefundApplication.reason_detail := reason_detail;
                  RefundApplication.refund_amount :=
                    Order.total_amount order;
                  RefundApplication.admin_note := None;
                  RefundApplication.reviewed_by := None;
                  RefundApplication.reviewed_at := None;
                  RefundApplication.created_at := now;
                  RefundApplication.updated_at := now |} in
                let refund_id := next_id (refund_applications (db w)) in
                ({| RefundUpdate.answer := [];
                    RefundUpdate.refund_flow_active := None;
                    RefundUpdate.order_data := Some (order_json id order);
                    RefundUpdate.refund_data := Some {|
                      RefundData.refund_id := Some refund_id;
                      RefundData.order_id := Some id;
                      RefundData.order_sn := order_sn;
                      RefundData.amount := Some (Order.total_amount order);
                      RefundData.reason := reason_detail;
                      RefundData.reason_category := reason_category |} |},
                 with_db
                   (with_refund_applications
                      (add_row refund (refund_applications (db w))) (db w))
                   w)
            end
      end
  end.

(** ** The operations of the pipeline, as one transition system *)

Inductive Op :=
  | Decide (now : Z) (audit_log_id : Z) (request : AdminDecisionRequest.t)
      (current_admin_id : Z)
  | Ask (now : Z) (order_sn_match : option string) (state : AgentState.t)
  | Audit (settings : Settings) (now : Z) (state : AgentState.t)
  | Create (now : Z) (commit_error : option string) (order_id user_id : Z)
      (reason_detail : string) (reason_category : option RefundReason.t)
  | Status (thread_id : string) (current_user_id : Z)
  | Work (now : Z) (msg : TaskMessage).

Definition step (op : Op) (w : World) : World :=
  match op with
  | Decide now audit_log_id request current_admin_id =>
      (admin_decision now audit_log_id request current_admin_id w).2
  | Ask now order_sn_match state =>
      (handle_refund now order_sn_match state w).2
  | Audit settings now state =>
      (check_refund_eligibility settings now state w).2
  | Create now commit_error order_id user_id reason_detail reason_category =>
      (create_refund_application now commit_error order_id user_id
         reason_detail reason_category w).2
  | Status thread_id current_user_id =>
      (get_thread_status thread_id current_user_id w).2
  | Work now msg => (run_task now msg w).2
  end.

Definition run (ops : list Op) (w : World) : World :=
  foldl (fun acc op => step op acc) w ops.

(** The answer of [admin_decision] to a case it will not decide again. *)
Definition already_processed : HTTPException :=
  {| status_code := 400; detail := "This audit has already been processed" |}.

(** ** A small shop, for the examples *)

Definition order_3 : Order.t := {|
  Order.order_sn := "SN20240003";
  Order.user_id := 1;
  Order.status := OrderStatus.DELIVERED;
  Order.total_amount := 2500;
  Order.items := [{| Item.name := Some "手机"; Item.qty := Some 1 |}];
  Order.tracking_number := None;
  Order.shipping_address := "上海";
  Order.created_at := 0;
  Order.updated_at := 0 |}.

Definition order_4 : Order.t := {|
  Order.order_sn := "SN20240004";
  Order.user_id := 1;
  Order.status := OrderStatus.DELIVERED;
  Order.total_amount := 100;
  Order.items := [{| Item.name := Some "袜子"; Item.qty := Some 2 |}];
  Order.tracking_number := None;
  Order.shipping_address := "上海";
  Order.created_at := 0;
  Order.updated_at := 0 |}.

(** Two orders of user 1; one customer socket (100) open and one (101)
    closed on thread ["thread-1"]; one reviewer socket (200). *)
Definition shop : World := {|
  db := {| orders := <[3 := order_3]> (<[4 := order_4]> ∅);
           refund_applications := ∅;
           audit_logs := ∅;
           message_cards := ∅ |};
  broker := [];
  manager := {|
    active_connections := <[1 := <["thread-1" := 100]> ∅]> ∅;
    admin_connections := <[9 := 200]> ∅;
    thread_subscribers :=
      <["thread-1" := {[100; 101]}]> (<["thread-2" := {[102]}]> ∅) |};
  closed := {[101]};
  wire := [];
  payments := [];
  sms := [] |}.

Definition refund_state (thread_id : string) (refund_id order_id : Z)
    (amount : Q) : AgentState.t := {|
  AgentState.question := "我要退货";
  AgentState.user_id := 1;
  AgentState.thread_id := thread_id;
  AgentState.history := [];
  AgentState.order_data := None;
  AgentState.refund_data := Some {|
    RefundData.refund_id := Some refund_id;
    RefundData.order_id := Some order_id;
    RefundData.order_sn := "SN";
    RefundData.amount := Some amount;
    RefundData.reason := "我要退货";
    RefundData.reason_category := RefundReason.OTHER |};
  AgentState.answer := None |}.

(** The customer asks to return order 3 (2500): the application is
    created and the audit node escalates it. *)
Definition shop_pending : World :=
  run [Create 100 None 3 1 "质量问题" (Some RefundReason.QUALITY_ISSUE);
       Audit default_settings 110 (refund_state "thread-1" 1 3 2500)]
    shop.

Definition approve (comment : option string) : AdminDecisionRequest.t :=
  {| AdminDecisionRequest.action := "APPROVE";
     AdminDecisionRequest.admin_comment := comment |}.

Definition reject (comment : option string) : AdminDecisionRequest.t :=
  {| AdminDecisionRequest.action := "REJECT";
     AdminDecisionRequest.admin_comment := comment |}.

(** Reviewer 7 rejects the case. *)
Definition shop_rejected : World :=
  step (Decide 120 1 (reject (Some "quality unverified")) 7) shop_pending.

(** The customer asks to return order 4 (100): the audit node approves
    it on its own. *)
Definition shop_auto : World :=
  run [Create 100 None 4 1 "不想要了" (Some RefundReason.CHANGED_MIND);
       Audit default_settings 110 (refund_state "thread-2" 1 4 100)]
    shop.

(** A case is decided when its audit log exists and is no longer
    pending. *)
Definition decided (audit_log_id : Z) (w : World) : bool :=
  match audit_logs (db w) !! audit_log_id with
  | Some a => negb (bool_decide (AuditLog.action a = AuditAction.PENDING))
  | None => false
  end.

(** The audit log the node wrote for order 3. *)
Definition case_1 : AuditLog.t := {|
  AuditLog.thread_id := "thread-1";
  AuditLog.order_id := Some 3;
  AuditLog.refund_application_id := Some 1;
  AuditLog.user_id := 1;
  AuditLog.trigger_reason :=
    [Lit "高额退款申请：¥"; FmtNum 2500; Lit " (≥ ¥"; FmtNum 2000; Lit ")"];
  AuditLog.risk_level := RiskLevel.HIGH;
  AuditLog.action := AuditAction.PENDING;
  AuditLog.admin_id := None;
  AuditLog.admin_comment := None;
  AuditLog.context_snapshot := JDict [
    ("question", JStr "我要退货");
    ("refund_data", JDict [
       ("refund_id", JInt 1); ("order_id", JInt 3); ("order_sn", JStr "SN");
       ("amount", JNum 2500); ("reason", JStr "我要退货");
       ("reason_category", JStr "OTHER") ]);
    ("order_data", JNone);
    ("history", JList []) ];
  AuditLog.decision_metadata := JDict [];
  AuditLog.created_at := 110;
  AuditLog.reviewed_at := None;
  AuditLog.updated_at := 110 |}.

(** A state whose ["refund_data"] has an amount and no ["refund_id"]:
    the audit log the node writes for it is linked to no refund
    application. *)
Definition unlinked_state : AgentState.t := {|
  AgentState.question := "我要退款 2500 元";
  AgentState.user_id := 1;
  AgentState.thread_id := "thread-1";
  AgentState.history := [];
  AgentState.order_data := None;
  AgentState.refund_data := Some {|
    RefundData.refund_id := None;
    RefundData.order_id := Some 3;
    RefundData.order_sn := "SN20240003";
    RefundData.amount := Some 2500%Q;
    RefundData.reason := "我要退款 2500 元";
    RefundData.reason_category := RefundReason.OTHER |};
  AgentState.answer := None |}.

Definition shop_unlinked : World :=
  step (Audit default_settings 110 unlinked_state) shop.

(** The application for order 4, before the audit node sees it. *)
Definition shop_small : World :=
  step (Create 100 None 4 1 "不想要了" (Some RefundReason.CHANGED_MIND)) shop.

(** Reviewer 7 approves the case of order 3. *)
Definition shop_approved : World :=
  step (Decide 120 1 (approve None) 7) shop_pending.

(** The settlement task [admin_decision] enqueues for that case. *)
Definition settle_1 : TaskMessage :=
  process_refund_payment_msg 1 2500 "原支付方式".

(** What a status answer may say. *)
Definition rendered_statuses : list string :=
  ["PROCESSING"; "WAITING_ADMIN"; "APPROVED"; "REJECTED"].

(** The status [get_thread_status] gives for the row it selected. *)
Definition render (latest_audit : option (Z * AuditLog.t)) : string :=
  match latest_audit with
  | Some (_, a) =>
      match AuditLog.action a with
      | AuditAction.PENDING => "WAITING_ADMIN"
      | AuditAction.APPROVE => "APPROVED"
      | AuditAction.REJECT => "REJECTED"
      | AuditAction.ESCALATE => "PROCESSING"
      end
  | None => "PROCESSING"
  end.

(** At most one application that is [PENDING] or [APPROVED] for an
    order. *)
Definition one_open_refund_per_order (d : Db) : Prop :=
  forall id1 id2 r1 r2,
    refund_applications d !! id1 = Some r1 ->
    refund_applications d !! id2 = Some r2 ->
    open_for (RefundApplication.order_id r1) r1 = true ->
    open_for (RefundApplication.order_id r1) r2 = true ->
    id1 = id2.

(** The order of that key belongs to that user. *)
Definition owns (user_id order_id : Z) (d : Db) : bool :=
  match orders d !! order_id with
  | Some o => Z.eqb (Order.user_id o) user_id
  | None => false
  end.

Definition is_create (op : Op) : bool :=
  match op with Create _ _ _ _ _ _ => true | _ => false end.

(** ** Notions used in the statements *)

(** What [latest_by] returns: a row that passes the filter and is not
    older than any other that does; nothing when none passes. *)
Definition is_latest {A} (created_at : A -> Z) (P : A -> bool)
    (m : gmap Z A) (best : option (Z * A)) : Prop :=
  match best with
  | Some (k, a) =>
      m !! k = Some a /\ P a = true /\
      forall k' a', m !! k' = Some a' -> P a' = true ->
                    created_at a' <= created_at a
  | None => forall k a, m !! k = Some a -> P a = false
  end.

(** Sending changes the wire and the registry of the manager, nothing
    else. *)
Definition only_sends (w w' : World) : Prop :=
  db w' = db w /\ broker w' = broker w /\ closed w' = closed w /\
  payments w' = payments w /\ sms w' = sms w.

(** ** More of the connection manager ([app/websocket/manager.py]) *)

Definition with_active_connections
    (m : gmap Z (gmap string WebSocket)) (c : ConnectionManager)
    : ConnectionManager :=
  {| active_connections := m;
     admin_connections := admin_connections c;
     thread_subscribers := thread_subscribers c |}.

(** [ConnectionManager.connect_user]; [websocket.accept()] is taken to
    succeed. *)
Definition connect_user (websocket : WebSocket) (user_id : Z)
    (thread_id : string) (w : World) : World :=
  let c := manager w in
  let mine := default ∅ (active_connections c !! user_id) in
  let subscribers := default ∅ (thread_subscribers c !! thread_id) in
  with_manager
    {| active_connections :=
         <[user_id := <[thread_id := websocket]> mine]>
           (active_connections c);
       admin_connections := admin_connections c;
       thread_subscribers :=
         <[thread_id := subscribers ∪ {[websocket]}]>
           (thread_subscribers c) |}
    w.

(** [ConnectionManager.disconnect_user] *)
Definition disconnect_user (user_id : Z) (thread_id : string) (w : World)
    : World :=
  let c := manager w in
  match active_connections c !! user_id with
  | None => w
  | Some mine =>
      let ws := mine !! thread_id in
      let mine' := delete thread_id mine in
      let subscribers' :=
        match ws, thread_subscribers c !! thread_id with
        | Some ws, Some subscribers =>
            <[thread_id := subscribers ∖ {[ws]}]> (thread_subscribers c)
        | _, _ => thread_subscribers c
        end in
      with_manager
        {| active_connections :=
             if decide (mine' = ∅)
             then delete user_id (active_connections c)
             else <[user_id := mine']> (active_connections c);
           admin_connections := admin_connections c;
           thread_subscribers := subscribers' |}
        w
  end.

(** [ConnectionManager.send_to_user] *)
Definition send_to_user (user_id : Z) (thread_id : string) (message : Json)
    (w : World) : World :=
  match active_connections (manager w) !! user_id with
  | None => w
  | Some mine =>
      match mine !! thread_id with
      | None => w
      | Some websocket =>
          match send_json websocket message w with
          | Some w' => w'
          | None => disconnect_user user_id thread_id w
          end
      end
  end.

(** ** The reviewer queue ([app/api/v1/admin.py], [get_pending_tasks]) *)

Module AuditTask.
Record t := {
  audit_log_id : Z;
  thread_id : string;
  user_id : Z;
  refund_application_id : option Z;
  order_id : option Z;
  trigger_reason : Text;
  risk_level : RiskLevel.t;
  context_snapshot : Json;
  created_at : Z;
}.
End AuditTask.

(** The value of a member of [RiskLevel], as the column stores it. *)
Definition risk_name (r : RiskLevel.t) : string :=
  match r with
  | RiskLevel.LOW => "LOW"
  | RiskLevel.MEDIUM => "MEDIUM"
  | RiskLevel.HIGH => "HIGH"
  | RiskLevel.CRITICAL => "CRITICAL"
  end.

(** [order_by(desc(created_at))]: rows of equal [created_at] come in an
    order the database chooses; the model keeps them as the table lists
    them. *)
Definition newer_first {A} (created_at : A -> Z) (x y : Z * A) : Prop :=
  created_at y.2 <= created_at x.2.

#[global] Instance newer_first_dec {A} (created_at : A -> Z) (x y : Z * A) :
  Decision (newer_first created_at x y).
Proof. unfold newer_first. apply _. Defined.

Definition order_by_desc {A} (created_at : A -> Z) (rows : list (Z * A))
    : list (Z * A) :=
  merge_sort (newer_first created_at) rows.

(** The [where] clauses of [get_pending_tasks]; an empty [risk_level] is
    no filter. *)
Definition pending_with (risk_level : option string) (a : AuditLog.t)
    : bool :=
  bool_decide (AuditLog.action a = AuditAction.PENDING)
  && match risk_level with
     | None => true
     | Some r =>
         if String.eqb r "" then true
         else String.eqb (risk_name (AuditLog.risk_level a)) r
     end.

Definition audit_task (row : Z * AuditLog.t) : AuditTask.t :=
  {| AuditTask.audit_log_id := row.1;
     AuditTask.thread_id := AuditLog.thread_id row.2;
     AuditTask.user_id := AuditLog.user_id row.2;
     AuditTask.refund_application_id := AuditLog.refund_application_id row.2;
     AuditTask.order_id := AuditLog.order_id row.2;
     AuditTask.trigger_reason := AuditLog.trigger_reason row.2;
     AuditTask.risk_level := AuditLog.risk_level row.2;
     AuditTask.context_snapshot := AuditLog.context_snapshot row.2;
     AuditTask.created_at := AuditLog.created_at row.2 |}.

(** [get_pending_tasks] *)
Definition get_pending_tasks (risk_level : option string) (w : World)
    : list AuditTask.t * World :=
  (audit_task
     <$> order_by_desc AuditLog.created_at
           (List.filter (fun row => pending_with risk_level row.2)
              (map_to_list (audit_logs (db w)))),
   w).

(** ** The graph ([app/graph/workflow.py]) *)

Module Node.
Inductive t :=
  | START
  | intent_router
  | retrieve
  | query_order
  | handle_refund
  | check_refund_eligibility
  | generate
  | END.
#[global] Instance eq_dec : EqDecision t.
Proof. solve_decision. Defined.
End Node.

(** [route_intent]; the argument is [state.get("intent")]. *)
Definition route_intent (intent : option string) : Node.t :=
  match intent with
  | Some i =>
      if String.eqb i "ORDER" then Node.query_order
      else if String.eqb i "POLICY" then Node.retrieve
      else if String.eqb i "REFUND" then Node.handle_refund
      else Node.generate
  | None => Node.generate
  end.

(** [route_after_refund]; the argument is [state.get("audit_required",
    False)]. *)
Definition route_after_refund (audit_required : bool) : Node.t :=
  if audit_required then Node.END else Node.generate.

(** The edges of [workflow]: the node a run enters when it leaves
    [node], given the intent and the [audit_required] the state holds at
    that moment. *)
Definition successor (intent : option string) (audit_required : bool)
    (node : Node.t) : option Node.t :=
  match node with
  | Node.START => Some Node.intent_router
  | Node.intent_router => Some (route_intent intent)
  | Node.query_order => Some Node.generate
  | Node.retrieve => Some Node.generate
  | Node.handle_refund => Some Node.check_refund_eligibility
  | Node.check_refund_eligibility => Some (route_after_refund audit_required)
  | Node.generate => Some Node.END
  | Node.END => None
  end.

(** The nodes a run visits from [node] on, in at most [fuel] steps. *)
Fixpoint visit (fuel : nat) (intent : option string) (audit_required : bool)
    (node : Node.t) : list Node.t :=
  node ::
  match fuel with
  | O => []
  | S fuel' =>
      match successor intent audit_required node with
      | Some next => visit fuel' intent audit_required next
      | None => []
      end
  end.

(** ** The order node ([app/graph/nodes.py], [query_order]) *)

(** The update [query_order] returns. *)
Module OrderUpdate.
Record t := {
  order_data : option Json;
  context : list Text;
}.
End OrderUpdate.

(** [f"{i['name']}(x{i['qty']})"]; [None] stands for the [KeyError] of
    an item without a name or without a quantity. *)
Definition item_str (i : Item.t) : option Text :=
  match Item.name i, Item.qty i with
  | Some name, Some qty =>
      Some [FmtStr name; Lit "(x"; FmtInt qty; Lit ")"]
  | _, _ => None
  end.

(** [sep.join(parts)] *)
Fixpoint join (sep : Text) (parts : list Text) : Text :=
  match parts with
  | [] => []
  | [part] => part
  | part :: rest => (part ++ sep ++ join sep rest)%list
  end.

Definition items_str (items : list Item.t) : option Text :=
  join [Lit ", "] <$> mapM item_str items.

(** The filter of the query [query_order] makes when the question names
    no order. *)
Definition of_user (user_id : Z) (o : Order.t) : bool :=
  Z.eqb (Order.user_id o) user_id.

(** The order of that number and user: the query of [query_order] and
    of the tools. *)
Definition order_by_sn (order_sn : string) (user_id : Z) (d : Db)
    : option (Z * Order.t) :=
  List.find
    (fun ko => String.eqb (Order.order_sn ko.2) order_sn
               && Z.eqb (Order.user_id ko.2) user_id)
    (map_to_list (orders d)).

(** [query_order].  [order_sn_match] is what
    [re.search(r'SN\d+', question.upper())] found; the result [None]
    stands for the [KeyError] raised while the items are formatted. *)
Definition query_order (order_sn_match : option string)
    (state : AgentState.t) (w : World) : option OrderUpdate.t * World :=
  let user_id := AgentState.user_id state in
  let order :=
    match order_sn_match with
    | None => latest_by Order.created_at (of_user user_id) (orders (db w))
    | Some order_sn => order_by_sn order_sn user_id (db w)
    end in
  match order with
  | None =>
      (Some {| OrderUpdate.order_data := None;
               OrderUpdate.context :=
                 [[Lit "用户询问了订单，但数据库中未查到相关记录。"]] |}, w)
  | Some (id, order) =>
      (match items_str (Order.items order) with
       | None => None
       | Some items =>
           Some {| OrderUpdate.order_data := Some (order_json id order);
                   OrderUpdate.context :=
                     [([Lit "订单号: "; FmtStr (Order.order_sn order); Lit "
"; Lit "状态: "; FmtOrderStatus (Order.status order); Lit "
"; Lit "商品:  "] ++ items ++ [Lit "
"; Lit "金额: "; FmtNum (Order.total_amount order); Lit "元
"; Lit "物流单号: ";
                        FmtStr (str_or (Order.tracking_number order) "暂无")])%list]
                |}
       end, w)
  end.

(** ** Queries of the service ([app/services/refund_service.py]) *)

(** [RefundApplicationService.get_user_refund_applications] *)
Definition get_user_refund_applications (user_id : Z)
    (status : option RefundStatus.t) (d : Db)
    : list (Z * RefundApplication.t) :=
  order_by_desc RefundApplication.created_at
    (List.filter
       (fun row =>
          Z.eqb (RefundApplication.user_id row.2) user_id
          && match status with
             | Some s => bool_decide (RefundApplication.status row.2 = s)
             | None => true
             end)
       (map_to_list (refund_applications d))).

(** [RefundApplicationService.get_refund_by_id] *)
Definition get_refund_by_id (refund_id user_id : Z) (d : Db)
    : option RefundApplication.t :=
  match refund_applications d !! refund_id with
  | Some r =>
      if Z.eqb (RefundApplication.user_id r) user_id then Some r else None
  | None => None
  end.

(** ** The tool that files an application ([app/graph/tools.py]) *)

(** [RefundReason(value)]; [None] stands for [ValueError]. *)
Definition reason_of_name (value : string) : option RefundReason.t :=
  List.find (fun r => String.eqb (reason_name r) value)
    [RefundReason.QUALITY_ISSUE; RefundReason.SIZE_NOT_FIT;
     RefundReason.NOT_AS_DESCRIBED; RefundReason.CHANGED_MIND;
     RefundReason.OTHER].

(** Step 2 of [submit_refund_application]. *)
Definition category_of (reason_category : option string)
    : option RefundReason.t :=
  match reason_category with
  | None => None
  | Some c =>
      if String.eqb c "" then None
      else match reason_of_name c with
           | Some r => Some r
           | None => Some RefundReason.OTHER
           end
  end.

(** The tool [submit_refund_application]. *)
Definition submit_refund_application (now : Z)
    (commit_error : option string) (order_sn : string) (user_id : Z)
    (reason_detail : string) (reason_category : option string) (w : World)
    : Text * World :=
  match order_by_sn order_sn user_id (db w) with
  | None =>
      ([Lit "❌ 未找到订单 "; FmtStr order_sn; Lit "，或您无权访问此订单。"],
       w)
  | Some (id, order) =>
      let category := category_of reason_category in
      let '(success, message, refund_app, w') :=
        create_refund_application now commit_error id user_id reason_detail
          category w in
      match success, refund_app with
      | true, Some (refund_id, app) =>
          ([Lit "✅ 退货申请提交成功！

"; Lit "📋 申请信息：
"; Lit "  - 申请编号：#"; FmtInt refund_id; Lit "
"; Lit "  - 订单号："; FmtStr order_sn; Lit "
"; Lit "  - 退款金额：¥"; FmtNum (RefundApplication.refund_amount app); Lit "
"; Lit "  - 申请状态："; FmtRefundStatus (RefundApplication.status app);
            Lit "（待审核）
"; Lit "  - 退货原因："; FmtStr (RefundApplication.reason_detail app); Lit "

"; Lit "⏳ 后续流程：
"; Lit "  1. 我们会在 1-2 个工作日内审核您的申请
"; Lit "  2. 审核通过后，请将商品寄回（保持包装完好）
"; Lit "  3. 收到退货后，我们会在 3-5 个工作日内完成退款

"; Lit "💡 温馨提示：您可以随时查询申请进度。"], w')
      | _, _ =>
          (([Lit "❌ 退货申请失败。
原因："] ++ message)%list, w')
      end
  end.

(** A request whose action is spelled in lower case. *)
Definition lower_case_approve : AdminDecisionRequest.t :=
  {| AdminDecisionRequest.action := "approve";
     AdminDecisionRequest.admin_comment := None |}.

(** Newest first, on tasks. *)
Definition task_newer_first (x y : AuditTask.t) : Prop :=
  AuditTask.created_at y <= AuditTask.created_at x.

(** The application for order 3, before the audit node sees it. *)
Definition shop_big : World :=
  step (Create 100 None 3 1 "质量问题" (Some RefundReason.QUALITY_ISSUE))
    shop.

(** The amount the audit node reads: [refund_data.get("amount", 0)]. *)
Definition amount_of (rd : RefundData.t) : Q :=
  match RefundData.amount rd with Some a => a | None => 0%Q end.

(** The frame [notify_status_change] sends to the reviewers. *)
Definition new_audit_task_frame (now : Z) (thread_id : string)
    (data : list (string * Json)) : Json :=
  JDict [
    ("type", JStr "new_audit_task");
    ("thread_id", JStr thread_id);
    ("data", JDict data);
    ("timestamp", JInt now) ].

(** ** What stays of a row *)

(** The columns that say which case an audit log is about. *)
Definition same_case (a a' : AuditLog.t) : Prop :=
  AuditLog.thread_id a' = AuditLog.thread_id a
  /\ AuditLog.user_id a' = AuditLog.user_id a
  /\ AuditLog.order_id a' = AuditLog.order_id a
  /\ AuditLog.refund_application_id a' = AuditLog.refund_application_id a
  /\ AuditLog.risk_level a' = AuditLog.risk_level a
  /\ AuditLog.trigger_reason a' = AuditLog.trigger_reason a
  /\ AuditLog.context_snapshot a' = AuditLog.context_snapshot a
  /\ AuditLog.created_at a' = AuditLog.created_at a.

(** The columns that say what a refund application asks for. *)
Definition same_application (r r' : RefundApplication.t) : Prop :=
  RefundApplication.order_id r' = RefundApplication.order_id r
  /\ RefundApplication.user_id r' = RefundApplication.user_id r
  /\ RefundApplication.refund_amount r' = RefundApplication.refund_amount r
  /\ RefundApplication.reason_category r'
     = RefundApplication.reason_category r
  /\ RefundApplication.reason_detail r' = RefundApplication.reason_detail r
  /\ RefundApplication.created_at r' = RefundApplication.created_at r.

(** From [w] to [w'] nothing was taken away: the orders are the same,
    every audit log and refund application is still there and is about
    the same case, every message card is as it was, and the broker, the
    wire, the payments and the SMS only got longer. *)
Definition grows (w w' : World) : Prop :=
  orders (db w') = orders (db w)
  /\ (forall id a, audit_logs (db w) !! id = Some a ->
        exists a', audit_logs (db w') !! id = Some a' /\ same_case a a')
  /\ (forall id r, refund_applications (db w) !! id = Some r ->
        exists r', refund_applications (db w') !! id = Some r'
                   /\ same_application r r')
  /\ (forall id c, message_cards (db w) !! id = Some c ->
        message_cards (db w') !! id = Some c)
  /\ broker w `prefix_of` broker w'
  /\ wire w `prefix_of` wire w'
  /\ payments w `prefix_of` payments w'
  /\ sms w `prefix_of` sms w'.

(** * Properties *)

(** ** The model runs *)

Example risk_tier_100 : risk_tier default_settings 100 = RiskLevel.LOW.
Proof. reflexivity. Qed.
Example risk_tier_500 : risk_tier default_settings 500 = RiskLevel.MEDIUM.
Proof. reflexivity. Qed.
Example risk_tier_2000 : risk_tier default_settings 2000 = RiskLevel.HIGH.
Proof. reflexivity. Qed.
Example next_id_ex : next_id (<[3 := true]> (<[7 := false]> ∅)) = 8.
Proof. reflexivity. Qed.

(** ** Keys and queries *)

Lemma next_id_above {A} (m : gmap Z A) (k : Z) :
  is_Some (m !! k) -> k < next_id m.
Proof.
  unfold next_id.
  assert (H : forall k, is_Some (m !! k) ->
            k <= map_fold (fun k _ acc => Z.max k acc) 0 m).
  { apply (map_fold_weak_ind
             (fun r (m : gmap Z A) => forall k, is_Some (m !! k) -> k <= r)).
    - intros j Hj. rewrite lookup_empty in Hj. by destruct Hj.
    - intros i x m' r _ IH j Hj.
      destruct (decide (i = j)) as [->|Hne]; [lia|].
      rewrite lookup_insert_ne in Hj by done.
      specialize (IH j Hj). lia. }
  intros Hk. specialize (H k Hk). lia.
Qed.

Lemma next_id_fresh {A} (m : gmap Z A) : m !! next_id m = None.
Proof.
  apply eq_None_not_Some. intros H.
  apply next_id_above in H. lia.
Qed.

Lemma add_row_lookup_old {A} (row : A) (m : gmap Z A) (k : Z) (x : A) :
  m !! k = Some x -> add_row row m !! k = Some x.
Proof.
  intros H. unfold add_row. rewrite lookup_insert_ne; [done|].
  intros <-. rewrite next_id_fresh in H. done.
Qed.

Lemma add_row_lookup {A} (row : A) (m : gmap Z A) (k : Z) (x : A) :
  add_row row m !! k = Some x ->
  (k = next_id m /\ x = row) \/ (k <> next_id m /\ m !! k = Some x).
Proof.
  unfold add_row. intros H.
  destruct (decide (next_id m = k)) as [<-|Hne].
  - rewrite lookup_insert_eq in H. left. split; congruence.
  - rewrite lookup_insert_ne in H by done. right. split; congruence.
Qed.

Lemma latest_by_spec {A} (created_at : A -> Z) (P : A -> bool)
    (m : gmap Z A) :
  is_latest created_at P m (latest_by created_at P m).
Proof.
  unfold latest_by.
  apply (map_fold_weak_ind
           (fun best (m : gmap Z A) => is_latest created_at P m best)).
  - intros k a Hk. by rewrite lookup_empty in Hk.
  - intros i x m' best Hi IH.
    destruct (P x) eqn:HP.
    + destruct best as [[k' a']|]; simpl in *.
      * destruct IH as (Hk' & HPa' & Hmax).
        destruct (Z.ltb (created_at a') (created_at x)
                  || (Z.eqb (created_at a') (created_at x) && Z.ltb k' i))
          eqn:Hcmp.
        -- split; [by rewrite lookup_insert_eq|]. split; [done|].
           intros j b Hj Hb.
           destruct (decide (i = j)) as [->|Hne].
           ++ rewrite lookup_insert_eq in Hj. injection Hj as <-. lia.
           ++ rewrite lookup_insert_ne in Hj by done.
              specialize (Hmax j b Hj Hb).
              apply orb_true_iff in Hcmp as [Hlt|Heq]; [lia|].
              apply andb_true_iff in Heq as [Heq _]. lia.
        -- split.
           { rewrite lookup_insert_ne; [done|]. intros ->. congruence. }
           split; [done|].
           intros j b Hj Hb.
           destruct (decide (i = j)) as [->|Hne].
           ++ rewrite lookup_insert_eq in Hj. injection Hj as <-.
              apply orb_false_iff in Hcmp as [Hlt _]. lia.
           ++ rewrite lookup_insert_ne in Hj by done. eauto.
      * split; [by rewrite lookup_insert_eq|]. split; [done|].
        intros j b Hj Hb.
        destruct (decide (i = j)) as [->|Hne].
        -- rewrite lookup_insert_eq in Hj. injection Hj as <-. lia.
        -- rewrite lookup_insert_ne in Hj by done.
           rewrite (IH j b Hj) in Hb. done.
    + destruct best as [[k' a']|]; simpl in *.
      * destruct IH as (Hk' & HPa' & Hmax).
        split.
        { rewrite lookup_insert_ne; [done|]. intros ->. congruence. }
        split; [done|].
        intros j b Hj Hb.
        destruct (decide (i = j)) as [->|Hne].
        -- rewrite lookup_insert_eq in Hj. injection Hj as <-. congruence.
        -- rewrite lookup_insert_ne in Hj by done. eauto.
      * intros j b Hj.
        destruct (decide (i = j)) as [->|Hne].
        -- rewrite lookup_insert_eq in Hj. injection Hj as <-. done.
        -- rewrite lookup_insert_ne in Hj by done. eauto.
Qed.

(** ** What sending touches *)

Lemma only_sends_refl w : only_sends w w.
Proof. by repeat split. Qed.

Lemma only_sends_trans w1 w2 w3 :
  only_sends w1 w2 -> only_sends w2 w3 -> only_sends w1 w3.
Proof.
  unfold only_sends. intros (?&?&?&?&?) (?&?&?&?&?).
  repeat split; congruence.
Qed.

Lemma send_json_only_sends ws message w w' :
  send_json ws message w = Some w' -> only_sends w w'.
Proof.
  unfold send_json. case_decide; [done|].
  intros [= <-]. by repeat split.
Qed.

Lemma send_each_only_sends {K} message (targets : list (K * Z)) disc w :
  only_sends w (send_each message targets disc w).2.
Proof.
  revert disc w. induction targets as [|[k ws] rest IH]; intros disc w;
    simpl; [apply only_sends_refl|].
  destruct (send_json ws message w) as [w'|] eqn:E; [|apply IH].
  eapply only_sends_trans; [by eapply send_json_only_sends|apply IH].
Qed.

Lemma send_to_thread_only_sends thread_id message w :
  only_sends w (send_to_thread thread_id message w).
Proof.
  unfold send_to_thread.
  destruct (thread_subscribers (manager w) !! thread_id) as [subs|];
    [|apply only_sends_refl].
  pose proof (send_each_only_sends message
                ((fun ws => (ws, ws)) <$> elements subs) [] w) as H.
  destruct (send_each _ _ _ _) as [disc w']. simpl in H.
  destruct H as (?&?&?&?&?). by repeat split.
Qed.

Lemma disconnect_admins_only_sends (ids : list Z) w :
  only_sends w
    (foldl (fun acc admin_id => disconnect_admin admin_id acc) w ids).
Proof.
  revert w. induction ids as [|i ids IH]; intros w; simpl;
    [apply only_sends_refl|].
  eapply only_sends_trans; [|apply IH]. by repeat split.
Qed.

Lemma broadcast_to_admins_only_sends message w :
  only_sends w (broadcast_to_admins message w).
Proof.
  unfold broadcast_to_admins.
  pose proof (send_each_only_sends message
                (map_to_list (admin_connections (manager w))) [] w) as H.
  destruct (send_each _ _ _ _) as [disc w']. simpl in H.
  eapply only_sends_trans; [exact H|apply disconnect_admins_only_sends].
Qed.

Lemma notify_status_change_only_sends now thread_id status data w :
  only_sends w (notify_status_change now thread_id status data w).
Proof.
  unfold notify_status_change.
  destruct (String.eqb status "WAITING_ADMIN").
  - eapply only_sends_trans;
      [apply send_to_thread_only_sends|apply broadcast_to_admins_only_sends].
  - apply send_to_thread_only_sends.
Qed.

(** The frames [send_each] puts on the wire: one per target whose socket
    is not closed, in order. *)
Lemma send_each_wire {K} message (targets : list (K * Z)) disc w :
  wire (send_each message targets disc w).2
  = (wire w
     ++ ((fun t => (t.2, message))
           <$> filter (fun t => t.2 ∉ closed w) targets))%list.
Proof.
  revert disc w. induction targets as [|[k ws] rest IH]; intros disc w;
    simpl.
  - by rewrite app_nil_r.
  - unfold send_json. rewrite filter_cons. simpl.
    destruct (decide (ws ∈ closed w)) as [Hin|Hout].
    + rewrite decide_False by (intros Hn; by apply Hn). apply IH.
    + rewrite decide_True by done. rewrite IH. simpl.
      by rewrite <- app_assoc.
Qed.

(** A frame published to a thread reaches every subscriber of the
    thread whose socket is open. *)
Lemma send_to_thread_delivers thread_id message w subs ws :
  thread_subscribers (manager w) !! thread_id = Some subs ->
  ws ∈ subs -> ws ∉ closed w ->
  (ws, message) ∈ wire (send_to_thread thread_id message w).
Proof.
  intros Hsubs Hws Hopen. unfold send_to_thread. rewrite Hsubs.
  pose proof (send_each_wire message
                ((fun ws => (ws, ws)) <$> elements subs) [] w) as H.
  destruct (send_each _ _ _ _) as [disc w']. simpl in *. rewrite H.
  apply elem_of_app. right.
  apply (list_elem_of_fmap_2' _ _ (ws, ws)); [|done].
  apply list_elem_of_filter. split; [done|].
  apply (list_elem_of_fmap_2' _ _ ws); [|done].
  by apply elem_of_elements.
Qed.

Lemma wire_grows_send_to_thread thread_id message w :
  exists frames,
    wire (send_to_thread thread_id message w) = (wire w ++ frames)%list
    /\ forall f, f ∈ frames -> f.2 = message.
Proof.
  unfold send_to_thread.
  destruct (thread_subscribers (manager w) !! thread_id) as [subs|].
  - pose proof (send_each_wire message
                  ((fun ws => (ws, ws)) <$> elements subs) [] w) as H.
    destruct (send_each _ _ _ _) as [disc w']. simpl in *.
    eexists. split; [exact H|].
    intros f Hf. apply list_elem_of_fmap in Hf as (t & -> & _). done.
  - exists []. split; [by rewrite app_nil_r|]. intros f Hf.
    by apply elem_of_nil in Hf.
Qed.

(** ** The decision endpoint *)

Lemma update_refund_audit_logs now e request adm a w :
  audit_logs (db (update_refund now e request adm a w)) = audit_logs (db w).
Proof.
  unfold update_refund.
  destruct (truthy_id _) as [rid|]; [|done].
  destruct (refund_applications (db w) !! rid); [|done].
  by case_decide.
Qed.

(** What [update_refund] does to the table of applications. *)
Lemma update_refund_table now e request adm a w :
  let w' := update_refund now e request adm a w in
  (refund_applications (db w') = refund_applications (db w)
   /\ broker w' = broker w)
  \/ exists rid refund,
       truthy_id (AuditLog.refund_application_id a) = Some rid
       /\ refund_applications (db w) !! rid = Some refund
       /\ refund_applications (db w')
          = <[rid := set_reviewed now
                       (if decide (e = AuditAction.APPROVE)
                        then RefundStatus.APPROVED else RefundStatus.REJECTED)
                       (AdminDecisionRequest.admin_comment request)
                       (Some adm) refund]>
              (refund_applications (db w))
       /\ broker w `prefix_of` broker w'.
Proof.
  unfold update_refund.
  destruct (truthy_id _) as [rid|]; [|by left].
  destruct (refund_applications (db w) !! rid) as [refund|] eqn:E;
    [|by left].
  right. exists rid, refund. split; [done|]. split; [done|].
  case_decide; simpl; (split; [done|]).
  - unfold delay. simpl. rewrite <- app_assoc. by apply prefix_app_r.
  - done.
Qed.

Lemma flushed_same {A} `{EqDecision A} (x y : A) : flushed x y x = y.
Proof. unfold flushed. by case_decide. Qed.

(** When the table holds the row the call loaded, the commit stores what
    the call assigned. *)
Lemma flush_decision_same now e adm comment a :
  flush_decision a (set_decision now e adm comment a) a
  = set_decision now e adm comment a.
Proof.
  unfold flush_decision, set_decision. cbn. by rewrite !flushed_same.
Qed.

Lemma admin_decision_decided now id request adm w a :
  audit_logs (db w) !! id = Some a ->
  AuditLog.action a <> AuditAction.PENDING ->
  admin_decision now id request adm w = (Raise already_processed, w).
Proof.
  intros Ha Hne. unfold admin_decision, admin_decision_select. rewrite Ha.
  by rewrite decide_True.
Qed.

Lemma admin_decision_missing now id request adm w :
  audit_logs (db w) !! id = None ->
  int32 id = true ->
  admin_decision now id request adm w
  = (Raise {| status_code := 404; detail := "Audit log not found" |}, w).
Proof.
  intros Ha Hid. unfold admin_decision, admin_decision_select.
  by rewrite Ha, Hid.
Qed.

(** A successful call found the case pending and stored the decision. *)
Lemma admin_decision_ok now id request adm w r w' :
  admin_decision now id request adm w = (Ok r, w') ->
  exists a,
    audit_logs (db w) !! id = Some a
    /\ AuditLog.action a = AuditAction.PENDING
    /\ audit_logs (db w')
       = <[id := set_decision now (action_enum_of request) adm
                   (AdminDecisionRequest.admin_comment request) a]>
           (audit_logs (db w)).
Proof.
  unfold admin_decision, admin_decision_select, admin_decision_apply.
  destruct (audit_logs (db w) !! id) as [a|] eqn:Ha;
    [|by destruct (int32 id)].
  case_decide as Hp; [done|].
  intros [= _ <-]. exists a. split; [done|].
  split; [by destruct (decide (AuditLog.action a = AuditAction.PENDING))|].
  match goal with
  | |- audit_logs (db (notify_status_change ?n ?t ?s ?d ?w0)) = _ =>
      destruct (notify_status_change_only_sends n t s d w0) as [-> _]
  end.
  simpl. by rewrite update_refund_audit_logs, flush_decision_same.
Qed.

Lemma admin_decision_raise now id request adm w e w' :
  admin_decision now id request adm w = (Raise e, w') -> w' = w.
Proof.
  unfold admin_decision, admin_decision_select, admin_decision_apply.
  destruct (audit_logs (db w) !! id);
    [|by destruct (int32 id); intros [= _ <-]].
  case_decide; [by intros [= _ <-]|done].
Qed.

Lemma action_enum_of_decides request :
  action_enum_of request <> AuditAction.PENDING.
Proof. unfold action_enum_of. by destruct (String.eqb _ _). Qed.

(** What a call does from its update on, when the table still holds a
    row for the case: it succeeds, the commit writes the columns the
    call changed onto that row, and whatever the call enqueued is on the
    broker. *)
Lemma admin_decision_apply_effect now id request adm a stored w :
  audit_logs (db w) !! id = Some stored ->
  let '(r, w') := admin_decision_apply now id request adm a w in
  (exists x, r = Ok x)
  /\ audit_logs (db w')
     = <[id := flush_decision a
                (set_decision now (action_enum_of request) adm
                   (AdminDecisionRequest.admin_comment request) a)
                stored]> (audit_logs (db w))
  /\ refund_applications (db w')
     = refund_applications
         (db (update_refund now (action_enum_of request) request adm a w))
  /\ broker w `prefix_of` broker w'.
Proof.
  intros Hs. unfold admin_decision_apply. rewrite Hs.
  split; [by eexists|].
  match goal with
  | |- context [notify_status_change ?n ?t ?s ?d ?w0] =>
      destruct (notify_status_change_only_sends n t s d w0)
        as (-> & -> & _)
  end.
  cbn.
  match goal with
  | |- context [update_refund ?n ?e ?rq ?ad ?al ?w0] =>
      pose proof (update_refund_table n e rq ad al w0) as Ht;
      pose proof (update_refund_audit_logs n e rq ad al w0) as Hl
  end.
  split; [by rewrite Hl|]. split.
  - unfold update_refund. destruct (truthy_id _) as [rid|]; [|done].
    cbn. destruct (refund_applications (db w) !! rid); [|done].
    by case_decide.
  - cbv zeta in Ht. by destruct Ht as [[_ ->]|(? & ? & _ & _ & _ & Hpre)].
Qed.

(** What a delivery does to the world, whatever the task and the
    retry. *)
Lemma run_delivery_effect retries now msg w :
  let w' := (run_delivery retries now msg w).2 in
  audit_logs (db w') = audit_logs (db w)
  /\ orders (db w') = orders (db w)
  /\ manager w' = manager w /\ closed w' = closed w /\ wire w' = wire w
  /\ broker w `prefix_of` broker w'
  /\ payments w `prefix_of` payments w'
  /\ sms w `prefix_of` sms w'
  /\ (forall id c, message_cards (db w) !! id = Some c ->
        message_cards (db w') !! id = Some c)
  /\ (refund_applications (db w') = refund_applications (db w)
      \/ exists rid amount method refund,
           task_of msg = process_refund_payment_msg rid amount method
           /\ refund_applications (db w) !! rid = Some refund
           /\ refund_applications (db w')
              = <[rid := set_completed now refund]>
                  (refund_applications (db w))).
Proof.
  revert retries.
  induction msg as [rid phone message|rid amount method|aid|n task IH];
    intros retries; simpl.
  - repeat split; try done; [by apply prefix_app_r|by left].
  - unfold process_refund_payment, self_retry.
    destruct (refund_applications (db w) !! rid) as [r|] eqn:Hr; simpl.
    + repeat split; try done; [by apply prefix_app_r|].
      right. by exists rid, amount, method, r.
    + destruct (retries <? 3)%nat; simpl; repeat split; try done;
        try (by left); by apply prefix_app_r.
  - unfold notify_admin_audit, self_retry.
    destruct (audit_logs (db w) !! aid); simpl.
    + repeat split; try done; [|by left].
      intros k c Hc. by apply add_row_lookup_old.
    + destruct (retries <? 2)%nat; simpl; repeat split; try done;
        try (by left); by apply prefix_app_r.
  - apply IH.
Qed.

(** No operation touches a decision once it is stored. *)
Lemma step_keeps_decided op w id a :
  audit_logs (db w) !! id = Some a ->
  AuditLog.action a <> AuditAction.PENDING ->
  audit_logs (db (step op w)) !! id = Some a.
Proof.
  intros Ha Hne. destruct op as [now id' request adm|now sn state|
    settings now state|now ce oid uid rd rc|tid uid|now msg]; simpl.
  - destruct (admin_decision now id' request adm w) as [[r|e] w'] eqn:E.
    + apply admin_decision_ok in E as (a' & Ha' & Hp & Hw'). simpl.
      rewrite Hw', lookup_insert_ne; [done|]. intros ->. congruence.
    + by apply admin_decision_raise in E as ->.
  - unfold handle_refund. destruct sn as [sn|]; [|done].
    destruct (List.find _ _) as [[oid o]|]; [|done].
    destruct (negb _); [done|].
    by destruct (non_returnable_names _).
  - unfold check_refund_eligibility, risk_tier.
    destruct (AgentState.refund_data state) as [rdt|]; [|done].
    repeat match goal with
    | |- context [if Qge_bool ?x ?y then _ else _] => destruct (Qge_bool x y)
    end; simpl.
    1,2: match goal with
      | |- context [if negb ?b then _ else _] => destruct b
      end; simpl; [|done];
      match goal with
      | |- audit_logs (db (notify_status_change ?n ?t ?s ?d ?w0)) !! _ = _ =>
          destruct (notify_status_change_only_sends n t s d w0) as [-> _]
      end; simpl; by apply add_row_lookup_old.
    unfold auto_approve. destruct (RefundData.refund_id rdt) as [rid|];
      [|done].
    by destruct (refund_applications (db w) !! rid).
  - unfold create_refund_application.
    destruct (orders (db w) !! oid) as [o|]; [|done].
    destruct (Z.eqb (Order.user_id o) uid); [|done].
    destruct (check_eligibility now oid o (db w)) as [[] msg]; [|done].
    simpl. by destruct ce.
  - done.
  - unfold run_task.
    by destruct (run_delivery_effect 0 now msg w) as (-> & _).
Qed.

Lemma run_keeps_decided ops w id a :
  audit_logs (db w) !! id = Some a ->
  AuditLog.action a <> AuditAction.PENDING ->
  audit_logs (db (run ops w)) !! id = Some a.
Proof.
  revert w. induction ops as [|op ops IH]; intros w Ha Hne; [done|].
  simpl. apply IH; [|done]. by apply step_keeps_decided.
Qed.

(** ** C5: the risk tier *)

(** The node follows [risk_tier]: it asks for a review exactly when the
    tier is not [LOW], the audit log it writes carries the tier, and it
    raises only when the tier asks for a review and the snapshot cannot be
    stored. *)
Lemma check_refund_eligibility_tier settings now state w rd :
  AgentState.refund_data state = Some rd ->
  let tier := risk_tier settings (amount_of rd) in
  let '(u, w') := check_refund_eligibility settings now state w in
  match u with
  | None =>
      tier <> RiskLevel.LOW
      /\ json_ok (context_snapshot_of state rd) = false
      /\ w' = w
  | Some u =>
      (tier = RiskLevel.LOW \/ json_ok (context_snapshot_of state rd) = true)
      /\ AuditUpdate.audit_required u
         = negb (bool_decide (tier = RiskLevel.LOW))
      /\ (tier = RiskLevel.LOW ->
          AuditUpdate.audit_log_id u = None
          /\ audit_logs (db w') = audit_logs (db w))
      /\ (tier <> RiskLevel.LOW ->
          exists log,
            AuditUpdate.audit_log_id u = Some (next_id (audit_logs (db w)))
            /\ audit_logs (db w') = add_row log (audit_logs (db w))
            /\ AuditLog.risk_level log = tier
            /\ AuditLog.action log = AuditAction.PENDING)
  end.
Proof.
  intros Hrd.
  unfold check_refund_eligibility, risk_tier, amount_of. rewrite Hrd.
  simpl.
  repeat match goal with
  | |- context [if Qge_bool ?x ?y then _ else _] => destruct (Qge_bool x y)
  end; simpl.
  1,2: match goal with
    | |- context [if negb ?b then _ else _] => destruct b
    end; simpl; [|done];
    (split; [by right|]); (split; [done|]); (split; [done|]); intros _;
    eexists; (split; [done|]);
    match goal with
    | |- context [notify_status_change ?n ?t ?s ?d ?w0] =>
        destruct (notify_status_change_only_sends n t s d w0) as [-> _]
    end; simpl; (split; [reflexivity|done]).
  split; [by left|]. split; [done|]. split; [|done]. intros _.
  split; [done|]. unfold auto_approve.
  destruct (RefundData.refund_id rd) as [rid|]; [|done].
  by destruct (refund_applications (db w) !! rid).
Qed.

Lemma risk_tier_thresholds (settings : Settings) (a : Q) :
  (risk_tier settings a = RiskLevel.HIGH
   <-> (HIGH_RISK_REFUND_AMOUNT settings <= a)%Q)
  /\ (risk_tier settings a = RiskLevel.MEDIUM
      <-> (MEDIUM_RISK_REFUND_AMOUNT settings <= a)%Q
          /\ (a < HIGH_RISK_REFUND_AMOUNT settings)%Q)
  /\ (risk_tier settings a = RiskLevel.LOW
      <-> (a < MEDIUM_RISK_REFUND_AMOUNT settings)%Q
          /\ (a < HIGH_RISK_REFUND_AMOUNT settings)%Q)
  /\ risk_tier settings (HIGH_RISK_REFUND_AMOUNT settings) = RiskLevel.HIGH
  /\ risk_tier settings a <> RiskLevel.CRITICAL.
Proof.
  unfold risk_tier, Qge_bool.
  assert (Hrefl : Qle_bool (HIGH_RISK_REFUND_AMOUNT settings)
                    (HIGH_RISK_REFUND_AMOUNT settings) = true)
    by (apply Qle_bool_iff, Qle_refl).
  rewrite Hrefl.
  destruct (Qle_bool (HIGH_RISK_REFUND_AMOUNT settings) a) eqn:Hh;
    [|destruct (Qle_bool (MEDIUM_RISK_REFUND_AMOUNT settings) a) eqn:Hm].
  - apply Qle_bool_iff in Hh.
    repeat split; try done; intros [_ Hlt];
      exfalso; by apply (Qlt_not_le _ _ Hlt).
  - apply Qle_bool_iff in Hm.
    assert (a < HIGH_RISK_REFUND_AMOUNT settings)%Q as Hlt.
    { apply Qnot_le_lt. intros H. apply Qle_bool_iff in H. congruence. }
    repeat split; try done.
    + intros H. exfalso. by apply (Qlt_not_le _ _ Hlt).
    + intros [Hlt' _]. exfalso. by apply (Qlt_not_le _ _ Hlt').
  - assert (a < HIGH_RISK_REFUND_AMOUNT settings)%Q as Hlt.
    { apply Qnot_le_lt. intros H. apply Qle_bool_iff in H. congruence. }
    assert (a < MEDIUM_RISK_REFUND_AMOUNT settings)%Q as Hlt'.
    { apply Qnot_le_lt. intros H. apply Qle_bool_iff in H. congruence. }
    repeat split; try done.
    + intros H. exfalso. by apply (Qlt_not_le _ _ Hlt).
    + intros [H _]. exfalso. by apply (Qlt_not_le _ _ Hlt').
Qed.

(** C5.  For every amount [a] the classifier answers [HIGH] exactly when
    [a] is at least the high threshold, [MEDIUM] exactly when [a] is at
    least the medium threshold and below the high one, and [LOW] exactly
    when [a] is below both; an amount equal to a threshold falls in the
    higher tier ([>=], not [>]).  The classifier is a function of the
    thresholds and the amount alone, defined on every amount.  It is the
    one the audit node runs on the amount of its refund data: the node
    asks for a review exactly when the tier is not [LOW]; on [LOW] it
    writes no audit log; on another tier it writes one new audit log,
    [PENDING], whose risk level is the tier; and it raises, leaving the
    world as it was, only when the tier asks for a review and the context
    snapshot cannot be stored as JSON. *)
Theorem risk_tier_classification (settings : Settings) (a : Q) :
  ((risk_tier settings a = RiskLevel.HIGH
    <-> (HIGH_RISK_REFUND_AMOUNT settings <= a)%Q)
   /\ (risk_tier settings a = RiskLevel.MEDIUM
       <-> (MEDIUM_RISK_REFUND_AMOUNT settings <= a)%Q
           /\ (a < HIGH_RISK_REFUND_AMOUNT settings)%Q)
   /\ (risk_tier settings a = RiskLevel.LOW
       <-> (a < MEDIUM_RISK_REFUND_AMOUNT settings)%Q
           /\ (a < HIGH_RISK_REFUND_AMOUNT settings)%Q)
   /\ risk_tier settings (HIGH_RISK_REFUND_AMOUNT settings) = RiskLevel.HIGH
   /\ risk_tier settings a <> RiskLevel.CRITICAL)
  /\ forall now state w rd,
       AgentState.refund_data state = Some rd ->
       amount_of rd = a ->
       let '(u, w') := check_refund_eligibility settings now state w in
       match u with
       | None =>
           risk_tier settings a <> RiskLevel.LOW
           /\ json_ok (context_snapshot_of state rd) = false
           /\ w' = w
       | Some u =>
           (risk_tier settings a = RiskLevel.LOW
            \/ json_ok (context_snapshot_of state rd) = true)
           /\ AuditUpdate.audit_required u
              = negb (bool_decide (risk_tier settings a = RiskLevel.LOW))
           /\ (risk_tier settings a = RiskLevel.LOW ->
               AuditUpdate.audit_log_id u = None
               /\ audit_logs (db w') = audit_logs (db w))
           /\ (risk_tier settings a <> RiskLevel.LOW ->
               exists log,
                 AuditUpdate.audit_log_id u
                 = Some (next_id (audit_logs (db w)))
                 /\ audit_logs (db w')
                    = add_row log (audit_logs (db w))
                 /\ AuditLog.risk_level log = risk_tier settings a
                 /\ AuditLog.action log = AuditAction.PENDING)
       end.
Proof.
  split; [apply risk_tier_thresholds|].
  intros now state w rd Hrd <-.
  apply (check_refund_eligibility_tier settings now state w rd Hrd).
Qed.

Lemma risk_tier_classification_witness :
  (risk_tier default_settings 2500 = RiskLevel.HIGH
   <-> (HIGH_RISK_REFUND_AMOUNT default_settings <= 2500)%Q)
  /\ let '(u, w') :=
       check_refund_eligibility default_settings 110
         (refund_state "thread-1" 1 3 2500) shop_big in
     match u with
     | None => risk_tier default_settings 2500 <> RiskLevel.LOW
     | Some u =>
         AuditUpdate.audit_required u
         = negb (bool_decide (risk_tier default_settings 2500
                              = RiskLevel.LOW))
     end.
Proof.
  pose proof (risk_tier_classification default_settings 2500) as [H1 H2].
  split; [exact (proj1 H1)|].
  specialize (H2 110 (refund_state "thread-1" 1 3 2500) shop_big _
                eq_refl eq_refl).
  destruct (check_refund_eligibility default_settings 110
              (refund_state "thread-1" 1 3 2500) shop_big) as [[u|] w'].
  - exact (proj1 (proj2 H2)).
  - exact (proj1 H2).
Defined.

(** ** C1, C2: one decision per case *)

(** Calls that do not overlap.  [admin_decision] stores a decision only
    for a case whose audit state is exactly [PENDING]: on any other state
    it raises and leaves the world as it was.  After a successful call
    the case holds the verdict, the reviewer and the comment of that
    call, and whatever the pipeline does next, one operation after the
    other, the stored row stays the same and every further decision on
    that case, of the same or another verdict, raises and changes
    nothing. *)
Lemma decision_is_final (now id : Z) (request : AdminDecisionRequest.t)
    (adm : Z) (w : World) :
  (forall a, audit_logs (db w) !! id = Some a ->
     AuditLog.action a <> AuditAction.PENDING ->
     admin_decision now id request adm w = (Raise already_processed, w))
  /\ (forall r w',
        admin_decision now id request adm w = (Ok r, w') ->
        exists a a',
          audit_logs (db w) !! id = Some a
          /\ AuditLog.action a = AuditAction.PENDING
          /\ audit_logs (db w') !! id = Some a'
          /\ AuditLog.action a' = action_enum_of request
          /\ AuditLog.action a' <> AuditAction.PENDING
          /\ AuditLog.admin_id a' = Some adm
          /\ AuditLog.admin_comment a'
             = AdminDecisionRequest.admin_comment request
          /\ forall ops now2 request2 adm2,
               let w2 := run ops w' in
               audit_logs (db w2) !! id = Some a'
               /\ admin_decision now2 id request2 adm2 w2
                  = (Raise already_processed, w2)).
Proof.
  split.
  - intros a Ha Hne. by apply admin_decision_decided with a.
  - intros r w' E.
    apply admin_decision_ok in E as (a & Ha & Hp & Hw').
    exists a, (set_decision now (action_enum_of request) adm
                 (AdminDecisionRequest.admin_comment request) a).
    assert (Hrow : audit_logs (db w') !! id
                   = Some (set_decision now (action_enum_of request) adm
                             (AdminDecisionRequest.admin_comment request) a))
      by (rewrite Hw'; apply lookup_insert_eq).
    assert (Hdec : AuditLog.action
                     (set_decision now (action_enum_of request) adm
                        (AdminDecisionRequest.admin_comment request) a)
                   <> AuditAction.PENDING)
      by (simpl; apply action_enum_of_decides).
    repeat split; try done.
    + by apply run_keeps_decided.
    + eapply admin_decision_decided; [|exact Hdec].
      by apply run_keeps_decided.
Qed.

(** C1, where the code misses it.  The guard of [admin_decision] is a
    test on the row its query read, and the commit is an [UPDATE] by id
    alone.  For two calls on a pending case that run one after the other
    the guard is enough: the first succeeds, the second raises HTTP 400
    and the case keeps the first decision.  For two calls that overlap,
    both queries before either commit, both calls get past the guard and
    both succeed; the second commit writes its verdict over the first,
    so the stored action is that of the second call, while whatever the
    first call enqueued stays on the broker. *)
Theorem overlapping_decisions_overwrite (now1 now2 id : Z)
    (request1 request2 : AdminDecisionRequest.t) (adm1 adm2 : Z)
    (w : World) (a : AuditLog.t) :
  audit_logs (db w) !! id = Some a ->
  AuditLog.action a = AuditAction.PENDING ->
  let decision1 :=
    set_decision now1 (action_enum_of request1) adm1
      (AdminDecisionRequest.admin_comment request1) a in
  let decision2 :=
    set_decision now2 (action_enum_of request2) adm2
      (AdminDecisionRequest.admin_comment request2) a in
  (let '(r1, w1) := admin_decision now1 id request1 adm1 w in
   let '(r2, w2) := admin_decision now2 id request2 adm2 w1 in
   (exists x, r1 = Ok x)
   /\ r2 = Raise already_processed
   /\ w2 = w1
   /\ audit_logs (db w2) !! id = Some decision1)
  /\ (let '(r1, r2, w2) :=
        overlapping_decisions now1 now2 id request1 request2 adm1 adm2 w in
      (exists x, r1 = Ok x)
      /\ (exists x, r2 = Ok x)
      /\ audit_logs (db w2) !! id
         = Some (flush_decision a decision2 decision1)
      /\ AuditLog.action <$> audit_logs (db w2) !! id
         = Some (action_enum_of request2)
      /\ broker (admin_decision now1 id request1 adm1 w).2
         `prefix_of` broker w2).
Proof.
  intros Ha Hp decision1 decision2.
  assert (Hseq : admin_decision now1 id request1 adm1 w
                 = admin_decision_apply now1 id request1 adm1 a w).
  { unfold admin_decision, admin_decision_select. rewrite Ha.
    by rewrite decide_False by (intros H; by apply H). }
  pose proof (admin_decision_apply_effect now1 id request1 adm1 a a w Ha)
    as H1.
  rewrite flush_decision_same in H1. fold decision1 in H1.
  unfold overlapping_decisions, admin_decision_select.
  rewrite Hseq, Ha.
  rewrite decide_False by (intros H; by apply H).
  destruct (admin_decision_apply now1 id request1 adm1 a w) as [r1 w1].
  destruct H1 as ((x1 & ->) & Hlogs1 & _ & Hb1).
  assert (Hs : audit_logs (db w1) !! id = Some decision1)
    by (rewrite Hlogs1; apply lookup_insert_eq).
  split.
  - rewrite (admin_decision_decided now2 id request2 adm2 w1 decision1 Hs)
      by apply action_enum_of_decides.
    split; [by eexists|]. done.
  - pose proof (admin_decision_apply_effect now2 id request2 adm2 a
                  decision1 w1 Hs) as H2.
    fold decision2 in H2.
    destruct (admin_decision_apply now2 id request2 adm2 a w1) as [r2 w2].
    destruct H2 as ((x2 & ->) & Hlogs2 & _ & Hb2).
    split; [by eexists|]. split; [by eexists|].
    rewrite Hlogs2, lookup_insert_eq. split; [done|]. split; [|done].
    cbn. unfold flushed. rewrite Hp.
    by rewrite decide_False by apply action_enum_of_decides.
Qed.

Lemma overlapping_decisions_overwrite_witness :
  let '(r1, r2, w2) :=
    overlapping_decisions 120 121 1 (approve None)
      (reject (Some "quality unverified")) 7 8 shop_pending in
  (exists x, r1 = Ok x)
  /\ (exists x, r2 = Ok x)
  /\ audit_logs (db w2) !! 1
     = Some (flush_decision case_1
               (set_decision 121
                  (action_enum_of (reject (Some "quality unverified"))) 8
                  (AdminDecisionRequest.admin_comment
                     (reject (Some "quality unverified"))) case_1)
               (set_decision 120 (action_enum_of (approve None)) 7
                  (AdminDecisionRequest.admin_comment (approve None))
                  case_1))
  /\ AuditLog.action <$> audit_logs (db w2) !! 1
     = Some (action_enum_of (reject (Some "quality unverified")))
  /\ broker (admin_decision 120 1 (approve None) 7 shop_pending).2
     `prefix_of` broker w2.
Proof.
  assert (Ha : audit_logs (db shop_pending) !! 1 = Some case_1)
    by (vm_compute; reflexivity).
  pose proof (overlapping_decisions_overwrite 120 121 1 (approve None)
                (reject (Some "quality unverified")) 7 8 shop_pending
                case_1 Ha eq_refl) as H.
  cbv zeta in H. destruct H as [_ H]. exact H.
Defined.

(** The two overlapping calls on the pending case of the shop: reviewer
    7 approves, reviewer 8 rejects.  Both are answered with success; the
    case and its refund application end rejected by reviewer 8, and the
    settlement and the SMS of the approval are on the broker. *)
Example overlapping_decisions_shop :
  let '(r1, r2, w2) :=
    overlapping_decisions 120 121 1 (approve None)
      (reject (Some "quality unverified")) 7 8 shop_pending in
  match r1, r2 with
  | Ok x1, Ok x2 =>
      AdminDecisionResponse.action x1 = "APPROVE"
      /\ AdminDecisionResponse.action x2 = "REJECT"
  | _, _ => False
  end
  /\ AuditLog.action <$> audit_logs (db w2) !! 1 = Some AuditAction.REJECT
  /\ (audit_logs (db w2) !! 1 ≫= AuditLog.admin_id) = Some 8
  /\ RefundApplication.status <$> refund_applications (db w2) !! 1
     = Some RefundStatus.REJECTED
  /\ broker w2
     = [notify_admin_audit_msg 1;
        process_refund_payment_msg 1 2500 "原支付方式";
        send_refund_sms_msg 1 "138****1234"
          [Lit "您的退款申请已通过，退款金额¥"; FmtNum 2500;
           Lit "将在3-5个工作日退回。"]].
Proof. vm_compute. repeat split; reflexivity. Qed.

(** C2, as the code has it.  A call on a case whose decision is
    recorded does not succeed: it raises HTTP 400, "This audit has
    already been processed", whatever verdict it carries, and the world,
    the recorded decision included, is as before. *)
Theorem resubmission_is_refused (now id : Z)
    (request : AdminDecisionRequest.t) (adm : Z) (w : World) :
  decided id w = true ->
  admin_decision now id request adm w = (Raise already_processed, w)
  /\ status_code already_processed = 400.
Proof.
  unfold decided. intros H.
  destruct (audit_logs (db w) !! id) as [a|] eqn:Ha; [|done].
  split; [|done]. apply admin_decision_decided with a; [done|].
  intros Hp. rewrite Hp in H. by rewrite bool_decide_eq_true_2 in H.
Qed.

Lemma resubmission_is_refused_witness :
  admin_decision 130 1 (reject (Some "quality unverified")) 7 shop_rejected
  = (Raise already_processed, shop_rejected)
  /\ status_code already_processed = 400.
Proof.
  apply resubmission_is_refused. vm_compute. reflexivity.
Defined.

(** The first decision on the pending case succeeds; the same request
    sent again, as a retry would, is answered with an error and not with
    the recorded verdict. *)
Lemma resubmission_success_counterexample :
  (exists r,
     (admin_decision 120 1 (reject (Some "quality unverified")) 7
        shop_pending).1 = Ok r)
  /\ decided 1 shop_rejected = true
  /\ ~ (exists r,
          (admin_decision 130 1 (reject (Some "quality unverified")) 7
             shop_rejected).1 = Ok r).
Proof.
  split; [|split].
  - eexists. vm_compute. reflexivity.
  - vm_compute. reflexivity.
  - intros [r Hr]. vm_compute in Hr. discriminate.
Qed.

(** ** C3: what a decision does *)

Lemma disconnect_admins_wire (ids : list Z) w :
  wire (foldl (fun acc admin_id => disconnect_admin admin_id acc) w ids)
  = wire w.
Proof.
  revert w. induction ids as [|i ids IH]; intros w; simpl; [done|].
  by rewrite IH.
Qed.

Lemma notify_status_change_delivers now thread_id status data w subs ws :
  thread_subscribers (manager w) !! thread_id = Some subs ->
  ws ∈ subs -> ws ∉ closed w ->
  (ws, status_change_frame now thread_id status (or_empty data))
  ∈ wire (notify_status_change now thread_id status data w).
Proof.
  intros Hsubs Hws Hopen. unfold notify_status_change.
  pose proof (send_to_thread_delivers thread_id
                (status_change_frame now thread_id status (or_empty data))
                w subs ws Hsubs Hws Hopen) as Hin.
  destruct (String.eqb status "WAITING_ADMIN"); [|done].
  unfold broadcast_to_admins.
  match goal with
  | |- context [send_each ?m ?t ?d ?w0] =>
      pose proof (send_each_wire m t d w0) as Hw;
      destruct (send_each m t d w0) as [disc w']
  end.
  simpl in Hw. rewrite disconnect_admins_wire, Hw.
  apply elem_of_app. by left.
Qed.

Lemma update_refund_frame now e request adm a w :
  let w' := update_refund now e request adm a w in
  manager w' = manager w /\ closed w' = closed w /\ wire w' = wire w
  /\ payments w' = payments w /\ sms w' = sms w
  /\ orders (db w') = orders (db w)
  /\ message_cards (db w') = message_cards (db w).
Proof.
  unfold update_refund.
  destruct (truthy_id _) as [rid|]; [|done].
  destruct (refund_applications (db w) !! rid); [|done].
  by case_decide.
Qed.

(** C3, as the code has it.  For every case in [PENDING], a decision
    succeeds, sets the audit state to the verdict and publishes a
    status-change frame, carrying the action and the reviewer's comment,
    to every open socket subscribed to the customer's thread.  When the
    case is linked to a refund application that exists, [APPROVE] sets
    that application to [APPROVED] and enqueues the settlement task and
    then the SMS task, and [REJECT] sets it to [REJECTED] with the comment
    as its note.  [REJECT] enqueues nothing.  When the case is linked to
    no refund application that exists (the link is null, zero or
    dangling), the decision, whatever its verdict, enqueues nothing and
    changes no refund application. *)
Theorem decide_postconditions (now id : Z)
    (request : AdminDecisionRequest.t) (adm : Z) (w : World)
    (a : AuditLog.t) :
  audit_logs (db w) !! id = Some a ->
  AuditLog.action a = AuditAction.PENDING ->
  let comment := AdminDecisionRequest.admin_comment request in
  let action := AdminDecisionRequest.action request in
  let w' := (admin_decision now id request adm w).2 in
  (exists r, (admin_decision now id request adm w).1 = Ok r)
  /\ (action = "APPROVE" ->
      AuditLog.action <$> audit_logs (db w') !! id
      = Some AuditAction.APPROVE)
  /\ (action = "REJECT" ->
      AuditLog.action <$> audit_logs (db w') !! id = Some AuditAction.REJECT
      /\ broker w' = broker w)
  /\ (forall subs ws,
        thread_subscribers (manager w) !! AuditLog.thread_id a = Some subs ->
        ws ∈ subs -> ws ∉ closed w ->
        (ws, status_change_frame now (AuditLog.thread_id a) action
               [("message", JText (status_message_of request));
                ("admin_comment", opt_str comment)]) ∈ wire w')
  /\ (forall rid refund,
        truthy_id (AuditLog.refund_application_id a) = Some rid ->
        refund_applications (db w) !! rid = Some refund ->
        (action = "APPROVE" ->
         RefundApplication.status <$> refund_applications (db w') !! rid
         = Some RefundStatus.APPROVED
         /\ broker w'
            = (broker w
               ++ [process_refund_payment_msg rid
                     (RefundApplication.refund_amount refund) "原支付方式";
                   send_refund_sms_msg rid "138****1234"
                     [Lit "您的退款申请已通过，退款金额¥";
                      FmtNum (RefundApplication.refund_amount refund);
                      Lit "将在3-5个工作日退回。"]])%list)
        /\ (action = "REJECT" ->
            refund_applications (db w') !! rid
            = Some (set_reviewed now RefundStatus.REJECTED comment
                      (Some adm) refund)))
  /\ (truthy_id (AuditLog.refund_application_id a)
        ≫= (fun rid => refund_applications (db w) !! rid) = None ->
      broker w' = broker w
      /\ refund_applications (db w') = refund_applications (db w)).
Proof.
  intros Ha Hp comment action w'.
  subst w'.
  unfold admin_decision, admin_decision_select, admin_decision_apply.
  rewrite Ha.
  rewrite decide_False by (intros H; by apply H).
  simpl. rewrite !flush_decision_same.
  match goal with
  | |- context [notify_status_change ?n ?t ?s ?d ?w0] =>
      pose proof (notify_status_change_only_sends n t s d w0)
        as (Hdb & Hbroker & _);
      pose proof (fun subs ws =>
                    notify_status_change_delivers n t s d w0 subs ws)
        as Hdeliver;
      set (w4 := notify_status_change n t s d w0) in *
  end.
  simpl in Hdb, Hbroker, Hdeliver.
  match type of Hbroker with
  | _ = broker (update_refund ?n ?e ?r ?ad ?al ?w1) =>
      pose proof (update_refund_frame n e r ad al w1)
        as (Hman & Hclosed & _);
      pose proof (update_refund_audit_logs n e r ad al w1) as Haudit
  end.
  simpl in Hman, Hclosed, Haudit.
  rewrite Hman, Hclosed in Hdeliver.
  split; [by eexists|].
  split; [|split; [|split; [|split]]].
  - intros Hact. rewrite Hdb. simpl. rewrite Haudit, lookup_insert_eq.
    simpl. unfold action_enum_of. fold action. by rewrite Hact.
  - intros Hact. split.
    + rewrite Hdb. simpl. rewrite Haudit, lookup_insert_eq.
      simpl. unfold action_enum_of. fold action. by rewrite Hact.
    + rewrite Hbroker. unfold update_refund, action_enum_of.
      fold action. rewrite Hact. simpl.
      destruct (truthy_id _) as [rid|]; [|done].
      by destruct (refund_applications (db w) !! rid).
  - exact Hdeliver.
  - intros rid refund Hrid Hrefund. split; intros Hact.
    + rewrite Hdb, Hbroker. simpl.
      unfold update_refund, action_enum_of. fold action.
      rewrite Hact, Hrid. simpl. rewrite Hrefund. simpl.
      rewrite lookup_insert_eq. split; [done|].
      by rewrite <- app_assoc.
    + rewrite Hdb. simpl.
      unfold update_refund, action_enum_of. fold action.
      rewrite Hact, Hrid. simpl. rewrite Hrefund. simpl.
      by rewrite lookup_insert_eq.
  - intros Hnone. rewrite Hdb, Hbroker. simpl. unfold update_refund.
    destruct (truthy_id _) as [rid|]; [|done].
    simpl in *. by rewrite Hnone.
Qed.

Lemma decide_postconditions_witness :
  audit_logs (db shop_pending) !! 1 = Some case_1
  /\ AuditLog.action case_1 = AuditAction.PENDING
  /\ (exists r,
        (admin_decision 120 1 (reject (Some "quality unverified")) 7
           shop_pending).1 = Ok r)
  /\ broker shop_rejected = broker shop_pending.
Proof.
  assert (H1 : audit_logs (db shop_pending) !! 1 = Some case_1)
    by (vm_compute; reflexivity).
  assert (H2 : AuditLog.action case_1 = AuditAction.PENDING)
    by reflexivity.
  destruct (decide_postconditions 120 1 (reject (Some "quality unverified"))
              7 shop_pending case_1 H1 H2) as (Hok & _ & Hrej & _).
  split; [exact H1|]. split; [exact H2|]. split; [exact Hok|].
  exact (proj2 (Hrej eq_refl)).
Defined.

(** A pending case that is linked to no refund application is approved
    and no settlement task and no SMS task is enqueued: the broker holds
    what it held before. *)
Lemma decide_unlinked_counterexample :
  decided 1 shop_unlinked = false
  /\ AuditLog.action <$> audit_logs (db shop_unlinked) !! 1
     = Some AuditAction.PENDING
  /\ let w' := (admin_decision 120 1 (approve None) 7 shop_unlinked).2 in
     AuditLog.action <$> audit_logs (db w') !! 1 = Some AuditAction.APPROVE
     /\ broker w' = broker shop_unlinked
     /\ broker w' = [notify_admin_audit_msg 1].
Proof. vm_compute. repeat split; reflexivity. Qed.

(** ** C4: the low-risk branch *)

(** Below both thresholds the node approves the application, if there is
    one, and does nothing else: the broker and the wire are as before. *)
Lemma auto_approval_frame settings now state w rd :
  AgentState.refund_data state = Some rd ->
  risk_tier settings
    (match RefundData.amount rd with Some a => a | None => 0%Q end)
  = RiskLevel.LOW ->
  let '(u, w') := check_refund_eligibility settings now state w in
  AuditUpdate.audit_required <$> u = Some false
  /\ w' = auto_approve now (RefundData.refund_id rd) w
  /\ broker w' = broker w /\ wire w' = wire w
  /\ audit_logs (db w') = audit_logs (db w).
Proof.
  intros Hrd Htier. unfold check_refund_eligibility. rewrite Hrd.
  cbv zeta. rewrite Htier. split; [done|]. split; [done|].
  unfold auto_approve. destruct (RefundData.refund_id rd) as [rid|]; [|done].
  by destruct (refund_applications (db w) !! rid).
Qed.

(** C4.  What the code does at amount 100 with the medium threshold at
    500: the application of order 4 becomes [APPROVED] and no review is
    asked for, but no task is enqueued (no settlement, no SMS) and no
    frame is sent, although socket 102 is open on the customer's
    thread. *)
Theorem auto_approval_at_100 :
  let '(u, w') :=
    check_refund_eligibility default_settings 110
      (refund_state "thread-2" 1 4 100) shop_small in
  RefundApplication.status <$> refund_applications (db shop_small) !! 1
  = Some RefundStatus.PENDING
  /\ AuditUpdate.audit_required <$> u = Some false
  /\ RefundApplication.status <$> refund_applications (db w') !! 1
     = Some RefundStatus.APPROVED
  /\ thread_subscribers (manager shop_small) !! "thread-2" = Some {[102]}
  /\ closed shop_small = {[101]}
  /\ broker w' = []
  /\ wire w' = [].
Proof. vm_compute. repeat split; reflexivity. Qed.

(** ** C6: enqueueing *)

(** The same settlement job enqueued twice is on the broker twice, and a
    worker that takes both pays twice. *)
Lemma enqueue_twice_counterexample :
  broker (delay settle_1 shop_approved)
  = (broker shop_approved ++ [settle_1])%list
  /\ broker (delay settle_1 (delay settle_1 shop_approved))
     = (broker shop_approved ++ [settle_1; settle_1])%list
  /\ delay settle_1 (delay settle_1 shop_approved)
     <> delay settle_1 shop_approved
  /\ payments (run [Work 200 settle_1; Work 300 settle_1] shop_approved)
     = [(2500%Q, "原支付方式"); (2500%Q, "原支付方式")].
Proof.
  split; [reflexivity|]. split; [reflexivity|]. split.
  - intros H. apply (f_equal (fun w => length (broker w))) in H.
    vm_compute in H. discriminate.
  - vm_compute. reflexivity.
Qed.

(** C6, as the code has it.  A job is the task and its arguments; it
    has no idempotency key, and [delay] looks at nothing: every call puts
    one more message on the broker, so the same job enqueued twice is
    there twice, and the world differs from that of one call.  The
    settlement task does not ask whether the application was settled: on
    an application that exists, two executions call the payment twice. *)
Theorem enqueue_appends (msg : TaskMessage) (w : World) :
  broker (delay msg w) = (broker w ++ [msg])%list
  /\ broker (delay msg (delay msg w)) = (broker w ++ [msg; msg])%list
  /\ delay msg (delay msg w) <> delay msg w
  /\ db (delay msg w) = db w
  /\ forall now1 now2 refund_id amount payment_method,
       is_Some (refund_applications (db w) !! refund_id) ->
       payments
         (run [Work now1
                 (process_refund_payment_msg refund_id amount payment_method);
               Work now2
                 (process_refund_payment_msg refund_id amount payment_method)]
            w)
       = (payments w
          ++ [(amount, payment_method); (amount, payment_method)])%list.
Proof.
  split; [done|]. split; [by simpl; rewrite <- app_assoc|].
  split; [|split; [done|]].
  - intros H. apply (f_equal (fun w => length (broker w))) in H.
    simpl in H. rewrite !length_app in H. simpl in H. lia.
  - intros now1 now2 rid amount method [r Hr]. simpl. unfold run_task.
    simpl. unfold process_refund_payment at 2. rewrite Hr. simpl.
    unfold process_refund_payment. simpl. rewrite lookup_insert_eq. simpl.
    by rewrite <- app_assoc.
Qed.

(** ** C7: what a worker writes *)

(** The settlement task moves an [APPROVED] application to
    [COMPLETED]. *)
Lemma settlement_completes_counterexample :
  RefundApplication.status <$> refund_applications (db shop_approved) !! 1
  = Some RefundStatus.APPROVED
  /\ settle_1 ∈ broker shop_approved
  /\ RefundApplication.status
       <$> refund_applications (db (run_task 200 settle_1 shop_approved).2)
           !! 1
     = Some RefundStatus.COMPLETED.
Proof.
  split; [vm_compute; reflexivity|]. split.
  - vm_compute. apply list_elem_of_In. simpl. right. left. reflexivity.
  - vm_compute. reflexivity.
Qed.

Lemma run_delivery_rows retries now msg w :
  let w' := (run_delivery retries now msg w).2 in
  audit_logs (db w') = audit_logs (db w)
  /\ orders (db w') = orders (db w)
  /\ match task_of msg with
     | send_refund_sms_msg _ _ _ => db w' = db w
     | process_refund_payment_msg refund_id amount payment_method =>
         match refund_applications (db w) !! refund_id with
         | None =>
             db w' = db w /\ payments w' = payments w
             /\ exists exc,
                  (run_delivery retries now msg w).1 = Retry exc
                  \/ (run_delivery retries now msg w).1 = Failure exc
         | Some refund =>
             refund_applications (db w')
             = <[refund_id := set_completed now refund]>
                 (refund_applications (db w))
             /\ payments w' = (payments w ++ [(amount, payment_method)])%list
             /\ exists result,
                  (run_delivery retries now msg w).1 = Success result
         end
     | _ => True
     end.
Proof.
  revert retries.
  induction msg as [rid phone message|rid amount method|aid|n task IH];
    intros retries; simpl.
  - done.
  - unfold process_refund_payment, self_retry.
    destruct (refund_applications (db w) !! rid) as [r|] eqn:Hr; simpl.
    + split; [done|]. split; [done|]. split; [done|]. split; [done|].
      by eexists.
    + destruct (retries <? 3)%nat; simpl; (repeat split; try done);
        eexists; first [by left|by right].
  - unfold notify_admin_audit, self_retry.
    destruct (audit_logs (db w) !! aid); simpl; [done|].
    by destruct (retries <? 2)%nat.
  - apply IH.
Qed.

(** C7, as the code has it.  No task, on its first delivery or on a
    retry, changes an audit log or an order: the recorded decision of a
    case is as the decision endpoint left it.  The SMS task changes no
    row at all.  The settlement task, when the application is missing,
    changes no row and pays nothing, and ends in a retry or, with the
    retries used up, in a failure; when the application is there, it
    calls the payment and sets that application, and no other, to
    [COMPLETED].  The connection manager changes no row when it
    publishes a status change. *)
Theorem worker_writes (now : Z) (msg : TaskMessage) (w : World) :
  let w' := (run_task now msg w).2 in
  audit_logs (db w') = audit_logs (db w)
  /\ orders (db w') = orders (db w)
  /\ (forall refund_id phone message,
        task_of msg = send_refund_sms_msg refund_id phone message ->
        db w' = db w)
  /\ (forall refund_id amount payment_method,
        task_of msg
        = process_refund_payment_msg refund_id amount payment_method ->
        match refund_applications (db w) !! refund_id with
        | None =>
            db w' = db w
            /\ payments w' = payments w
            /\ exists exc,
                 (run_task now msg w).1 = Retry exc
                 \/ (run_task now msg w).1 = Failure exc
        | Some refund =>
            refund_applications (db w')
            = <[refund_id := set_completed now refund]>
                (refund_applications (db w))
            /\ RefundApplication.status (set_completed now refund)
               = RefundStatus.COMPLETED
            /\ (forall other,
                  other <> refund_id ->
                  refund_applications (db w') !! other
                  = refund_applications (db w) !! other)
            /\ payments w' = (payments w ++ [(amount, payment_method)])%list
            /\ exists result, (run_task now msg w).1 = Success result
        end)
  /\ (forall thread_id status data,
        db (notify_status_change now thread_id status data w) = db w).
Proof.
  unfold run_task.
  pose proof (run_delivery_rows 0 now msg w) as H. cbv zeta in *.
  destruct H as (Ha & Ho & Ht).
  split; [done|]. split; [done|]. split; [|split].
  3: { intros thread_id status data.
       by destruct (notify_status_change_only_sends now thread_id status
                      data w) as [-> _]. }
  - intros rid phone message E. by rewrite E in Ht.
  - intros rid amount method E. rewrite E in Ht.
    destruct (refund_applications (db w) !! rid) as [r|]; [|done].
    destruct Ht as (Hr & Hp & Hs).
    split; [done|]. split; [done|]. split; [|done].
    intros other Hne. by rewrite Hr, lookup_insert_ne.
Qed.

(** ** C8: the status query *)

(** A thread whose only refund was approved by the audit node on its
    own has no audit log, and is reported as [PROCESSING]. *)
Lemma auto_approved_status_counterexample :
  RefundApplication.status <$> refund_applications (db shop_auto) !! 1
  = Some RefundStatus.APPROVED
  /\ StatusResponse.status (get_thread_status "thread-2" 1 shop_auto).1
     = "PROCESSING"
  /\ StatusResponse.status (get_thread_status "thread-2" 1 shop_auto).1
     <> "APPROVED".
Proof.
  split; [vm_compute; reflexivity|]. split; [vm_compute; reflexivity|].
  vm_compute. discriminate.
Qed.

Lemma get_thread_status_render thread_id current_user_id w :
  StatusResponse.status (get_thread_status thread_id current_user_id w).1
  = render (latest_by AuditLog.created_at
              (of_thread thread_id current_user_id) (audit_logs (db w))).
Proof.
  unfold get_thread_status, render. simpl.
  destruct (latest_by AuditLog.created_at _ (audit_logs (db w)))
    as [[k a]|]; [|done].
  by destruct (AuditLog.action a).
Qed.

(** C8, as the code has it.  [get_thread_status] writes nothing and
    answers with one of the four statuses, chosen by the latest audit log
    of the thread that belongs to the caller: [WAITING_ADMIN] when it is
    pending, [APPROVED] when a reviewer approved it, [REJECTED] when a
    reviewer rejected it, and [PROCESSING] when there is none.  Refund
    applications are not read: one the audit node approved on its own
    leaves no audit log and so does not show. *)
Theorem status_rendering (thread_id : string) (current_user_id : Z)
    (w : World) :
  let r := (get_thread_status thread_id current_user_id w).1 in
  (get_thread_status thread_id current_user_id w).2 = w
  /\ StatusResponse.status r ∈ rendered_statuses
  /\ exists latest_audit,
       is_latest AuditLog.created_at (of_thread thread_id current_user_id)
         (audit_logs (db w)) latest_audit
       /\ StatusResponse.status r = render latest_audit
       /\ (latest_audit = None -> StatusResponse.status r = "PROCESSING")
       /\ forall w2, audit_logs (db w2) = audit_logs (db w) ->
            StatusResponse.status
              (get_thread_status thread_id current_user_id w2).1
            = StatusResponse.status r.
Proof.
  intros r. subst r. split; [done|].
  rewrite get_thread_status_render.
  set (best := latest_by AuditLog.created_at
                 (of_thread thread_id current_user_id) (audit_logs (db w))).
  split.
  - unfold rendered_statuses, render. destruct best as [[k a]|].
    + destruct (AuditLog.action a); set_solver.
    + set_solver.
  - exists best. split; [apply latest_by_spec|]. split; [done|].
    split; [by intros ->|].
    intros w2 Hw2. rewrite get_thread_status_render, Hw2. done.
Qed.

(** ** C9: whose order *)

(** C9.  When no order has both that key and that owner,
    [create_refund_application] fails with "订单不存在或无权访问" (order
    not found or no access to it), returns no application and leaves the
    world as it was.  An application that appears in the table is for an
    order the caller owns, and carries the caller as its user. *)
Theorem ownership_check (now : Z) (commit_error : option string)
    (order_id user_id : Z) (reason_detail : string)
    (reason_category : option RefundReason.t) (w : World) :
  let '(res, w') :=
    create_refund_application now commit_error order_id user_id
      reason_detail reason_category w in
  (owns user_id order_id (db w) = false ->
   res = (false, [Lit "订单不存在或无权访问"], None) /\ w' = w)
  /\ (res.1.1 = true -> owns user_id order_id (db w) = true)
  /\ (forall id app,
        refund_applications (db w') !! id = Some app ->
        refund_applications (db w) !! id <> Some app ->
        owns user_id order_id (db w) = true
        /\ RefundApplication.order_id app = order_id
        /\ RefundApplication.user_id app = user_id).
Proof.
  unfold create_refund_application, owns.
  destruct (orders (db w) !! order_id) as [o|]; [|by repeat split].
  destruct (Z.eqb (Order.user_id o) user_id); [|by repeat split].
  destruct (check_eligibility now order_id o (db w)) as [[] msg]; simpl;
    [|by repeat split].
  destruct commit_error as [e|]; [by repeat split|].
  split; [done|]. split; [done|].
  intros id app Hnew Hold. simpl in Hnew.
  apply add_row_lookup in Hnew as [[_ ->]|[_ Hsame]]; [done|].
  by destruct Hold.
Qed.

(** ** C10: one open application per order *)

Lemma existing_refund_none order_id d :
  _check_existing_refund order_id d = None
  <-> forall id r, refund_applications d !! id = Some r ->
                   open_for order_id r = false.
Proof.
  unfold _check_existing_refund. split.
  - intros H id r Hr.
    apply (List.find_none _ _ H (id, r)).
    apply list_elem_of_In. by apply elem_of_map_to_list.
  - intros H.
    destruct (List.find _ _) as [[id r]|] eqn:E; [|done].
    apply List.find_some in E as [Hin Hopen]. simpl in Hopen.
    apply list_elem_of_In, elem_of_map_to_list in Hin.
    rewrite (H id r Hin) in Hopen. done.
Qed.

Lemma existing_refund_some order_id d :
  is_Some (_check_existing_refund order_id d)
  <-> exists id r, refund_applications d !! id = Some r
                   /\ open_for order_id r = true.
Proof.
  split.
  - intros [[id r] E]. unfold _check_existing_refund in E.
    apply List.find_some in E as [Hin Hopen].
    apply list_elem_of_In, elem_of_map_to_list in Hin. eauto.
  - intros (id & r & Hr & Hopen).
    destruct (_check_existing_refund order_id d) eqn:E; [by eexists|].
    rewrite (proj1 (existing_refund_none order_id d) E id r Hr) in Hopen.
    done.
Qed.

Lemma check_eligibility_existing now order_id order d :
  is_Some (_check_existing_refund order_id d) ->
  (check_eligibility now order_id order d).1 = false.
Proof.
  intros [[id r] E]. unfold check_eligibility. rewrite E.
  by destruct (negb _).
Qed.

(** What [create_refund_application] does to the table: nothing, or one
    new [PENDING] row for the order, and the latter only when no
    application for the order is open. *)
Lemma create_refund_application_table now ce order_id user_id rd rc w :
  let w' := (create_refund_application now ce order_id user_id rd rc w).2 in
  w' = w
  \/ (_check_existing_refund order_id (db w) = None
      /\ exists app,
           RefundApplication.order_id app = order_id
           /\ RefundApplication.status app = RefundStatus.PENDING
           /\ refund_applications (db w')
              = add_row app (refund_applications (db w))).
Proof.
  unfold create_refund_application.
  destruct (orders (db w) !! order_id) as [o|]; [|by left].
  destruct (Z.eqb (Order.user_id o) user_id); [|by left].
  destruct (check_eligibility now order_id o (db w)) as [ok msg] eqn:E.
  destruct ok; simpl; [|by left].
  destruct ce as [e|]; [by left|]. right. split.
  - destruct (_check_existing_refund order_id (db w)) eqn:Hex; [|done].
    assert (H : is_Some (_check_existing_refund order_id (db w)))
      by (rewrite Hex; by eexists).
    apply (check_eligibility_existing now order_id o) in H.
    rewrite E in H. done.
  - simpl. eexists. split; [|split]; [| |reflexivity]; reflexivity.
Qed.

Lemma create_keeps_one_open now ce order_id user_id rd rc w :
  one_open_refund_per_order (db w) ->
  one_open_refund_per_order
    (db (create_refund_application now ce order_id user_id rd rc w).2).
Proof.
  intros Hinv.
  destruct (create_refund_application_table now ce order_id user_id rd rc w)
    as [->|(Hnone & app & Hoid & Hst & Htab)]; [done|].
  intros id1 id2 r1 r2 H1 H2 Ho1 Ho2.
  rewrite Htab in H1, H2.
  pose proof (proj1 (existing_refund_none order_id (db w)) Hnone) as Hno.
  apply add_row_lookup in H1 as [[-> ->]|[_ H1]];
    apply add_row_lookup in H2 as [[-> ->]|[_ H2]].
  - done.
  - rewrite Hoid in Ho2. rewrite (Hno id2 r2 H2) in Ho2. done.
  - assert (RefundApplication.order_id r1 = order_id) as Heq.
    { unfold open_for in Ho2. apply andb_true_iff in Ho2 as [Ho2 _].
      rewrite Hoid in Ho2. apply Z.eqb_eq in Ho2. done. }
    rewrite Heq in Ho1. rewrite (Hno id1 r1 H1) in Ho1. done.
  - by apply (Hinv id1 id2 r1 r2).
Qed.

Lemma creations_keep_one_open ops w :
  forallb is_create ops = true ->
  one_open_refund_per_order (db w) ->
  one_open_refund_per_order (db (run ops w)).
Proof.
  revert w. induction ops as [|op ops IH]; intros w Hops Hinv; [done|].
  simpl in Hops. apply andb_true_iff in Hops as [Hop Hops].
  simpl. apply IH; [done|].
  destruct op; try done. simpl. by apply create_keeps_one_open.
Qed.

(** C10.  Eligibility refuses an order for which an application in
    [PENDING] or [APPROVED] exists, so [create_refund_application] then
    fails and adds nothing; and "at most one open application per order"
    is kept by every creation, and by every sequence of creations made
    one after the other. *)
Theorem one_open_refund_preserved (now : Z) (commit_error : option string)
    (order_id user_id : Z) (reason_detail : string)
    (reason_category : option RefundReason.t) (w : World) :
  let created :=
    create_refund_application now commit_error order_id user_id
      reason_detail reason_category w in
  let existing :=
    exists id r, refund_applications (db w) !! id = Some r
                 /\ RefundApplication.order_id r = order_id
                 /\ RefundApplication.status r
                    ∈ [RefundStatus.PENDING; RefundStatus.APPROVED] in
  (existing ->
   (forall order, (check_eligibility now order_id order (db w)).1 = false)
   /\ created.1.1.1 = false /\ created.1.2 = None /\ created.2 = w)
  /\ (one_open_refund_per_order (db w) ->
      one_open_refund_per_order (db created.2))
  /\ (forall ops, forallb is_create ops = true ->
        one_open_refund_per_order (db w) ->
        one_open_refund_per_order (db (run ops w))).
Proof.
  intros created existing. subst created existing. split; [|split].
  - intros (id & r & Hr & Hoid & Hst).
    assert (Hsome : is_Some (_check_existing_refund order_id (db w))).
    { apply existing_refund_some. exists id, r. split; [done|].
      unfold open_for. rewrite Hoid, Z.eqb_refl. simpl.
      by apply bool_decide_eq_true_2. }
    split; [intros order; by apply check_eligibility_existing|].
    unfold create_refund_application.
    destruct (orders (db w) !! order_id) as [o|]; [|done].
    destruct (Z.eqb (Order.user_id o) user_id); [|done].
    pose proof (check_eligibility_existing now order_id o (db w) Hsome)
      as He.
    destruct (check_eligibility now order_id o (db w)) as [ok msg].
    simpl in He. subst ok. done.
  - apply create_keeps_one_open.
  - intros ops. apply creations_keep_one_open.
Qed.

(** ** The examples, run *)

(** User 2 asks for a refund on order 3, which belongs to user 1. *)
Example create_for_foreign_order :
  create_refund_application 100 None 3 2 "不想要了" None shop
  = ((false, [Lit "订单不存在或无权访问"], None), shop).
Proof. vm_compute. reflexivity. Qed.

(** User 1 asks twice for a refund on order 3: the second request is
    refused and the table still holds one application. *)
Example create_twice :
  let w1 := step (Create 100 None 3 1 "质量问题" None) shop in
  let '(res, w2) :=
    create_refund_application 105 None 3 1 "质量问题" None w1 in
  res.1.1 = false
  /\ w2 = w1
  /\ size (refund_applications (db w1)) = 1%nat.
Proof. vm_compute. repeat split; reflexivity. Qed.

Example shop_has_one_open_refund_per_order :
  one_open_refund_per_order
    (db (run [Create 100 None 3 1 "质量问题" None;
              Create 105 None 3 1 "质量问题" None;
              Create 106 None 4 1 "不想要了" None] shop)).
Proof.
  apply creations_keep_one_open; [done|].
  intros id1 id2 r1 r2 H1. vm_compute in H1. discriminate.
Qed.

(** A reviewer approves the case of order 3; the status query then reads
    [APPROVED], the broker holds the settlement and the SMS, and the
    worker that settles completes the application. *)
Example approval_end_to_end :
  StatusResponse.status (get_thread_status "thread-1" 1 shop_approved).1
  = "APPROVED"
  /\ length (broker shop_approved) = 3%nat
  /\ StatusResponse.status
       (get_thread_status "thread-1" 1
          (run [Work 200 settle_1] shop_approved)).1
     = "APPROVED".
Proof. vm_compute. repeat split; reflexivity. Qed.

(** ** The refund node *)

(** [handle_refund] too writes applications only for orders of the
    caller. *)
Lemma handle_refund_ownership now order_sn_match state w id app :
  let w' := (handle_refund now order_sn_match state w).2 in
  refund_applications (db w') !! id = Some app ->
  refund_applications (db w) !! id <> Some app ->
  owns (AgentState.user_id state) (RefundApplication.order_id app) (db w)
  = true
  /\ RefundApplication.user_id app = AgentState.user_id state.
Proof.
  unfold handle_refund. destruct order_sn_match as [sn|]; [|by intros ? ?].
  destruct (List.find _ _) as [[oid o]|] eqn:E; [|by intros ? ?].
  destruct (negb _); [by intros ? ?|].
  destruct (non_returnable_names _); [|by intros ? ?].
  simpl. intros Hnew Hold.
  apply add_row_lookup in Hnew as [[_ ->]|[_ Hsame]]; [|by destruct Hold].
  simpl. split; [|done].
  apply List.find_some in E as [Hin Hp]. simpl in Hp.
  apply list_elem_of_In, elem_of_map_to_list in Hin.
  apply andb_true_iff in Hp as [_ Hu].
  unfold owns. by rewrite Hin.
Qed.

(** It does not ask whether an application is open: the same question
    asked twice leaves two [PENDING] applications for order 3. *)
Example handle_refund_twice :
  let ask := Ask 100 (Some "SN20240003")
               (refund_state "thread-1" 0 0 0) in
  RefundApplication.status <$> refund_applications (db (run [ask; ask] shop))
  = <[1 := RefundStatus.PENDING]> (<[2 := RefundStatus.PENDING]> ∅)
  /\ RefundApplication.order_id
       <$> refund_applications (db (run [ask; ask] shop))
     = <[1 := 3]> (<[2 := 3]> ∅).
Proof. vm_compute. split; reflexivity. Qed.

(** * More of the code *)

(** ** The connection manager *)

Lemma send_each_manager {K} message (targets : list (K * Z)) disc w :
  manager (send_each message targets disc w).2 = manager w.
Proof.
  revert disc w. induction targets as [|[k ws] rest IH]; intros disc w;
    simpl; [done|].
  unfold send_json. case_decide; [apply IH|]. by rewrite IH.
Qed.

(** The targets [send_each] collects: those whose socket is closed. *)
Lemma send_each_disconnected {K} message (targets : list (K * Z)) disc w :
  (send_each message targets disc w).1
  = (disc ++ (filter (fun t => t.2 ∈ closed w) targets).*1)%list.
Proof.
  revert disc w. induction targets as [|[k ws] rest IH]; intros disc w;
    simpl.
  - by rewrite app_nil_r.
  - unfold send_json. rewrite filter_cons. simpl.
    destruct (decide (ws ∈ closed w)) as [Hin|Hout].
    + rewrite IH. simpl. by rewrite <- app_assoc.
    + rewrite IH. done.
Qed.

(** The registry after [send_to_thread]: the subscribers of the thread
    lose the sockets that are closed. *)
Lemma send_to_thread_manager thread_id message w subs :
  thread_subscribers (manager w) !! thread_id = Some subs ->
  manager (send_to_thread thread_id message w)
  = with_thread_subscribers
      (<[thread_id := subs ∖ closed w]> (thread_subscribers (manager w)))
      (manager w).
Proof.
  intros Hsubs. unfold send_to_thread. rewrite Hsubs.
  pose proof (send_each_manager message
                ((fun ws => (ws, ws)) <$> elements subs) [] w) as Hm.
  pose proof (send_each_disconnected message
                ((fun ws => (ws, ws)) <$> elements subs) [] w) as Hd.
  destruct (send_each _ _ _ _) as [disc w']. simpl in *.
  rewrite Hm. f_equal. f_equal. apply set_eq. intros x.
  rewrite !elem_of_difference, elem_of_list_to_set, Hd.
  split; intros [Hx Hn]; (split; [done|]); intros Hc; apply Hn.
  - apply list_elem_of_fmap. exists (x, x). split; [done|].
    apply list_elem_of_filter. split; [done|].
    apply list_elem_of_fmap. exists x. split; [done|].
    by apply elem_of_elements.
  - apply list_elem_of_fmap in Hc as ([a b] & -> & Hin).
    apply list_elem_of_filter in Hin as [Hcl Hin].
    apply list_elem_of_fmap in Hin as (y & [= -> ->] & _). done.
Qed.

Lemma send_to_thread_admins thread_id message w :
  admin_connections (manager (send_to_thread thread_id message w))
  = admin_connections (manager w).
Proof.
  destruct (thread_subscribers (manager w) !! thread_id) as [subs|] eqn:E.
  - by rewrite (send_to_thread_manager _ _ _ subs).
  - unfold send_to_thread. by rewrite E.
Qed.

(** [send_to_thread] on a thread nobody subscribed to does nothing.  On
    a thread with subscribers it puts one frame on the wire for each
    subscriber whose socket is open, drops from the subscribers of that
    thread exactly those whose socket is closed, and leaves every other
    registry as it was. *)
Theorem send_to_thread_prunes (thread_id : string) (message : Json)
    (w : World) :
  let w' := send_to_thread thread_id message w in
  match thread_subscribers (manager w) !! thread_id with
  | None => w' = w
  | Some subscribers =>
      thread_subscribers (manager w')
      = <[thread_id := subscribers ∖ closed w]>
          (thread_subscribers (manager w))
      /\ wire w'
         = (wire w
            ++ ((fun ws => (ws, message))
                  <$> filter (fun ws => ws ∉ closed w)
                        (elements subscribers)))%list
      /\ active_connections (manager w') = active_connections (manager w)
      /\ admin_connections (manager w') = admin_connections (manager w)
  end.
Proof.
  intros w'. subst w'.
  destruct (thread_subscribers (manager w) !! thread_id) as [subs|] eqn:E;
    [|unfold send_to_thread; by rewrite E].
  rewrite (send_to_thread_manager _ _ _ subs E). simpl.
  split; [done|]. split; [|done].
  unfold send_to_thread. rewrite E.
  pose proof (send_each_wire message
                ((fun ws => (ws, ws)) <$> elements subs) [] w) as Hw.
  destruct (send_each _ _ _ _) as [disc w']. simpl in *.
  rewrite Hw. f_equal. clear Hw.
  generalize (elements subs). intros l.
  induction l as [|y l IH]; [done|].
  rewrite fmap_cons, !filter_cons. cbn [snd].
  destruct (decide (y ∉ closed w)); rewrite ?fmap_cons, IH; done.
Qed.

Lemma disconnect_admins_lookup (ids : list Z) w admin_id :
  admin_connections
    (manager (foldl (fun acc id => disconnect_admin id acc) w ids))
    !! admin_id
  = if decide (admin_id ∈ ids) then None
    else admin_connections (manager w) !! admin_id.
Proof.
  revert w. induction ids as [|i ids IH]; intros w; cbn [foldl].
  - destruct (decide (admin_id ∈ [])) as [H|H]; [|done].
    by apply elem_of_nil in H.
  - rewrite IH.
    destruct (decide (admin_id ∈ ids)) as [Hin|Hout];
      destruct (decide (admin_id ∈ i :: ids)) as [Hin'|Hout']; try done.
    + destruct Hout'. by apply elem_of_cons; right.
    + apply elem_of_cons in Hin' as [->|?]; [|done].
      unfold disconnect_admin. simpl. apply lookup_delete_eq.
    + unfold disconnect_admin. simpl. apply lookup_delete_ne.
      intros ->. apply Hout'. apply elem_of_cons. by left.
Qed.

Lemma disconnect_admins_others (ids : list Z) w :
  let w' := foldl (fun acc id => disconnect_admin id acc) w ids in
  thread_subscribers (manager w') = thread_subscribers (manager w)
  /\ active_connections (manager w') = active_connections (manager w).
Proof.
  revert w. induction ids as [|i ids IH]; intros w; simpl; [done|].
  destruct (IH (disconnect_admin i w)) as [-> ->]. done.
Qed.

(** A frame broadcast to the reviewers reaches every reviewer whose
    socket is open. *)
Lemma broadcast_to_admins_delivers message w admin_id ws :
  admin_connections (manager w) !! admin_id = Some ws ->
  ws ∉ closed w ->
  (ws, message) ∈ wire (broadcast_to_admins message w).
Proof.
  intros Hws Hopen. unfold broadcast_to_admins.
  pose proof (send_each_wire message
                (map_to_list (admin_connections (manager w))) [] w) as Hw.
  destruct (send_each _ _ _ _) as [disc w1]. simpl in *.
  rewrite disconnect_admins_wire, Hw.
  apply elem_of_app. right.
  apply list_elem_of_fmap. exists (admin_id, ws). split; [done|].
  apply list_elem_of_filter. split; [done|].
  by apply elem_of_map_to_list.
Qed.

(** [broadcast_to_admins] sends the frame to every reviewer whose socket
    is open and forgets every reviewer whose socket is closed; the
    customers' registries are as before. *)
Theorem broadcast_to_admins_prunes (message : Json) (w : World) :
  let w' := broadcast_to_admins message w in
  (forall admin_id,
     admin_connections (manager w') !! admin_id
     = match admin_connections (manager w) !! admin_id with
       | Some ws => if decide (ws ∈ closed w) then None else Some ws
       | None => None
       end)
  /\ (forall admin_id ws,
        admin_connections (manager w) !! admin_id = Some ws ->
        ws ∉ closed w -> (ws, message) ∈ wire w')
  /\ (forall f, f ∈ wire w' -> f ∈ wire w \/ (f.2 = message /\ f.1 ∉ closed w))
  /\ thread_subscribers (manager w') = thread_subscribers (manager w)
  /\ active_connections (manager w') = active_connections (manager w).
Proof.
  intros w'. subst w'.
  split; [|split; [apply broadcast_to_admins_delivers|]].
  all: unfold broadcast_to_admins;
    pose proof (send_each_wire message
                  (map_to_list (admin_connections (manager w))) [] w) as Hw;
    pose proof (send_each_manager message
                  (map_to_list (admin_connections (manager w))) [] w) as Hm;
    pose proof (send_each_disconnected message
                  (map_to_list (admin_connections (manager w))) [] w) as Hd;
    destruct (send_each _ _ _ _) as [disc w1]; simpl in *.
  2: split.
  - intros admin_id. rewrite disconnect_admins_lookup, Hm, Hd.
    destruct (admin_connections (manager w) !! admin_id) as [ws|] eqn:E.
    + destruct (decide (ws ∈ closed w)) as [Hc|Hc].
      * rewrite decide_True; [done|].
        apply list_elem_of_fmap. exists (admin_id, ws). split; [done|].
        apply list_elem_of_filter. split; [done|].
        by apply elem_of_map_to_list.
      * rewrite decide_False; [done|].
        intros ([k v] & Hk & Hin)%list_elem_of_fmap. simpl in Hk. subst k.
        apply list_elem_of_filter in Hin as [Hcl Hin].
        apply elem_of_map_to_list in Hin. simpl in Hcl. congruence.
    + by case_decide.
  - intros f. rewrite disconnect_admins_wire, Hw.
    intros [Hf|Hf]%elem_of_app; [by left|]. right.
    apply list_elem_of_fmap in Hf as (t & -> & Ht).
    apply list_elem_of_filter in Ht as [Hopen _]. done.
  - pose proof (disconnect_admins_others disc w1) as [H1 H2]. simpl in *.
    rewrite H1, H2, Hm. done.
Qed.

(** The socket the manager holds for a user on a thread. *)
Lemma connect_user_registers ws u t w :
  let c := manager (connect_user ws u t w) in
  (active_connections c !! u ≫= (fun mine => mine !! t)) = Some ws
  /\ exists subscribers,
       thread_subscribers c !! t = Some subscribers /\ ws ∈ subscribers.
Proof.
  unfold connect_user. simpl. rewrite !lookup_insert_eq. simpl.
  rewrite lookup_insert_eq. split; [done|].
  eexists. split; [done|]. set_solver.
Qed.

(** A socket that connected to a thread and is open receives what is
    published to the thread; connecting changes neither the database nor
    the broker nor the wire. *)
Theorem connect_user_then_publish (ws : Z) (u : Z) (t : string)
    (message : Json) (w : World) :
  let w1 := connect_user ws u t w in
  (ws ∉ closed w -> (ws, message) ∈ wire (send_to_thread t message w1))
  /\ (ws ∈ closed w ->
      ws ∉ default ∅
             (thread_subscribers (manager (send_to_thread t message w1))
                !! t))
  /\ db w1 = db w /\ broker w1 = broker w /\ wire w1 = wire w.
Proof.
  intros w1.
  destruct (connect_user_registers ws u t w) as (_ & subs & Hsubs & Hin).
  fold w1 in Hsubs. split; [|split; [|done]].
  - intros Hopen. by apply (send_to_thread_delivers t message w1 subs ws).
  - intros Hclosed.
    rewrite (send_to_thread_manager _ _ _ subs Hsubs). simpl.
    rewrite lookup_insert_eq. simpl.
    intros [_ Hn]%elem_of_difference. by apply Hn.
Qed.

Lemma disconnect_user_closed u t w :
  closed (disconnect_user u t w) = closed w
  /\ wire (disconnect_user u t w) = wire w
  /\ db (disconnect_user u t w) = db w.
Proof.
  unfold disconnect_user.
  by destruct (active_connections (manager w) !! u).
Qed.

Lemma disconnect_after_connect ws u t w :
  let w2 := disconnect_user u t (connect_user ws u t w) in
  (active_connections (manager w2) !! u ≫= (fun mine => mine !! t)) = None
  /\ thread_subscribers (manager w2) !! t
     = Some (default ∅ (thread_subscribers (manager w) !! t) ∖ {[ws]}).
Proof.
  unfold disconnect_user at 1, connect_user. simpl.
  rewrite !lookup_insert_eq. simpl. rewrite !lookup_insert_eq.
  split.
  - case_decide.
    + by rewrite lookup_delete_eq.
    + rewrite lookup_insert_eq. simpl. apply lookup_delete_eq.
  - f_equal. set_solver.
Qed.

(** [disconnect_user] after [connect_user] leaves the user without a
    socket on the thread and the thread without that socket; and
    [disconnect_user] for a user the manager does not know changes
    nothing. *)
Lemma disconnect_user_unregisters (ws : Z) (u : Z) (t : string)
    (w : World) :
  let w2 := disconnect_user u t (connect_user ws u t w) in
  (active_connections (manager w2) !! u ≫= (fun mine => mine !! t)) = None
  /\ thread_subscribers (manager w2) !! t
     = Some (default ∅ (thread_subscribers (manager w) !! t) ∖ {[ws]})
  /\ (active_connections (manager w) !! u = None ->
      disconnect_user u t w = w)
  /\ db w2 = db w /\ wire w2 = wire w.
Proof.
  intros w2.
  destruct (disconnect_after_connect ws u t w) as [Hact Hsubs].
  split; [exact Hact|]. split; [exact Hsubs|]. split.
  - intros Hnone. unfold disconnect_user. by rewrite Hnone.
  - subst w2. by destruct (disconnect_user_closed u t (connect_user ws u t w))
      as (_ & -> & ->).
Qed.

(** A user who connects to a thread a second time, on another socket,
    replaces the socket the manager holds for them, but the first socket
    stays subscribed to the thread: [disconnect_user] removes the second
    one only, and what is published to the thread afterwards is still
    sent to the first. *)
Theorem reconnect_keeps_old_subscription (ws1 ws2 : Z) (u : Z) (t : string)
    (message : Json) (w : World) :
  ws1 <> ws2 ->
  let w3 :=
    disconnect_user u t (connect_user ws2 u t (connect_user ws1 u t w)) in
  ((active_connections (manager w3) !! u) ≫= (fun mine => mine !! t)) = None
  /\ ws1 ∈ default ∅ (thread_subscribers (manager w3) !! t)
  /\ (ws2 ∉ default ∅ (thread_subscribers (manager w3) !! t))
  /\ (ws1 ∉ closed w -> (ws1, message) ∈ wire (send_to_thread t message w3)).
Proof.
  intros Hne w3.
  pose proof (disconnect_after_connect ws2 u t (connect_user ws1 u t w))
    as (Hact & Hsubs).
  fold w3 in Hact, Hsubs.
  destruct (connect_user_registers ws1 u t w) as (_ & subs & Hs1 & Hin1).
  rewrite Hs1 in Hsubs. simpl in Hsubs.
  split; [done|]. rewrite Hsubs. simpl.
  split; [set_solver|]. split; [set_solver|].
  intros Hopen.
  apply (send_to_thread_delivers t message w3 (subs ∖ {[ws2]}) ws1);
    [exact Hsubs|set_solver|].
  subst w3. by rewrite (proj1 (disconnect_user_closed _ _ _)).
Qed.

Lemma reconnect_keeps_old_subscription_witness :
  (100, JStr "late") ∈
  wire (send_to_thread "thread-9" (JStr "late")
          (disconnect_user 5 "thread-9"
             (connect_user 103 5 "thread-9"
                (connect_user 100 5 "thread-9" shop)))).
Proof.
  refine (proj2 (proj2 (proj2
            (reconnect_keeps_old_subscription 100 103 5 "thread-9"
               (JStr "late") shop _))) _).
  - discriminate.
  - vm_compute. intros H. discriminate H.
Defined.

(** [send_to_user] sends on the socket the manager holds for the user
    and the thread.  When the socket is open the frame goes on the wire
    and the registries stay; when it is closed nothing is sent and the
    user is disconnected from the thread, the socket leaving the
    subscribers of the thread. *)
Theorem send_to_user_effect (u : Z) (t : string) (message : Json)
    (w : World) (ws : Z) :
  (active_connections (manager w) !! u ≫= (fun mine => mine !! t)) = Some ws ->
  let w' := send_to_user u t message w in
  (ws ∉ closed w ->
   wire w' = (wire w ++ [(ws, message)])%list /\ manager w' = manager w)
  /\ (ws ∈ closed w ->
      wire w' = wire w
      /\ (active_connections (manager w') !! u ≫= (fun mine => mine !! t))
         = None
      /\ ws ∉ default ∅ (thread_subscribers (manager w') !! t)).
Proof.
  intros Hreg. unfold send_to_user.
  destruct (active_connections (manager w) !! u) as [mine|] eqn:Hu;
    [|done].
  simpl in Hreg. rewrite Hreg. unfold send_json. split.
  - intros Hopen. by rewrite decide_False.
  - intros Hclosed. rewrite decide_True by done.
    unfold disconnect_user. rewrite Hu, Hreg. simpl.
    split; [done|]. split.
    + case_decide.
      * by rewrite lookup_delete_eq.
      * rewrite lookup_insert_eq. simpl. apply lookup_delete_eq.
    + destruct (thread_subscribers (manager w) !! t) as [subs|] eqn:Hs.
      * rewrite lookup_insert_eq. simpl. set_solver.
      * rewrite Hs. simpl. set_solver.
Qed.

Lemma send_to_user_effect_witness :
  wire (send_to_user 1 "thread-1" (JStr "hello") shop)
  = [(100, JStr "hello")].
Proof.
  refine (proj1 (proj1
            (send_to_user_effect 1 "thread-1" (JStr "hello") shop 100 _) _)).
  - vm_compute. reflexivity.
  - vm_compute. intros H. discriminate H.
Defined.

(** ** The decision endpoint, further *)

(** The answer of [admin_decision], in full, for a call that runs
    alone.  For an id with no audit log it raises 404 when the id fits
    the integer column and ends in a 500 when it does not; for an audit
    log that is decided it raises 400; whenever it raises the world is
    as before.  Otherwise the case was pending, is decided afterwards,
    and the response echoes the id and the action of the request. *)
Theorem admin_decision_outcome (now id : Z)
    (request : AdminDecisionRequest.t) (adm : Z) (w : World) :
  match admin_decision now id request adm w with
  | (Raise e, w') =>
      w' = w
      /\ ((audit_logs (db w) !! id = None
           /\ - 2 ^ 31 <= id < 2 ^ 31
           /\ e = {| status_code := 404; detail := "Audit log not found" |})
          \/ (audit_logs (db w) !! id = None
              /\ ~ (- 2 ^ 31 <= id < 2 ^ 31)
              /\ status_code e = 500)
          \/ (decided id w = true /\ e = already_processed))
  | (Ok r, w') =>
      decided id w = false
      /\ is_Some (audit_logs (db w) !! id)
      /\ decided id w' = true
      /\ r = {| AdminDecisionResponse.success := true;
                AdminDecisionResponse.message :=
                  [Lit "审核决策已提交:  ";
                   FmtStr (AdminDecisionRequest.action request)];
                AdminDecisionResponse.audit_log_id := id;
                AdminDecisionResponse.action :=
                  AdminDecisionRequest.action request |}
  end.
Proof.
  destruct (admin_decision now id request adm w) as [[r|e] w'] eqn:E.
  - pose proof E as E'.
    apply admin_decision_ok in E' as (a & Ha & Hp & Hw').
    unfold decided. rewrite Ha, Hw', lookup_insert_eq, Hp. simpl.
    split; [done|]. split; [by eexists|]. split.
    + rewrite bool_decide_eq_false_2; [done|].
      apply action_enum_of_decides.
    + unfold admin_decision, admin_decision_select, admin_decision_apply
        in E.
      rewrite Ha, Hp in E.
      rewrite decide_False in E by (intros H; by apply H).
      by injection E as <- _.
  - pose proof (admin_decision_raise _ _ _ _ _ _ _ E) as ->.
    unfold admin_decision, admin_decision_select, admin_decision_apply,
      decided in *.
    destruct (audit_logs (db w) !! id) as [a|].
    + destruct (decide (AuditLog.action a <> AuditAction.PENDING))
        as [Hne|Hp]; [|done].
      injection E as <-. split; [done|]. right. right. split; [|done].
      by rewrite bool_decide_eq_false_2.
    + destruct (int32 id) eqn:Hid; injection E as <-; (split; [done|]);
        unfold int32 in Hid.
      * left. apply andb_true_iff in Hid as [H1 H2].
        apply Z.leb_le in H1. apply Z.ltb_lt in H2. done.
      * right. left. split; [done|]. split; [|done]. intros [H1 H2].
        apply andb_false_iff in Hid as [H|H];
          [apply Z.leb_gt in H|apply Z.ltb_ge in H]; lia.
Qed.

Lemma update_refund_other now e request adm a w rid :
  truthy_id (AuditLog.refund_application_id a) <> Some rid ->
  refund_applications (db (update_refund now e request adm a w)) !! rid
  = refund_applications (db w) !! rid.
Proof.
  intros Hne. unfold update_refund.
  destruct (truthy_id _) as [rid'|]; [|done].
  destruct (refund_applications (db w) !! rid') eqn:E; [|done].
  case_decide; simpl; rewrite lookup_insert_ne; congruence.
Qed.

(** What a decision leaves alone.  A successful [admin_decision] changes
    one audit log, at most the one refund application the case is linked
    to, and adds one message card, an [AUDIT_CARD] from the reviewer to
    the user of the case that carries the action and the comment; orders,
    the other audit logs, the other applications, and the payment and
    SMS gateways are untouched. *)
Theorem admin_decision_footprint (now id : Z)
    (request : AdminDecisionRequest.t) (adm : Z) (w : World)
    (a : AuditLog.t) :
  audit_logs (db w) !! id = Some a ->
  AuditLog.action a = AuditAction.PENDING ->
  let w' := (admin_decision now id request adm w).2 in
  orders (db w') = orders (db w)
  /\ payments w' = payments w /\ sms w' = sms w
  /\ (forall id', id' <> id ->
        audit_logs (db w') !! id' = audit_logs (db w) !! id')
  /\ (forall rid,
        truthy_id (AuditLog.refund_application_id a) <> Some rid ->
        refund_applications (db w') !! rid
        = refund_applications (db w) !! rid)
  /\ message_cards (db w')
     = add_row
         {| MessageCard.thread_id := AuditLog.thread_id a;
            MessageCard.message_type := MessageType.AUDIT_CARD;
            MessageCard.status := MessageStatus.SENT;
            MessageCard.content := JDict [
              ("card_type", JStr "audit_result");
              ("action", JStr (AdminDecisionRequest.action request));
              ("message", JText (status_message_of request));
              ("admin_comment",
               opt_str (AdminDecisionRequest.admin_comment request));
              ("timestamp", JInt now) ];
            MessageCard.sender_id := Some adm;
            MessageCard.sender_type := "admin";
            MessageCard.receiver_id := Some (AuditLog.user_id a);
            MessageCard.meta_data := JDict [];
            MessageCard.created_at := now;
            MessageCard.updated_at := now |}
         (message_cards (db w)).
Proof.
  intros Ha Hp w'. subst w'.
  unfold admin_decision, admin_decision_select, admin_decision_apply.
  rewrite Ha.
  rewrite decide_False by (intros H; by apply H).
  cbn [snd]. rewrite !flush_decision_same.
  match goal with
  | |- context [notify_status_change ?n ?t ?s ?d ?w0] =>
      pose proof (notify_status_change_only_sends n t s d w0)
        as (Hdb & _ & _ & Hpay & Hsms);
      set (w4 := notify_status_change n t s d w0) in *
  end.
  rewrite Hdb, Hpay, Hsms. simpl.
  match goal with
  | |- context [update_refund ?n ?e ?r ?ad ?al ?w1] =>
      pose proof (update_refund_frame n e r ad al w1)
        as (_ & _ & _ & Hp2 & Hs2 & Ho2 & Hm2);
      pose proof (update_refund_audit_logs n e r ad al w1) as Haudit;
      pose proof (fun rid => update_refund_other n e r ad al w1 rid)
        as Hother
  end.
  simpl in *. rewrite Hp2, Hs2, Ho2, Hm2, Haudit.
  repeat split; try done.
  - intros id' Hne. by rewrite lookup_insert_ne.
Qed.

Lemma admin_decision_footprint_witness :
  orders (db shop_rejected) = orders (db shop_pending)
  /\ payments shop_rejected = payments shop_pending.
Proof.
  assert (H1 : audit_logs (db shop_pending) !! 1 = Some case_1)
    by (vm_compute; reflexivity).
  destruct (admin_decision_footprint 120 1
              (reject (Some "quality unverified")) 7 shop_pending case_1
              H1 eq_refl) as (Ho & Hp & _).
  split; [exact Ho|exact Hp].
Defined.

(** The action of a request is not checked.  Any string other than
    exactly ["APPROVE"], a lower-case ["approve"] or a misspelling
    included, rejects the case: the audit log becomes [REJECT], the
    linked refund application [REJECTED], nothing is enqueued, and the
    frame sent to the customer carries that string as its status. *)
Theorem unknown_action_rejects (now id : Z)
    (request : AdminDecisionRequest.t) (adm : Z) (w : World)
    (a : AuditLog.t) (rid : Z) (refund : RefundApplication.t) :
  audit_logs (db w) !! id = Some a ->
  AuditLog.action a = AuditAction.PENDING ->
  truthy_id (AuditLog.refund_application_id a) = Some rid ->
  refund_applications (db w) !! rid = Some refund ->
  AdminDecisionRequest.action request <> "APPROVE" ->
  let w' := (admin_decision now id request adm w).2 in
  AuditLog.action <$> audit_logs (db w') !! id = Some AuditAction.REJECT
  /\ RefundApplication.status <$> refund_applications (db w') !! rid
     = Some RefundStatus.REJECTED
  /\ broker w' = broker w
  /\ forall subs ws,
       thread_subscribers (manager w) !! AuditLog.thread_id a = Some subs ->
       ws ∈ subs -> ws ∉ closed w ->
       (ws, status_change_frame now (AuditLog.thread_id a)
              (AdminDecisionRequest.action request)
              [("message",
                JText [Lit " 审核未通过: ";
                       FmtOptStr (AdminDecisionRequest.admin_comment request)]);
               ("admin_comment",
                opt_str (AdminDecisionRequest.admin_comment request))])
       ∈ wire w'.
Proof.
  intros Ha Hp Hrid Hrefund Hact w'.
  assert (Henum : action_enum_of request = AuditAction.REJECT).
  { unfold action_enum_of.
    destruct (String.eqb_spec (AdminDecisionRequest.action request)
                "APPROVE"); done. }
  assert (Hmsg : status_message_of request
                 = [Lit " 审核未通过: ";
                    FmtOptStr (AdminDecisionRequest.admin_comment request)]).
  { unfold status_message_of. by rewrite Henum. }
  subst w'.
  unfold admin_decision, admin_decision_select, admin_decision_apply.
  rewrite Ha.
  rewrite decide_False by (intros H; by apply H). cbn [snd].
  rewrite !flush_decision_same, Hmsg.
  match goal with
  | |- context [notify_status_change ?n ?t ?s ?d ?w0] =>
      pose proof (notify_status_change_only_sends n t s d w0)
        as (Hdb & Hbroker & _);
      pose proof (fun subs ws =>
                    notify_status_change_delivers n t s d w0 subs ws)
        as Hdel;
      set (w4 := notify_status_change n t s d w0) in *
  end.
  simpl in Hdb, Hbroker, Hdel.
  match type of Hbroker with
  | _ = broker (update_refund ?n ?e ?r ?ad ?al ?w1) =>
      pose proof (update_refund_frame n e r ad al w1)
        as (Hman & Hclosed & _)
  end.
  simpl in Hman, Hclosed. rewrite Hman, Hclosed in Hdel.
  rewrite Hdb, Hbroker. simpl.
  split; [|split; [|split; [|exact Hdel]]].
  - rewrite update_refund_audit_logs. simpl.
    by rewrite lookup_insert_eq, Henum.
  - unfold update_refund. rewrite Hrid, Henum. simpl. rewrite Hrefund.
    simpl. by rewrite lookup_insert_eq.
  - unfold update_refund. rewrite Hrid, Henum. simpl. by rewrite Hrefund.
Qed.

Lemma unknown_action_rejects_witness :
  RefundApplication.status
    <$> refund_applications
          (db (admin_decision 120 1 lower_case_approve 7 shop_pending).2) !! 1
  = Some RefundStatus.REJECTED.
Proof.
  destruct (refund_applications (db shop_pending) !! 1) as [refund|] eqn:Hr.
  - refine (proj1 (proj2
              (unknown_action_rejects 120 1 lower_case_approve 7
                 shop_pending case_1 1 refund _ _ _ Hr _))).
    + vm_compute. reflexivity.
    + reflexivity.
    + reflexivity.
    + discriminate.
  - vm_compute in Hr. discriminate.
Defined.

(** ** The reviewer queue *)

Lemma newer_first_total {A} (created_at : A -> Z) :
  Total (newer_first created_at).
Proof. intros x y. unfold newer_first. lia. Qed.

(** A query [where f order by created_at desc] returns the rows of the
    table that pass [f], each once, newest first. *)
Lemma selected_rows {A} (created_at : A -> Z) (f : Z * A -> bool)
    (m : gmap Z A) :
  let l := order_by_desc created_at (List.filter f (map_to_list m)) in
  (forall k a, (k, a) ∈ l <-> m !! k = Some a /\ f (k, a) = true)
  /\ Sorted (newer_first created_at) l
  /\ NoDup (l.*1).
Proof.
  intros l.
  assert (Hmem : forall k a,
            (k, a) ∈ l <-> m !! k = Some a /\ f (k, a) = true).
  { intros k a. subst l. unfold order_by_desc.
    rewrite merge_sort_Permutation, list_elem_of_In, List.filter_In.
    by rewrite <- list_elem_of_In, elem_of_map_to_list. }
  split; [exact Hmem|]. split.
  - pose proof (newer_first_total created_at).
    apply Sorted_merge_sort. apply _.
  - apply NoDup_fmap_fst.
    + intros k a b Ha Hb. apply Hmem in Ha as [Ha _], Hb as [Hb _].
      congruence.
    + subst l. unfold order_by_desc. rewrite merge_sort_Permutation.
      apply NoDup_ListNoDup, List.NoDup_filter, NoDup_ListNoDup,
        NoDup_map_to_list.
Qed.

Lemma pending_tasks_mem risk_level w t :
  t ∈ (get_pending_tasks risk_level w).1
  <-> exists id a, audit_logs (db w) !! id = Some a
                   /\ pending_with risk_level a = true
                   /\ t = audit_task (id, a).
Proof.
  unfold get_pending_tasks. cbn [fst].
  pose proof (selected_rows AuditLog.created_at
                (fun row => pending_with risk_level row.2)
                (audit_logs (db w))) as (Hmem & _).
  rewrite list_elem_of_fmap. split.
  - intros ([id a] & -> & Hin). apply Hmem in Hin as [? ?]. eauto.
  - intros (id & a & Ha & Hp & ->). exists (id, a). split; [done|].
    by apply Hmem.
Qed.

(** [get_pending_tasks] writes nothing and lists the audit logs that are
    [PENDING], and of the asked risk level when one is asked for, each
    once, newest first; a decided case is never listed. *)
Theorem pending_queue (risk_level : option string) (w : World) :
  let '(tasks, w') := get_pending_tasks risk_level w in
  w' = w
  /\ (forall t, t ∈ tasks <->
        exists id a, audit_logs (db w) !! id = Some a
                     /\ pending_with risk_level a = true
                     /\ t = audit_task (id, a))
  /\ (forall id, id ∈ AuditTask.audit_log_id <$> tasks -> decided id w = false)
  /\ Sorted task_newer_first tasks
  /\ NoDup (AuditTask.audit_log_id <$> tasks).
Proof.
  pose proof (fun t => pending_tasks_mem risk_level w t) as Htasks.
  unfold get_pending_tasks in *. cbn [fst] in Htasks.
  pose proof (selected_rows AuditLog.created_at
                (fun row => pending_with risk_level row.2)
                (audit_logs (db w))) as (Hmem & Hsorted & Hnodup).
  set (l := order_by_desc AuditLog.created_at _) in *.
  split; [done|]. split; [exact Htasks|]. split; [|split].
  - intros id Hid. apply list_elem_of_fmap in Hid as (t & -> & Ht).
    apply Htasks in Ht as (id & a & Ha & Hp & ->). simpl.
    unfold decided. rewrite Ha. unfold pending_with in Hp.
    apply andb_true_iff in Hp as [Hp _]. by rewrite Hp.
  - by apply (Sorted_fmap _ (newer_first AuditLog.created_at)).
  - rewrite <- list_fmap_compose.
    replace (AuditTask.audit_log_id ∘ audit_task) with (@fst Z AuditLog.t);
      done.
Qed.

Lemma queue_ids risk_level w id :
  id ∈ AuditTask.audit_log_id <$> (get_pending_tasks risk_level w).1
  <-> exists a, audit_logs (db w) !! id = Some a
                /\ pending_with risk_level a = true.
Proof.
  pose proof (fun t => pending_tasks_mem risk_level w t) as Hmem.
  rewrite list_elem_of_fmap. split.
  - intros (t & -> & Ht). apply Hmem in Ht as (id & a & Ha & Hp & ->).
    eauto.
  - intros (a & Ha & Hp). exists (audit_task (id, a)). split; [done|].
    apply Hmem. eauto.
Qed.

(** A case that has just been decided leaves the queue, under every
    filter; the other cases are listed as before. *)
Theorem decision_leaves_queue (now id : Z)
    (request : AdminDecisionRequest.t) (adm : Z) (w : World)
    (r : AdminDecisionResponse.t) (w' : World) :
  admin_decision now id request adm w = (Ok r, w') ->
  id ∈ AuditTask.audit_log_id <$> (get_pending_tasks None w).1
  /\ forall risk_level,
       (id ∉ AuditTask.audit_log_id <$> (get_pending_tasks risk_level w').1)
       /\ forall id', id' <> id ->
            (id' ∈ AuditTask.audit_log_id
                   <$> (get_pending_tasks risk_level w').1
             <-> id' ∈ AuditTask.audit_log_id
                       <$> (get_pending_tasks risk_level w).1).
Proof.
  intros E. apply admin_decision_ok in E as (a & Ha & Hp & Hw').
  split.
  - apply queue_ids. exists a. split; [done|].
    unfold pending_with. by rewrite Hp.
  - intros risk_level. split.
    + rewrite queue_ids, Hw', lookup_insert_eq.
      intros (a' & [= <-] & Hpend). unfold pending_with in Hpend.
      apply andb_true_iff in Hpend as [Hpend _]. simpl in Hpend.
      apply bool_decide_eq_true_1 in Hpend.
      by apply action_enum_of_decides in Hpend.
    + intros id' Hne. rewrite !queue_ids, Hw'.
      by rewrite lookup_insert_ne.
Qed.

Lemma decision_leaves_queue_witness :
  1 ∈ AuditTask.audit_log_id <$> (get_pending_tasks None shop_pending).1
  /\ 1 ∉ AuditTask.audit_log_id <$> (get_pending_tasks None shop_rejected).1.
Proof.
  destruct (admin_decision 120 1 (reject (Some "quality unverified")) 7
              shop_pending) as [[r|e] w'] eqn:E.
  - destruct (decision_leaves_queue 120 1 _ 7 shop_pending r w' E)
      as [Hin Hout].
    split; [exact Hin|].
    replace shop_rejected with w'; [exact (proj1 (Hout None))|].
    change shop_rejected
      with (admin_decision 120 1 (reject (Some "quality unverified")) 7
              shop_pending).2.
    by rewrite E.
  - vm_compute in E. discriminate.
Defined.

(** ** The audit node, further *)

(** Escalation.  At or above the medium threshold, when the context
    snapshot (the question, the refund data, the order data and the
    history of the state) can be stored as JSON, the node writes one
    new audit log, [PENDING], of the tier of the amount, linked to the
    refund id it was given; it returns the id of that log, enqueues the
    reviewer notification for it and nothing else, leaves every refund
    application and every earlier audit log as it was, sends
    [WAITING_ADMIN] to every open socket of the thread and the new task
    to every reviewer whose socket is open; and the case is in the
    reviewer queue.  When the snapshot cannot be stored (the order data
    [handle_refund] returns holds a [Decimal] and two [datetime]s), the
    commit raises: the node returns nothing and the world is as it
    was. *)
Theorem escalation_postconditions (settings : Settings) (now : Z)
    (state : AgentState.t) (w : World) (rd : RefundData.t) :
  AgentState.refund_data state = Some rd ->
  risk_tier settings (amount_of rd) <> RiskLevel.LOW ->
  let '(u, w') := check_refund_eligibility settings now state w in
  let id := next_id (audit_logs (db w)) in
  let thread := AgentState.thread_id state in
  if json_ok (context_snapshot_of state rd) then
  AuditUpdate.audit_required <$> u = Some true
  /\ u ≫= AuditUpdate.audit_log_id = Some id
  /\ audit_logs (db w) !! id = None
  /\ (exists log,
        audit_logs (db w') = <[id := log]> (audit_logs (db w))
        /\ AuditLog.action log = AuditAction.PENDING
        /\ AuditLog.risk_level log = risk_tier settings (amount_of rd)
        /\ AuditLog.refund_application_id log = RefundData.refund_id rd
        /\ AuditLog.order_id log = RefundData.order_id rd
        /\ AuditLog.thread_id log = thread
        /\ AuditLog.user_id log = AgentState.user_id state
        /\ AuditLog.created_at log = now)
  /\ refund_applications (db w') = refund_applications (db w)
  /\ orders (db w') = orders (db w)
  /\ broker w' = (broker w ++ [notify_admin_audit_msg id])%list
  /\ (exists data,
        dict_get "audit_log_id" data = Some (JInt id)
        /\ dict_get "refund_amount" data = Some (JNum (amount_of rd))
        /\ (forall subs ws,
              thread_subscribers (manager w) !! thread = Some subs ->
              ws ∈ subs -> ws ∉ closed w ->
              (ws, status_change_frame now thread "WAITING_ADMIN" data)
              ∈ wire w')
        /\ (forall admin_id ws,
              admin_connections (manager w) !! admin_id = Some ws ->
              ws ∉ closed w ->
              (ws, new_audit_task_frame now thread data) ∈ wire w'))
  /\ id ∈ AuditTask.audit_log_id <$> (get_pending_tasks None w').1
  else u = None /\ w' = w.
Proof.
  intros Hrd Htier.
  unfold check_refund_eligibility. rewrite Hrd.
  unfold risk_tier, amount_of in *.
  set (a := match RefundData.amount rd with Some a => a | None => 0%Q end)
    in *.
  destruct (Qge_bool a (HIGH_RISK_REFUND_AMOUNT settings)) eqn:Hh;
    [|destruct (Qge_bool a (MEDIUM_RISK_REFUND_AMOUNT settings)) eqn:Hm;
      [|done]].
  all: cbv zeta; cbn [AuditLog.context_snapshot];
    destruct (json_ok (context_snapshot_of state rd)); cbn [negb];
    [|by split];
    match goal with
    | |- context [notify_status_change ?n ?t ?s ?d ?w0] =>
        pose proof (notify_status_change_only_sends n t s d w0)
          as (Hdb & Hbroker & _);
        pose proof (fun subs ws =>
                      notify_status_change_delivers n t s d w0 subs ws)
          as Hdel;
        assert (Hadm : forall admin_id ws,
                  admin_connections (manager w0) !! admin_id = Some ws ->
                  ws ∉ closed w0 ->
                  (ws, new_audit_task_frame n t (or_empty d))
                  ∈ wire (notify_status_change n t s d w0));
        [ intros admin_id ws Hws Hopen; unfold notify_status_change;
          cbn [String.eqb Ascii.eqb Bool.eqb andb];
          pose proof (send_to_thread_only_sends t
                        (status_change_frame n t s (or_empty d)) w0)
            as (_ & _ & Hcl & _);
          apply (broadcast_to_admins_delivers _ _ admin_id);
          [by rewrite send_to_thread_admins|by rewrite Hcl]
        | set (w4 := notify_status_change n t s d w0) in * ]
    end;
    simpl in Hdb, Hbroker, Hdel, Hadm;
    rewrite Hdb, Hbroker; simpl;
    (split; [done|]); (split; [done|]);
    (split; [apply next_id_fresh|]);
    (split; [eexists; split; [reflexivity|]; repeat split; try done;
             simpl; by rewrite ?Hh, ?Hm|]);
    (split; [done|]); (split; [done|]); (split; [done|]);
    (split;
     [ eexists; split; [|split; [|split; [exact Hdel|exact Hadm]]];
       reflexivity
     | apply queue_ids; rewrite Hdb; simpl; eexists;
       split; [apply lookup_insert_eq|done] ]).
Qed.

Lemma escalation_postconditions_witness :
  broker (check_refund_eligibility default_settings 110
            (refund_state "thread-1" 1 3 2500) shop_big).2
  = [notify_admin_audit_msg 1].
Proof.
  assert (Htier : risk_tier default_settings
                    (amount_of
                       {| RefundData.refund_id := Some 1;
                          RefundData.order_id := Some 3;
                          RefundData.order_sn := "SN";
                          RefundData.amount := Some 2500%Q;
                          RefundData.reason := "我要退货";
                          RefundData.reason_category := RefundReason.OTHER |})
                  <> RiskLevel.LOW) by (vm_compute; discriminate).
  pose proof (escalation_postconditions default_settings 110
                (refund_state "thread-1" 1 3 2500) shop_big _ eq_refl Htier)
    as H.
  destruct (check_refund_eligibility default_settings 110
              (refund_state "thread-1" 1 3 2500) shop_big) as [u w'].
  cbv zeta in H.
  change (json_ok (context_snapshot_of _ _)) with true in H.
  exact (proj1 (proj2 (proj2 (proj2 (proj2 (proj2 (proj2 H))))))).
Defined.

(** Without refund data the node does nothing and hands the answer on.
    Below both thresholds, when the refund id is absent or names no
    application, nothing is written either, and the node still answers
    that the application was approved. *)
Theorem audit_node_without_application (settings : Settings) (now : Z)
    (state : AgentState.t) (w : World) :
  (AgentState.refund_data state = None ->
   check_refund_eligibility settings now state w
   = (Some {| AuditUpdate.audit_required := false;
              AuditUpdate.audit_log_id := None;
              AuditUpdate.answer := state_answer state |}, w))
  /\ (forall rd,
        AgentState.refund_data state = Some rd ->
        risk_tier settings (amount_of rd) = RiskLevel.LOW ->
        (RefundData.refund_id rd
           ≫= (fun rid => refund_applications (db w) !! rid)) = None ->
        check_refund_eligibility settings now state w
        = (Some {| AuditUpdate.audit_required := false;
                   AuditUpdate.audit_log_id := None;
                   AuditUpdate.answer :=
                     [Lit " 您的退货申请已自动审核通过！

 申请编号:  "; FmtOptInt (RefundData.refund_id rd);
                      Lit "
 退款金额: ¥"; FmtNum (amount_of rd);
                      Lit "

资金将在 3-5 个工作日内原路退回，请注意查收。"] |}, w)).
Proof.
  split.
  - intros Hnone. unfold check_refund_eligibility. by rewrite Hnone.
  - intros rd Hrd Htier Hmissing.
    unfold check_refund_eligibility, risk_tier, amount_of in *.
    rewrite Hrd.
    repeat match goal with
    | H : context [if Qge_bool ?x ?y then _ else _] |- _ =>
        destruct (Qge_bool x y); try done
    end.
    unfold auto_approve.
    destruct (RefundData.refund_id rd) as [rid|]; [|done].
    simpl in Hmissing. by rewrite Hmissing.
Qed.

(** The route after the audit node.  When the node returns, the run
    ends exactly when the node escalated, that is when refund data is
    present, its amount is at or above the medium threshold and the
    context snapshot could be stored; it goes on to [generate] exactly
    when there is no refund data or the amount is below the medium
    threshold.  The node returns nothing, and no route is taken, exactly
    when refund data is present, its amount is at or above the medium
    threshold and the snapshot cannot be stored.  (The state schema of
    the graph has no key for the refund data, so a state that went
    through the graph is of the first kind of the second case.) *)
Theorem route_after_audit (settings : Settings) (now : Z)
    (state : AgentState.t) (w : World) :
  match (check_refund_eligibility settings now state w).1 with
  | Some u =>
      (route_after_refund (AuditUpdate.audit_required u) = Node.END
       <-> exists rd,
             AgentState.refund_data state = Some rd
             /\ risk_tier settings (amount_of rd) <> RiskLevel.LOW
             /\ json_ok (context_snapshot_of state rd) = true)
      /\ (route_after_refund (AuditUpdate.audit_required u) = Node.generate
          <-> AgentState.refund_data state = None
              \/ exists rd,
                   AgentState.refund_data state = Some rd
                   /\ risk_tier settings (amount_of rd) = RiskLevel.LOW)
  | None =>
      exists rd,
        AgentState.refund_data state = Some rd
        /\ risk_tier settings (amount_of rd) <> RiskLevel.LOW
        /\ json_ok (context_snapshot_of state rd) = false
  end.
Proof.
  destruct (AgentState.refund_data state) as [rd|] eqn:Hrd.
  - pose proof (check_refund_eligibility_tier settings now state w rd Hrd)
      as H.
    destruct (check_refund_eligibility settings now state w) as [[u|] w'];
      cbv zeta in H; cbn [fst].
    + destruct H as (Hok & -> & _).
      set (tier := risk_tier settings _) in *.
      destruct (decide (tier = RiskLevel.LOW)) as [Hlow|Hhigh].
      * rewrite bool_decide_eq_true_2 by done. simpl. split; split; try done.
        -- intros (rd' & [= <-] & Hne & _). done.
        -- intros _. right. eauto.
      * rewrite bool_decide_eq_false_2 by done. simpl.
        destruct Hok as [?|Hok]; [done|]. split; split; try done.
        -- intros _. eauto.
        -- intros [?|(rd' & [= <-] & Hl)]; done.
    + destruct H as (Hne & Hok & _). eauto.
  - unfold check_refund_eligibility. rewrite Hrd. simpl.
    split; split; try done.
    + intros (rd & ? & _). done.
    + intros _. by left.
Qed.

(** ** The refund node, further *)

(** What [handle_refund] does.  When it returns no refund data it has
    written nothing.  When it returns refund data, it found an order of
    the caller with the asked number, in state [PAID], [SHIPPED] or
    [DELIVERED] and with no item named "内衣"; it added one application,
    [PENDING], for the whole amount of the order, under a key not in use
    before, and the refund data names that key, the order and the
    amount; nothing was enqueued or sent. *)
Theorem handle_refund_outcome (now : Z) (order_sn_match : option string)
    (state : AgentState.t) (w : World) :
  let '(u, w') := handle_refund now order_sn_match state w in
  match RefundUpdate.refund_data u with
  | None => w' = w /\ RefundUpdate.refund_flow_active u = Some false
  | Some rd =>
      exists order_sn id order,
        order_sn_match = Some order_sn
        /\ orders (db w) !! id = Some order
        /\ Order.order_sn order = order_sn
        /\ Order.user_id order = AgentState.user_id state
        /\ Order.status order
           ∈ [OrderStatus.PAID; OrderStatus.SHIPPED; OrderStatus.DELIVERED]
        /\ non_returnable_names (Order.items order) = []
        /\ let rid := next_id (refund_applications (db w)) in
           RefundData.refund_id rd = Some rid
           /\ RefundData.order_id rd = Some id
           /\ RefundData.amount rd = Some (Order.total_amount order)
           /\ refund_applications (db w) !! rid = None
           /\ (exists app,
                 refund_applications (db w')
                 = <[rid := app]> (refund_applications (db w))
                 /\ RefundApplication.status app = RefundStatus.PENDING
                 /\ RefundApplication.order_id app = id
                 /\ RefundApplication.user_id app = AgentState.user_id state
                 /\ RefundApplication.refund_amount app
                    = Order.total_amount order
                 /\ RefundApplication.reason_detail app
                    = AgentState.question state)
           /\ audit_logs (db w') = audit_logs (db w)
           /\ orders (db w') = orders (db w)
           /\ broker w' = broker w /\ wire w' = wire w
  end.
Proof.
  unfold handle_refund. destruct order_sn_match as [sn|]; [|done].
  destruct (List.find _ _) as [[id order]|] eqn:E; [|done].
  destruct (negb _) eqn:Hst; [done|].
  destruct (non_returnable_names (Order.items order)) eqn:Hnames; [|done].
  simpl. apply List.find_some in E as [Hin Hp]. simpl in Hp.
  apply list_elem_of_In, elem_of_map_to_list in Hin.
  apply andb_true_iff in Hp as [Hsn Hu].
  apply String.eqb_eq in Hsn. apply Z.eqb_eq in Hu.
  apply negb_false_iff, bool_decide_eq_true_1 in Hst.
  exists sn, id, order. repeat split; try done.
  - apply next_id_fresh.
  - eexists. split; [reflexivity|]. done.
Qed.

Lemma check_items_no_underwear items :
  (check_items items).1 = true -> non_returnable_names items = [].
Proof.
  induction items as [|item items IH]; [done|].
  cbn [check_items].
  set (n := match Item.name item with Some n => n | None => "" end).
  destruct (first_category n RefundRules.NON_REFUNDABLE_CATEGORIES) eqn:Hc;
    [done|].
  intros H. unfold non_returnable_names. cbn [omap list_omap]. fold n.
  unfold RefundRules.NON_REFUNDABLE_CATEGORIES in Hc.
  cbn [first_category] in Hc.
  destruct (contains "内衣" n); [done|]. by apply IH.
Qed.

(** The node asks less than the service.  Whenever the service finds an
    order eligible, the node, asked for that order by its number, files
    the application too. *)
Theorem node_accepts_what_service_accepts (now now' : Z) (id : Z)
    (order : Order.t) (state : AgentState.t) (w : World) :
  order_by_sn (Order.order_sn order) (AgentState.user_id state) (db w)
  = Some (id, order) ->
  (check_eligibility now id order (db w)).1 = true ->
  is_Some (RefundUpdate.refund_data
             (handle_refund now' (Some (Order.order_sn order)) state w).1).
Proof.
  intros Hfind Hel. unfold handle_refund.
  unfold order_by_sn in Hfind. rewrite Hfind.
  unfold check_eligibility in Hel.
  destruct (bool_decide (Order.status order
                         ∈ RefundRules.ALLOWED_ORDER_STATUSES)) eqn:Hst;
    [|done].
  simpl in Hel. apply bool_decide_eq_true_1 in Hst.
  assert (Hst' : Order.status order
                 ∈ [OrderStatus.PAID; OrderStatus.SHIPPED;
                    OrderStatus.DELIVERED]).
  { unfold RefundRules.ALLOWED_ORDER_STATUSES in Hst. set_solver. }
  rewrite (bool_decide_eq_true_2 _ Hst'). simpl.
  destruct (_check_existing_refund id (db w)) as [[? ?]|]; [done|].
  destruct (_check_time_limit now order) as [[] ?]; [|done].
  simpl in Hel. unfold _check_category in Hel.
  destruct (check_items (Order.items order)) as [c m] eqn:Hc.
  destruct c; [|done].
  rewrite (check_items_no_underwear (Order.items order));
    [by eexists|by rewrite Hc].
Qed.

Lemma node_accepts_what_service_accepts_witness :
  is_Some (RefundUpdate.refund_data
             (handle_refund 100 (Some "SN20240003")
                (refund_state "thread-1" 0 0 0) shop).1).
Proof.
  refine (node_accepts_what_service_accepts 100 100 3 order_3
            (refund_state "thread-1" 0 0 0) shop _ _).
  - vm_compute. reflexivity.
  - vm_compute. reflexivity.
Defined.

Lemma next_id_positive {A} (m : gmap Z A) : 0 < next_id m.
Proof.
  unfold next_id.
  assert (0 <= map_fold (fun k _ acc => Z.max k acc) 0 m); [|lia].
  apply (map_fold_weak_ind (fun r (_ : gmap Z A) => 0 <= r)); [done|].
  intros i x m' r _ IH. lia.
Qed.

(** The application [handle_refund] files when it returns refund data. *)
Lemma handle_refund_files now order_sn_match state w rd :
  RefundUpdate.refund_data (handle_refund now order_sn_match state w).1
  = Some rd ->
  let rid := next_id (refund_applications (db w)) in
  exists app,
    RefundData.refund_id rd = Some rid
    /\ amount_of rd = RefundApplication.refund_amount app
    /\ refund_applications (db (handle_refund now order_sn_match state w).2)
       = <[rid := app]> (refund_applications (db w))
    /\ RefundApplication.status app = RefundStatus.PENDING.
Proof.
  unfold handle_refund. destruct order_sn_match as [sn|]; [|done].
  destruct (List.find _ _) as [[id order]|]; [|done].
  destruct (negb _); [done|].
  destruct (non_returnable_names (Order.items order)); [|done].
  simpl. intros [= <-]. eexists. split; [done|].
  split; [|split; [reflexivity|done]]. done.
Qed.

(** The order data it returns with them is the dump of the order. *)
Lemma handle_refund_order_data now order_sn_match state w rd :
  RefundUpdate.refund_data (handle_refund now order_sn_match state w).1
  = Some rd ->
  exists id order,
    RefundUpdate.order_data (handle_refund now order_sn_match state w).1
    = Some (order_json id order).
Proof.
  unfold handle_refund. destruct order_sn_match as [sn|]; [|done].
  destruct (List.find _ _) as [[id order]|]; [|done].
  destruct (negb _); [done|].
  destruct (non_returnable_names (Order.items order)); [|done].
  simpl. intros _. by exists id, order.
Qed.

(** The dump of an order holds a [Decimal]: it is not JSON. *)
Lemma order_json_not_ok id o : json_ok (order_json id o) = false.
Proof. reflexivity. Qed.

Lemma refund_data_json_ok rd : json_ok (refund_data_json rd) = true.
Proof.
  unfold refund_data_json, opt_int, opt_num.
  by destruct (RefundData.refund_id rd), (RefundData.order_id rd),
       (RefundData.amount rd).
Qed.

(** The snapshot can be stored when the order data and the history
    can. *)
Lemma json_ok_snapshot state rd :
  json_ok (context_snapshot_of state rd)
  = json_ok (match AgentState.order_data state with
             | Some o => o
             | None => JNone
             end)
    && forallb json_ok (AgentState.history state).
Proof.
  unfold context_snapshot_of.
  change (json_ok (JDict ?d)) with (forallb (fun kv => json_ok (snd kv)) d).
  cbn [forallb snd].
  rewrite refund_data_json_ok.
  change (json_ok (JList ?l)) with (forallb json_ok l).
  by rewrite andb_true_r.
Qed.

(** The audit log the audit node writes when it escalates. *)
Lemma escalation_writes settings now state w rd :
  AgentState.refund_data state = Some rd ->
  risk_tier settings (amount_of rd) <> RiskLevel.LOW ->
  json_ok (context_snapshot_of state rd) = true ->
  let '(u, w') := check_refund_eligibility settings now state w in
  let id := next_id (audit_logs (db w)) in
  AuditUpdate.audit_required <$> u = Some true
  /\ u ≫= AuditUpdate.audit_log_id = Some id
  /\ (exists log,
        audit_logs (db w') = <[id := log]> (audit_logs (db w))
        /\ AuditLog.action log = AuditAction.PENDING
        /\ AuditLog.refund_application_id log = RefundData.refund_id rd
        /\ AuditLog.thread_id log = AgentState.thread_id state
        /\ AuditLog.user_id log = AgentState.user_id state
        /\ AuditLog.created_at log = now
        /\ AuditLog.risk_level log = risk_tier settings (amount_of rd))
  /\ refund_applications (db w') = refund_applications (db w)
  /\ message_cards (db w') = message_cards (db w)
  /\ broker w' = (broker w ++ [notify_admin_audit_msg id])%list.
Proof.
  intros Hrd Htier Hok.
  unfold check_refund_eligibility. rewrite Hrd.
  unfold risk_tier, amount_of in *.
  set (a := match RefundData.amount rd with Some a => a | None => 0%Q end)
    in *.
  destruct (Qge_bool a (HIGH_RISK_REFUND_AMOUNT settings)) eqn:Hh;
    [|destruct (Qge_bool a (MEDIUM_RISK_REFUND_AMOUNT settings)) eqn:Hm;
      [|done]].
  all: cbv zeta; cbn [AuditLog.context_snapshot]; rewrite Hok; cbn [negb];
    match goal with
    | |- context [notify_status_change ?n ?t ?s ?d ?w0] =>
        pose proof (notify_status_change_only_sends n t s d w0)
          as (Hdb & Hbroker & _);
        set (w4 := notify_status_change n t s d w0) in *
    end;
    simpl in Hdb, Hbroker; rewrite Hdb, Hbroker; simpl;
    (split; [done|]); (split; [done|]);
    (split; [eexists; split; [reflexivity|]; repeat split; try done;
             simpl; by rewrite ?Hh, ?Hm|]); done.
Qed.

(** When the snapshot cannot be stored and the tier asks for a review,
    the node raises and writes nothing. *)
Lemma escalation_raises settings now state w rd :
  AgentState.refund_data state = Some rd ->
  risk_tier settings (amount_of rd) <> RiskLevel.LOW ->
  json_ok (context_snapshot_of state rd) = false ->
  check_refund_eligibility settings now state w = (None, w).
Proof.
  intros Hrd Htier Hok.
  pose proof (check_refund_eligibility_tier settings now state w rd Hrd)
    as H.
  destruct (check_refund_eligibility settings now state w) as [[u|] w'];
    cbv zeta in H.
  - destruct H as ([?|?] & _); congruence.
  - by destruct H as (_ & _ & ->).
Qed.

(** The edge from the refund node to the audit node.  When the refund
    node returns refund data, the refund id in it names the application
    just filed, which is [PENDING] with the audited amount.  What the
    audit node then does depends on the state it is given.  A state with
    no refund data (the state schema of the graph, [AgentState], has no
    such key, so the graph does not hand the refund data on): the node
    writes nothing and asks for no review, so the application stays
    [PENDING] and no audit log is written, whatever the amount.  A state
    that holds the refund data: if the node asks for a review, the new
    audit log is linked to that application, which is still there, so
    that a later decision finds it; if it returns without asking, that
    application is [APPROVED] and no audit log is written; if it raises,
    the tier asked for a review, the snapshot could not be stored and
    nothing was written.  A state that holds the refund data and the
    order data the refund node returned: at or above the medium
    threshold the node raises and writes nothing. *)
Theorem refund_node_then_audit_node (now : Z)
    (order_sn_match : option string) (state : AgentState.t) (w : World)
    (settings : Settings) (now2 : Z) (state2 : AgentState.t)
    (rd : RefundData.t) :
  RefundUpdate.refund_data (handle_refund now order_sn_match state w).1
  = Some rd ->
  let w1 := (handle_refund now order_sn_match state w).2 in
  let '(au, w2) := check_refund_eligibility settings now2 state2 w1 in
  exists rid app,
    RefundData.refund_id rd = Some rid
    /\ refund_applications (db w1) !! rid = Some app
    /\ RefundApplication.status app = RefundStatus.PENDING
    /\ RefundApplication.refund_amount app = amount_of rd
    /\ (AgentState.refund_data state2 = None ->
        au = Some {| AuditUpdate.audit_required := false;
                     AuditUpdate.audit_log_id := None;
                     AuditUpdate.answer := state_answer state2 |}
        /\ w2 = w1)
    /\ (AgentState.refund_data state2 = Some rd ->
        match au with
        | Some au =>
            if AuditUpdate.audit_required au then
              exists id log,
                AuditUpdate.audit_log_id au = Some id
                /\ audit_logs (db w2) !! id = Some log
                /\ AuditLog.action log = AuditAction.PENDING
                /\ truthy_id (AuditLog.refund_application_id log)
                   = Some rid
                /\ refund_applications (db w2) !! rid = Some app
            else
              audit_logs (db w2) = audit_logs (db w1)
              /\ RefundApplication.status
                   <$> refund_applications (db w2) !! rid
                 = Some RefundStatus.APPROVED
        | None =>
            risk_tier settings (amount_of rd) <> RiskLevel.LOW
            /\ json_ok (context_snapshot_of state2 rd) = false
            /\ w2 = w1
        end)
    /\ (AgentState.refund_data state2 = Some rd ->
        AgentState.order_data state2
        = RefundUpdate.order_data
            (handle_refund now order_sn_match state w).1 ->
        risk_tier settings (amount_of rd) <> RiskLevel.LOW ->
        au = None /\ w2 = w1).
Proof.
  intros Hrd w1.
  pose proof (handle_refund_files now order_sn_match state w rd Hrd) as H.
  cbv zeta in H. destruct H as (app & Hrid & Hamt & Htab & Hst).
  fold w1 in Htab.
  set (rid := next_id (refund_applications (db w))) in *.
  assert (Hrow : refund_applications (db w1) !! rid = Some app)
    by (rewrite Htab; apply lookup_insert_eq).
  destruct (check_refund_eligibility settings now2 state2 w1) as [au w2]
    eqn:E.
  exists rid, app.
  split; [done|]. split; [done|]. split; [done|]. split; [done|].
  split; [|split].
  - intros Hnone. unfold check_refund_eligibility in E.
    rewrite Hnone in E. by injection E as <- <-.
  - intros Hrd2.
    destruct (decide (risk_tier settings (amount_of rd) = RiskLevel.LOW))
      as [Hlow|Hhigh].
    + pose proof (auto_approval_frame settings now2 state2 w1 rd Hrd2 Hlow)
        as Hf.
      rewrite E in Hf. destruct Hf as (Hreq & -> & _).
      destruct au as [au|]; [|done]. simpl in Hreq. injection Hreq as ->.
      rewrite Hrid. unfold auto_approve. rewrite Hrow. simpl.
      split; [done|]. by rewrite lookup_insert_eq.
    + destruct (json_ok (context_snapshot_of state2 rd)) eqn:Hok.
      * pose proof (escalation_writes settings now2 state2 w1 rd Hrd2 Hhigh
                      Hok) as He.
        rewrite E in He. cbv zeta in He.
        destruct He as (Hreq & Hid & (log & Hlogs & Hact & Hlink & _)
                        & Hrefunds & _).
        destruct au as [au|]; [|done]. simpl in Hreq, Hid.
        injection Hreq as ->.
        exists (next_id (audit_logs (db w1))), log.
        split; [done|]. split; [rewrite Hlogs; apply lookup_insert_eq|].
        split; [done|]. split.
        -- rewrite Hlink, Hrid. unfold truthy_id.
           pose proof (next_id_positive (refund_applications (db w)))
             as Hpos.
           fold rid in Hpos. destruct (Z.eqb_spec rid 0); [lia|done].
        -- rewrite Hrefunds. done.
      * rewrite (escalation_raises settings now2 state2 w1 rd Hrd2 Hhigh Hok)
          in E.
        by injection E as <- <-.
  - intros Hrd2 Hod Hhigh.
    assert (Hok : json_ok (context_snapshot_of state2 rd) = false).
    { rewrite json_ok_snapshot, Hod.
      destruct (handle_refund_order_data now order_sn_match state w rd Hrd)
        as (id & o & ->).
      by rewrite order_json_not_ok. }
    rewrite (escalation_raises settings now2 state2 w1 rd Hrd2 Hhigh Hok)
      in E.
    by injection E as <- <-.
Qed.

Lemma refund_node_then_audit_node_witness :
  let w1 := (handle_refund 100 (Some "SN20240003")
               (refund_state "thread-1" 0 0 0) shop).2 in
  exists rid app,
    refund_applications (db w1) !! rid = Some app
    /\ RefundApplication.status app = RefundStatus.PENDING.
Proof.
  set (rd := {| RefundData.refund_id := Some 1;
                RefundData.order_id := Some 3;
                RefundData.order_sn := "SN20240003";
                RefundData.amount := Some 2500%Q;
                RefundData.reason := "我要退货";
                RefundData.reason_category := RefundReason.OTHER |}).
  assert (Hrd : RefundUpdate.refund_data
                  (handle_refund 100 (Some "SN20240003")
                     (refund_state "thread-1" 0 0 0) shop).1 = Some rd)
    by (vm_compute; reflexivity).
  pose proof (refund_node_then_audit_node 100 (Some "SN20240003")
                (refund_state "thread-1" 0 0 0) shop default_settings 110
                (refund_state "thread-1" 0 0 0) rd Hrd) as H.
  cbv zeta in H.
  destruct (check_refund_eligibility default_settings 110
              (refund_state "thread-1" 0 0 0)
              (handle_refund 100 (Some "SN20240003")
                 (refund_state "thread-1" 0 0 0) shop).2) as [au w2].
  destruct H as (rid & app & _ & Hrow & Hst & _).
  intros w1. exists rid, app. split; [exact Hrow|exact Hst].
Defined.

(** ** The eligibility rules *)

Lemma prefix_app (p s : string) :
  String.prefix p s = true <-> exists post, s = (p ++ post)%string.
Proof.
  revert s. induction p as [|a p IH]; intros s.
  - destruct s; simpl; (split; [intros _; by eexists|done]).
  - destruct s as [|b s]; simpl.
    + split; [done|]. intros (post & H). done.
    + destruct (Ascii.ascii_dec a b) as [->|Hne].
      * rewrite IH. split.
        -- intros (post & ->). by exists post.
        -- intros (post & [= ->]). by exists post.
      * split; [done|]. intros (post & [= Hab _]). done.
Qed.

(** [contains] is the substring test. *)
Lemma contains_spec (needle haystack : string) :
  contains needle haystack = true
  <-> exists pre post, haystack = (pre ++ needle ++ post)%string.
Proof.
  induction haystack as [|c rest IH]; cbn [contains].
  - rewrite orb_false_r, prefix_app. split.
    + intros (post & H). by exists "", post.
    + intros (pre & post & H). destruct pre; [|done]. by exists post.
  - rewrite orb_true_iff, prefix_app, IH. split.
    + intros [(post & H)|(pre & post & ->)].
      * by exists "", post.
      * by exists (String c pre), post.
    + intros (pre & post & H). destruct pre as [|c' pre].
      * left. by exists post.
      * right. injection H as -> ->. by exists pre, post.
Qed.

Lemma time_limit_days (now : Z) (order : Order.t) :
  (_check_time_limit now order).1 = true
  <-> now - Order.created_at order < 8 * seconds_per_day.
Proof.
  unfold _check_time_limit, RefundRules.REFUND_DEADLINE_DAYS,
    seconds_per_day.
  set (a := now - Order.created_at order).
  pose proof (Z.div_mod a 86400 ltac:(lia)) as Hdm.
  pose proof (Z.mod_pos_bound a 86400 ltac:(lia)) as Hb.
  destruct (Z.ltb_spec 7 (a / 86400)); simpl; split; intros; try done; lia.
Qed.

(** The deadline is counted in whole days that have gone by, and only
    more than seven fail: an order passes the time rule until eight days
    after it was created, to the second, and an order dated in the
    future passes. *)
Theorem time_limit_boundary (now : Z) (order : Order.t) :
  ((_check_time_limit now order).1 = true
   <-> now < Order.created_at order + 8 * seconds_per_day)
  /\ (now <= Order.created_at order -> (_check_time_limit now order).1 = true).
Proof.
  split.
  - rewrite time_limit_days. lia.
  - intros H. apply time_limit_days. unfold seconds_per_day. lia.
Qed.

Lemma first_category_none (item_name : string) (categories : list string) :
  first_category item_name categories = None
  <-> forall c, c ∈ categories -> contains c item_name = false.
Proof.
  induction categories as [|c0 rest IH]; simpl.
  - split; [|done]. intros _ c Hc. by apply elem_of_nil in Hc.
  - destruct (contains c0 item_name) eqn:E.
    + split; [done|]. intros H. rewrite (H c0) in E; [done|].
      apply elem_of_cons. by left.
    + rewrite IH. split.
      * intros H c [->|Hc]%elem_of_cons; [done|by apply H].
      * intros H c Hc. apply H. apply elem_of_cons. by right.
Qed.

Lemma check_items_spec (items : list Item.t) :
  (check_items items).1 = true
  <-> forall item, item ∈ items ->
        first_category (default "" (Item.name item))
          RefundRules.NON_REFUNDABLE_CATEGORIES = None.
Proof.
  induction items as [|item items IH]; cbn [check_items].
  - split; [|done]. intros _ item Hi. by apply elem_of_nil in Hi.
  - replace (match Item.name item with Some n => n | None => "" end)
      with (default "" (Item.name item)) by by destruct (Item.name item).
    destruct (first_category (default "" (Item.name item)) _) eqn:E.
    + split; [done|]. intros H. rewrite (H item) in E; [done|].
      apply elem_of_cons. by left.
    + rewrite IH. split.
      * intros H i [->|Hi]%elem_of_cons; [done|by apply H].
      * intros H i Hi. apply H. apply elem_of_cons. by right.
Qed.

(** The four rules of [check_eligibility], together.  An order is
    eligible exactly when it is [DELIVERED] or [SHIPPED], no application
    for it is [PENDING] or [APPROVED], fewer than eight days have gone by
    since it was created, and no item has a name in which "内衣", "食品"
    or "定制商品" occurs. *)
Theorem check_eligibility_characterization (now : Z) (order_id : Z)
    (order : Order.t) (d : Db) :
  (check_eligibility now order_id order d).1 = true
  <-> Order.status order ∈ [OrderStatus.DELIVERED; OrderStatus.SHIPPED]
      /\ (forall id r,
            refund_applications d !! id = Some r ->
            RefundApplication.order_id r = order_id ->
            RefundApplication.status r
            ∉ [RefundStatus.PENDING; RefundStatus.APPROVED])
      /\ now < Order.created_at order + 8 * seconds_per_day
      /\ (forall item category pre post,
            item ∈ Order.items order ->
            category ∈ ["内衣"; "食品"; "定制商品"] ->
            default "" (Item.name item) <> (pre ++ category ++ post)%string).
Proof.
  assert (Hex : _check_existing_refund order_id d = None
                <-> forall id r,
                      refund_applications d !! id = Some r ->
                      RefundApplication.order_id r = order_id ->
                      RefundApplication.status r
                      ∉ [RefundStatus.PENDING; RefundStatus.APPROVED]).
  { rewrite existing_refund_none. unfold open_for.
    split; intros H id r Hr.
    - intros Ho Hin. specialize (H id r Hr).
      rewrite (proj2 (Z.eqb_eq _ _) Ho) in H. simpl in H.
      by apply bool_decide_eq_false_1 in H.
    - destruct (Z.eqb_spec (RefundApplication.order_id r) order_id);
        [|done].
      simpl. apply bool_decide_eq_false_2. by apply (H id r). }
  assert (Hcat : (_check_category order).1 = true
                 <-> forall item category pre post,
                       item ∈ Order.items order ->
                       category ∈ ["内衣"; "食品"; "定制商品"] ->
                       default "" (Item.name item)
                       <> (pre ++ category ++ post)%string).
  { unfold _check_category. rewrite check_items_spec.
    split.
    - intros H item category pre post Hi Hc Heq.
      specialize (H item Hi).
      pose proof (proj1 (first_category_none _ _) H category Hc) as Hn.
      rewrite (proj2 (contains_spec category _)) in Hn; [done|].
      by exists pre, post.
    - intros H item Hi. apply first_category_none. intros c Hc.
      destruct (contains c _) eqn:E; [|done].
      apply contains_spec in E as (pre & post & E).
      by destruct (H item c pre post Hi Hc). }
  assert (Htime : (_check_time_limit now order).1 = true
                  <-> now < Order.created_at order + 8 * seconds_per_day)
    by (rewrite time_limit_days; lia).
  rewrite <- Hex, <- Hcat, <- Htime. clear Hex Hcat Htime.
  unfold check_eligibility.
  destruct (bool_decide (Order.status order
                         ∈ RefundRules.ALLOWED_ORDER_STATUSES)) eqn:Hst.
  - apply bool_decide_eq_true_1 in Hst. simpl.
    destruct (_check_existing_refund order_id d) as [[k r]|] eqn:E.
    + simpl. split; [done|]. intros (_ & ? & _). done.
    + destruct (_check_time_limit now order) as [t tmsg].
      destruct (_check_category order) as [c cmsg]. simpl in *.
      destruct t, c; simpl; split; try done.
      * intros (_ & _ & _ & H). done.
      * intros (_ & _ & H & _). done.
      * intros (_ & _ & H & _). done.
  - apply bool_decide_eq_false_1 in Hst. simpl.
    split; [done|]. intros (H & _). done.
Qed.

(** ** Reading applications back *)

Lemma get_refund_by_id_spec refund_id user_id d r :
  get_refund_by_id refund_id user_id d = Some r
  <-> refund_applications d !! refund_id = Some r
      /\ RefundApplication.user_id r = user_id.
Proof.
  unfold get_refund_by_id.
  destruct (refund_applications d !! refund_id) as [r'|]; [|by split; [|intros []]].
  destruct (Z.eqb_spec (RefundApplication.user_id r') user_id) as [He|Hne].
  - split; [by intros [= ->]|by intros [[= ->] _]].
  - split; [done|]. intros [[= ->] ?]. done.
Qed.

(** Creation and reading back.  [create_refund_application] returns an
    application only on success, and then under a key not in use
    before; [get_refund_by_id] with that key gives the same application
    to the user who filed it and nothing to any other user, and every
    other key reads as before.  When no application is returned the
    call failed and wrote nothing; a failing commit is such a call. *)
Theorem create_then_get (now : Z) (commit_error : option string)
    (order_id user_id : Z) (reason_detail : string)
    (reason_category : option RefundReason.t) (w : World) :
  let '((success, message, refund_app), w') :=
    create_refund_application now commit_error order_id user_id
      reason_detail reason_category w in
  match refund_app with
  | Some (refund_id, r) =>
      success = true
      /\ commit_error = None
      /\ refund_applications (db w) !! refund_id = None
      /\ get_refund_by_id refund_id user_id (db w') = Some r
      /\ (forall other,
            other <> user_id -> get_refund_by_id refund_id other (db w') = None)
      /\ (forall refund_id' u,
            refund_id' <> refund_id ->
            get_refund_by_id refund_id' u (db w')
            = get_refund_by_id refund_id' u (db w))
      /\ RefundApplication.status r = RefundStatus.PENDING
      /\ RefundApplication.order_id r = order_id
      /\ RefundApplication.reason_detail r = reason_detail
      /\ RefundApplication.reason_category r = reason_category
      /\ exists order,
           orders (db w) !! order_id = Some order
           /\ Order.user_id order = user_id
           /\ RefundApplication.refund_amount r = Order.total_amount order
  | None => success = false /\ w' = w
  end.
Proof.
  unfold create_refund_application.
  destruct (orders (db w) !! order_id) as [o|] eqn:Ho; [|done].
  destruct (Z.eqb_spec (Order.user_id o) user_id) as [Hu|Hu]; [|done].
  destruct (check_eligibility now order_id o (db w)) as [[] msg]; [|done].
  simpl. destruct commit_error as [e|]; [done|].
  split; [done|]. split; [done|]. split; [apply next_id_fresh|].
  unfold get_refund_by_id, add_row. simpl. rewrite lookup_insert_eq. simpl.
  rewrite Z.eqb_refl. split; [done|]. split.
  - intros other Hne. by destruct (Z.eqb_spec user_id other).
  - split.
    + intros rid' u Hne. by rewrite lookup_insert_ne.
    + repeat split; try done. by exists o.
Qed.

(** [get_user_refund_applications] lists what the user may read with
    [get_refund_by_id], in the asked status when one is asked for: each
    such application once, newest first. *)
Theorem user_refunds_listing (user_id : Z) (status : option RefundStatus.t)
    (d : Db) :
  let l := get_user_refund_applications user_id status d in
  (forall refund_id r,
     (refund_id, r) ∈ l
     <-> get_refund_by_id refund_id user_id d = Some r
         /\ match status with
            | Some s => RefundApplication.status r = s
            | None => True
            end)
  /\ Sorted (newer_first RefundApplication.created_at) l
  /\ NoDup (l.*1).
Proof.
  unfold get_user_refund_applications.
  match goal with
  | |- context [List.filter ?f _] =>
      pose proof (selected_rows RefundApplication.created_at f
                    (refund_applications d)) as (Hmem & Hsorted & Hnodup)
  end.
  cbv zeta in *. split; [|done].
  intros rid r. rewrite Hmem, get_refund_by_id_spec. simpl.
  rewrite andb_true_iff, Z.eqb_eq.
  destruct status as [s|].
  - rewrite bool_decide_eq_true. tauto.
  - tauto.
Qed.

(** ** The tool that files an application *)

Lemma order_by_sn_some order_sn user_id d id order :
  order_by_sn order_sn user_id d = Some (id, order) ->
  orders d !! id = Some order
  /\ Order.order_sn order = order_sn
  /\ Order.user_id order = user_id.
Proof.
  unfold order_by_sn. intros E.
  apply List.find_some in E as [Hin Hp]. simpl in Hp.
  apply list_elem_of_In, elem_of_map_to_list in Hin.
  apply andb_true_iff in Hp as [Hsn Hu].
  apply String.eqb_eq in Hsn. apply Z.eqb_eq in Hu. done.
Qed.

(** The category a tool call names is decoded by value: each member of
    [RefundReason] is read back from its own name, every other non-empty
    string is read as [OTHER], and an absent or empty one as no
    category. *)
Lemma category_of_decodes :
  (forall r, category_of (Some (reason_name r)) = Some r)
  /\ (forall s,
        s <> "" -> (forall r, s <> reason_name r) ->
        category_of (Some s) = Some RefundReason.OTHER)
  /\ (forall s r, category_of (Some s) = Some r ->
        s = reason_name r \/ r = RefundReason.OTHER)
  /\ category_of None = None
  /\ category_of (Some "") = None.
Proof.
  assert (Hdec : forall s r, reason_of_name s = Some r -> s = reason_name r).
  { intros s r H. unfold reason_of_name in H.
    apply List.find_some in H as [_ H]. by apply String.eqb_eq in H. }
  split; [by intros []|]. split; [|split; [|done]].
  - intros s Hs Hno. unfold category_of.
    destruct (String.eqb_spec s ""); [done|].
    destruct (reason_of_name s) as [r|] eqn:E; [|done].
    apply Hdec in E. by destruct (Hno r).
  - intros s r. unfold category_of.
    destruct (String.eqb_spec s ""); [done|].
    destruct (reason_of_name s) as [r'|] eqn:E.
    + intros [= <-]. left. by apply Hdec.
    + intros [= <-]. by right.
Qed.

(** The tool finds the order by its number and the service finds it
    again by its key: [submit_refund_application] files an application
    exactly when the caller has an order of that number, the order is
    eligible and the commit succeeds.  The application is [PENDING], for
    the whole amount, with the category decoded from the call; no audit
    log is written, nothing is enqueued and nothing is sent.  In every
    other case the tool writes nothing. *)
Theorem submit_refund_application_outcome (now : Z)
    (commit_error : option string) (order_sn : string) (user_id : Z)
    (reason_detail : string) (reason_category : option string) (w : World) :
  let w' :=
    (submit_refund_application now commit_error order_sn user_id
       reason_detail reason_category w).2 in
  match order_by_sn order_sn user_id (db w) with
  | Some (id, order) =>
      if (check_eligibility now id order (db w)).1
         && bool_decide (commit_error = None)
      then
        refund_applications (db w')
        = <[next_id (refund_applications (db w)) :=
              {| RefundApplication.order_id := id;
                 RefundApplication.user_id := user_id;
                 RefundApplication.status := RefundStatus.PENDING;
                 RefundApplication.reason_category :=
                   category_of reason_category;
                 RefundApplication.reason_detail := reason_detail;
                 RefundApplication.refund_amount := Order.total_amount order;
                 RefundApplication.admin_note := None;
                 RefundApplication.reviewed_by := None;
                 RefundApplication.reviewed_at := None;
                 RefundApplication.created_at := now;
                 RefundApplication.updated_at := now |}]>
            (refund_applications (db w))
        /\ audit_logs (db w') = audit_logs (db w)
        /\ orders (db w') = orders (db w)
        /\ broker w' = broker w
        /\ wire w' = wire w
      else w' = w
  | None => w' = w
  end.
Proof.
  unfold submit_refund_application.
  destruct (order_by_sn order_sn user_id (db w)) as [[id order]|] eqn:E;
    [|done].
  apply order_by_sn_some in E as (Ho & _ & Hu).
  unfold create_refund_application. rewrite Ho, Hu, Z.eqb_refl.
  destruct (check_eligibility now id order (db w)) as [[] msg]; [|done].
  simpl. by destruct commit_error.
Qed.

(** ** The graph *)

Lemma visit_END fuel intent audit_required :
  visit fuel intent audit_required Node.END = [Node.END].
Proof. by destruct fuel. Qed.

Lemma route_intent_refund intent :
  route_intent intent = Node.handle_refund <-> intent = Some "REFUND".
Proof.
  unfold route_intent. destruct intent as [i|]; [|done].
  destruct (String.eqb_spec i "ORDER") as [->|]; [done|].
  destruct (String.eqb_spec i "POLICY") as [->|]; [done|].
  destruct (String.eqb_spec i "REFUND") as [->|]; [done|].
  split; [done|]. by intros [= ->].
Qed.

(** Every run of the graph ends: from [START] it reaches [END] in at
    most five steps and visits no node twice.  The refund node and the
    audit node are visited exactly when the intent is "REFUND", the
    audit node only after the refund node, and [generate] is left out
    exactly when the intent is "REFUND" and a review is required. *)
Theorem graph_runs (intent : option string) (audit_required : bool) :
  let path := visit 5 intent audit_required Node.START in
  last path = Some Node.END
  /\ (forall fuel, (5 <= fuel)%nat ->
        visit fuel intent audit_required Node.START = path)
  /\ NoDup path
  /\ (Node.handle_refund ∈ path <-> intent = Some "REFUND")
  /\ (Node.check_refund_eligibility ∈ path <-> intent = Some "REFUND")
  /\ (forall before after,
        path = (before ++ Node.check_refund_eligibility :: after)%list ->
        last before = Some Node.handle_refund)
  /\ (Node.generate ∉ path
      <-> intent = Some "REFUND" /\ audit_required = true).
Proof.
  intros path.
  pose proof (route_intent_refund intent) as Hr.
  assert (Hcases : route_intent intent
                   ∈ [Node.query_order; Node.retrieve; Node.handle_refund;
                      Node.generate]).
  { unfold route_intent. destruct intent as [i|]; [|compute_done].
    repeat case_match; compute_done. }
  assert (Hpath : forall fuel, (5 <= fuel)%nat ->
            visit fuel intent audit_required Node.START
            = Node.START :: Node.intent_router ::
              match route_intent intent with
              | Node.handle_refund =>
                  Node.handle_refund :: Node.check_refund_eligibility ::
                  (if audit_required then [Node.END]
                   else [Node.generate; Node.END])
              | Node.generate => [Node.generate; Node.END]
              | node => [node; Node.generate; Node.END]
              end).
  { intros fuel Hfuel.
    do 5 (destruct fuel as [|fuel]; [lia|]). cbn [visit successor].
    destruct (route_intent intent);
      try (exfalso; revert Hcases; compute_done);
      destruct audit_required; cbn [visit successor route_after_refund];
      by rewrite ?visit_END. }
  subst path. rewrite (Hpath 5%nat) by lia.
  split; [|split; [intros fuel Hfuel; by apply Hpath|]].
  all: rewrite <- ?Hr; clear Hr Hpath.
  all: destruct (route_intent intent);
    try (exfalso; revert Hcases; compute_done); clear Hcases;
    destruct audit_required.
  all: try reflexivity.
  all: split; [compute_done|].
  all: split; [compute_done|].
  all: split; [compute_done|].
  all: split; [|split; [intros H; try done; exfalso; apply H; compute_done
                       |intros [? ?]; try done; compute_done]].
  all: intros before after Hpath.
  all: repeat (destruct before as [|? before]; simplify_eq /=; try done).
Qed.

(** ** The order node *)

(** [query_order] writes nothing and shows a user only their own
    orders.  When it returns order data, that is an order of the caller:
    the one of the number asked for, or, when none was asked for, one
    that is not older than any other order of the caller.  When it
    returns none, the caller has no such order.  It raises only when the
    order it found has an item without a name or without a quantity. *)
Theorem query_order_ownership (order_sn_match : option string)
    (state : AgentState.t) (w : World) :
  let '(update, w') := query_order order_sn_match state w in
  let user_id := AgentState.user_id state in
  w' = w
  /\ match update with
     | Some u =>
         match OrderUpdate.order_data u with
         | Some data =>
             exists id order,
               orders (db w) !! id = Some order
               /\ Order.user_id order = user_id
               /\ data = order_json id order
               /\ match order_sn_match with
                  | Some order_sn => Order.order_sn order = order_sn
                  | None =>
                      forall id' order',
                        orders (db w) !! id' = Some order' ->
                        Order.user_id order' = user_id ->
                        Order.created_at order' <= Order.created_at order
                  end
         | None =>
             forall id order,
               orders (db w) !! id = Some order ->
               Order.user_id order = user_id ->
               match order_sn_match with
               | Some order_sn => Order.order_sn order <> order_sn
               | None => False
               end
         end
     | None =>
         exists id order item,
           orders (db w) !! id = Some order
           /\ Order.user_id order = user_id
           /\ item ∈ Order.items order
           /\ (Item.name item = None \/ Item.qty item = None)
     end.
Proof.
  unfold query_order. set (user_id := AgentState.user_id state).
  assert (Hraise : forall items,
            items_str items = None ->
            exists item,
              item ∈ items
              /\ (Item.name item = None \/ Item.qty item = None)).
  { intros items H. unfold items_str in H.
    destruct (mapM item_str items) eqn:E; [done|].
    apply mapM_None, Exists_exists in E as (item & Hin & Hi).
    exists item. split; [done|]. unfold item_str in Hi.
    destruct (Item.name item); [|by left].
    destruct (Item.qty item); [done|by right]. }
  destruct order_sn_match as [order_sn|].
  - destruct (order_by_sn order_sn user_id (db w)) as [[id order]|] eqn:E.
    + apply order_by_sn_some in E as (Ho & Hsn & Hu).
      destruct (items_str (Order.items order)) eqn:Hi.
      * split; [done|]. simpl. by exists id, order.
      * split; [done|]. apply Hraise in Hi as (item & Hin & Hname).
        by exists id, order, item.
    + split; [done|]. simpl. intros id order Ho Hu Hsn.
      unfold order_by_sn in E.
      pose proof (List.find_none _ _ E (id, order)) as Hf. simpl in Hf.
      rewrite Hsn, Hu, String.eqb_refl, Z.eqb_refl in Hf.
      discriminate Hf. apply list_elem_of_In. by apply elem_of_map_to_list.
  - pose proof (latest_by_spec Order.created_at (of_user user_id)
                  (orders (db w))) as Hl.
    destruct (latest_by _ _ _) as [[id order]|]; simpl in Hl.
    + destruct Hl as (Ho & Hu & Hmax).
      apply Z.eqb_eq in Hu.
      destruct (items_str (Order.items order)) eqn:Hi.
      * split; [done|]. simpl. exists id, order.
        split; [done|]. split; [done|]. split; [done|].
        intros id' order' Ho' Hu'. apply (Hmax id' order' Ho').
        by apply Z.eqb_eq.
      * split; [done|]. apply Hraise in Hi as (item & Hin & Hname).
        by exists id, order, item.
    + split; [done|]. simpl. intros id order Ho Hu.
      specialize (Hl id order Ho). unfold of_user in Hl.
      apply Z.eqb_neq in Hl. done.
Qed.

(** ** The life of a row *)

Lemma notify_status_change_wire now thread_id status data w :
  wire w `prefix_of` wire (notify_status_change now thread_id status data w).
Proof.
  unfold notify_status_change.
  match goal with
  | |- context [send_to_thread ?t ?m ?w0] =>
      destruct (wire_grows_send_to_thread t m w0) as (frames & Hf & _);
      set (ws := send_to_thread t m w0) in *
  end.
  destruct (String.eqb _ _).
  - unfold broadcast_to_admins.
    match goal with
    | |- context [send_each ?m ?l ?d ?w0] =>
        pose proof (send_each_wire m l d w0) as Hw;
        destruct (send_each m l d w0) as [disc wb]
    end.
    simpl in Hw. rewrite disconnect_admins_wire, Hw, Hf.
    rewrite <- app_assoc. by apply prefix_app_r.
  - rewrite Hf. by apply prefix_app_r.
Qed.

(** The world an accepted decision leaves, step by step. *)
Lemma admin_decision_world now id request adm w r w' :
  admin_decision now id request adm w = (Ok r, w') ->
  exists a w1 w2 w3 card,
    audit_logs (db w) !! id = Some a
    /\ AuditLog.action a = AuditAction.PENDING
    /\ w1 = with_db
              (with_audit_logs
                 (<[id := set_decision now (action_enum_of request) adm
                             (AdminDecisionRequest.admin_comment request) a]>
                    (audit_logs (db w)))
                 (db w))
              w
    /\ w2 = update_refund now (action_enum_of request) request adm a w1
    /\ w3 = with_db
              (with_message_cards (add_row card (message_cards (db w2)))
                 (db w2))
              w2
    /\ only_sends w3 w'
    /\ wire w3 `prefix_of` wire w'.
Proof.
  unfold admin_decision, admin_decision_select, admin_decision_apply.
  destruct (audit_logs (db w) !! id) as [a|] eqn:Ha;
    [|by destruct (int32 id)].
  case_decide as Hp; [done|].
  intros [= _ <-]. rewrite !flush_decision_same. exists a. do 4 eexists.
  split; [done|].
  split; [by destruct (decide (AuditLog.action a = AuditAction.PENDING))|].
  split; [reflexivity|]. split; [reflexivity|]. split; [reflexivity|].
  split; [apply notify_status_change_only_sends
         |apply notify_status_change_wire].
Qed.

(** What an operation does to the table of audit logs: nothing, the
    decision of a pending case, or a new pending case. *)
Lemma step_audit_logs op w :
  audit_logs (db (step op w)) = audit_logs (db w)
  \/ (exists now id request adm a,
        op = Decide now id request adm
        /\ audit_logs (db w) !! id = Some a
        /\ AuditLog.action a = AuditAction.PENDING
        /\ audit_logs (db (step op w))
           = <[id := set_decision now (action_enum_of request) adm
                       (AdminDecisionRequest.admin_comment request) a]>
               (audit_logs (db w)))
  \/ (exists settings now state log,
        op = Audit settings now state
        /\ AuditLog.action log = AuditAction.PENDING
        /\ audit_logs (db (step op w))
           = <[next_id (audit_logs (db w)) := log]> (audit_logs (db w))).
Proof.
  destruct op as [now id request adm|now sn state|settings now state|
    now ce oid uid rd rc|tid uid|now msg]; simpl.
  - destruct (admin_decision now id request adm w) as [[r|e] w'] eqn:E.
    + apply admin_decision_ok in E as (a & Ha & Hp & Hw').
      right. left. by exists now, id, request, adm, a.
    + apply admin_decision_raise in E as ->. by left.
  - left. unfold handle_refund. destruct sn as [sn|]; [|done].
    destruct (List.find _ _) as [[oid o]|]; [|done].
    destruct (negb _); [done|].
    by destruct (non_returnable_names _).
  - destruct (AgentState.refund_data state) as [rdt|] eqn:Hrd.
    + destruct (decide (risk_tier settings (amount_of rdt) = RiskLevel.LOW))
        as [Hlow|Hhigh].
      * pose proof (auto_approval_frame settings now state w rdt Hrd Hlow)
          as H.
        destruct (check_refund_eligibility settings now state w) as [u w'].
        cbn [snd]. left. by destruct H as (_ & _ & _ & _ & ->).
      * destruct (json_ok (context_snapshot_of state rdt)) eqn:Hok;
          [|left; by rewrite (escalation_raises settings now state w rdt)].
        pose proof (escalation_writes settings now state w rdt Hrd Hhigh Hok)
          as H.
        destruct (check_refund_eligibility settings now state w) as [u w'].
        cbv zeta in H. destruct H as (_ & _ & (log & Hl & Hp & _) & _).
        cbn [snd]. right. right. by exists settings, now, state, log.
    + left. unfold check_refund_eligibility. by rewrite Hrd.
  - left. unfold create_refund_application.
    destruct (orders (db w) !! oid) as [o|]; [|done].
    destruct (Z.eqb (Order.user_id o) uid); [|done].
    destruct (check_eligibility now oid o (db w)) as [[] msg]; [|done].
    simpl. by destruct ce.
  - by left.
  - left. unfold run_task.
    by destruct (run_delivery_effect 0 now msg w) as (-> & _).
Qed.


(** What an operation does to the table of refund applications:
    nothing, the review or the settlement of one application, or one new
    application. *)
Lemma step_refund_applications op w :
  refund_applications (db (step op w)) = refund_applications (db w)
  \/ (exists id r r',
        refund_applications (db w) !! id = Some r
        /\ refund_applications (db (step op w))
           = <[id := r']> (refund_applications (db w))
        /\ same_application r r'
        /\ ((RefundApplication.status r' = RefundStatus.APPROVED
             /\ ((exists now aid request adm, op = Decide now aid request adm)
                 \/ exists settings now state, op = Audit settings now state))
            \/ (RefundApplication.status r' = RefundStatus.REJECTED
                /\ exists now aid request adm, op = Decide now aid request adm)
            \/ (RefundApplication.status r' = RefundStatus.COMPLETED
                /\ exists now msg amount method,
                     op = Work now msg
                     /\ task_of msg
                        = process_refund_payment_msg id amount method)))
  \/ (exists r,
        RefundApplication.status r = RefundStatus.PENDING
        /\ refund_applications (db (step op w))
           = <[next_id (refund_applications (db w)) := r]>
               (refund_applications (db w))
        /\ ((exists now sn state, op = Ask now sn state)
            \/ exists now ce oid uid rd rc, op = Create now ce oid uid rd rc)).
Proof.
  destruct op as [now id request adm|now sn state|settings now state|
    now ce oid uid rd rc|tid uid|now msg]; simpl.
  - destruct (admin_decision now id request adm w) as [[r|e] w'] eqn:E.
    + apply admin_decision_world in E
        as (a & w1 & w2 & w3 & card & Ha & Hp & -> & -> & -> & Hs & _).
      destruct Hs as (Hdb & _). cbn [snd]. rewrite Hdb. simpl.
      match goal with
      | |- context [update_refund ?n ?e ?rq ?ad ?al ?w0] =>
          destruct (update_refund_table n e rq ad al w0)
            as [[Ht _]|(rid & refund & _ & Hr & Ht & _)]
      end.
      * left. by rewrite Ht.
      * right. left. simpl in Hr. exists rid, refund. eexists.
        split; [exact Hr|]. split; [by rewrite Ht|].
        split; [by repeat split|].
        case_decide; simpl.
        -- left. split; [done|]. left. by exists now, id, request, adm.
        -- right. left. split; [done|]. by exists now, id, request, adm.
    + apply admin_decision_raise in E as ->. by left.
  - unfold handle_refund. destruct sn as [sn|]; [|by left].
    destruct (List.find _ _) as [[oid o]|]; [|by left].
    destruct (negb _); [by left|].
    destruct (non_returnable_names _); [|by left].
    right. right. simpl. eexists. split; [|split; [reflexivity|]].
    + done.
    + left. by exists now, (Some sn), state.
  - destruct (AgentState.refund_data state) as [rdt|] eqn:Hrd.
    + destruct (decide (risk_tier settings (amount_of rdt) = RiskLevel.LOW))
        as [Hlow|Hhigh].
      * pose proof (auto_approval_frame settings now state w rdt Hrd Hlow)
          as H.
        destruct (check_refund_eligibility settings now state w) as [u w'].
        cbn [snd]. destruct H as (_ & -> & _). unfold auto_approve.
        destruct (RefundData.refund_id rdt) as [rid|]; [|by left].
        destruct (refund_applications (db w) !! rid) as [refund|] eqn:Hr;
          [|by left].
        right. left. exists rid, refund. eexists.
        split; [done|]. split; [reflexivity|]. split; [by repeat split|].
        left. split; [done|]. right. by exists settings, now, state.
      * destruct (json_ok (context_snapshot_of state rdt)) eqn:Hok;
          [|left; by rewrite (escalation_raises settings now state w rdt)].
        pose proof (escalation_writes settings now state w rdt Hrd Hhigh Hok)
          as H.
        destruct (check_refund_eligibility settings now state w) as [u w'].
        cbv zeta in H. destruct H as (_ & _ & _ & Hr & _).
        cbn [snd]. by left.
    + left. unfold check_refund_eligibility. by rewrite Hrd.
  - unfold create_refund_application.
    destruct (orders (db w) !! oid) as [o|]; [|by left].
    destruct (Z.eqb (Order.user_id o) uid); [|by left].
    destruct (check_eligibility now oid o (db w)) as [[] msg]; [|by left].
    simpl. destruct ce; [by left|].
    right. right. simpl. eexists. split; [|split; [reflexivity|]].
    + done.
    + right. by exists now, None, oid, uid, rd, rc.
  - by left.
  - unfold run_task.
    destruct (run_delivery_effect 0 now msg w)
      as (_ & _ & _ & _ & _ & _ & _ & _ & _ & [Hr|Hr]); [by left|].
    destruct Hr as (rid & amount & method & refund & Ht & Hr & Htab).
    right. left. exists rid, refund, (set_completed now refund).
    split; [done|]. split; [done|]. split; [by repeat split|].
    right. right. split; [done|]. by exists now, msg, amount, method.
Qed.

(** A refund application is written once, [PENDING], by the refund node
    or by the service, under a key not in use.  Afterwards it is never
    removed, what it asks for never changes, and its status changes only
    like this: to [APPROVED] by a decision or by the audit node, to
    [REJECTED] by a decision, to [COMPLETED] by the settlement task.  No
    operation sets [CANCELLED] or sets an application back to
    [PENDING]. *)
Theorem refund_lifecycle (op : Op) (w : World) (id : Z) :
  match refund_applications (db (step op w)) !! id,
        refund_applications (db w) !! id with
  | Some r', Some r =>
      r' = r
      \/ (same_application r r'
          /\ ((RefundApplication.status r' = RefundStatus.APPROVED
               /\ ((exists now aid request adm,
                      op = Decide now aid request adm)
                   \/ exists settings now state,
                        op = Audit settings now state))
              \/ (RefundApplication.status r' = RefundStatus.REJECTED
                  /\ exists now aid request adm,
                       op = Decide now aid request adm)
              \/ (RefundApplication.status r' = RefundStatus.COMPLETED
                  /\ exists now msg amount method,
                       op = Work now msg
                       /\ task_of msg
                          = process_refund_payment_msg id amount method)))
  | Some r', None =>
      RefundApplication.status r' = RefundStatus.PENDING
      /\ id = next_id (refund_applications (db w))
      /\ ((exists now sn state, op = Ask now sn state)
          \/ exists now ce oid uid rd rc, op = Create now ce oid uid rd rc)
  | None, Some _ => False
  | None, None => True
  end.
Proof.
  destruct (step_refund_applications op w)
    as [->|[(id' & r & r' & Hr & -> & Hsame & Hop)
           |(r & Hp & -> & Hop)]].
  - by destruct (refund_applications (db w) !! id); [left|].
  - destruct (decide (id' = id)) as [->|Hne].
    + rewrite lookup_insert_eq, Hr. by right.
    + rewrite lookup_insert_ne by done.
      by destruct (refund_applications (db w) !! id); [left|].
  - destruct (decide (next_id (refund_applications (db w)) = id))
      as [<-|Hne].
    + by rewrite lookup_insert_eq, next_id_fresh.
    + rewrite lookup_insert_ne by done.
      by destruct (refund_applications (db w) !! id); [left|].
Qed.

(** ** Nothing is taken away *)

Lemma grows_refl w : grows w w.
Proof.
  repeat split; try done.
  - intros id a Ha. exists a. by repeat split.
  - intros id r Hr. exists r. by repeat split.
Qed.

Lemma grows_trans w1 w2 w3 : grows w1 w2 -> grows w2 w3 -> grows w1 w3.
Proof.
  intros (Ho & Ha & Hr & Hm & Hb & Hw & Hp & Hs)
         (Ho' & Ha' & Hr' & Hm' & Hb' & Hw' & Hp' & Hs').
  split; [congruence|]. split; [|split; [|split]].
  - intros id a H. destruct (Ha id a H) as (a1 & H1 & Hc1).
    destruct (Ha' id a1 H1) as (a2 & H2 & Hc2). exists a2. split; [done|].
    unfold same_case in *. intuition congruence.
  - intros id r H. destruct (Hr id r H) as (r1 & H1 & Hc1).
    destruct (Hr' id r1 H1) as (r2 & H2 & Hc2). exists r2. split; [done|].
    unfold same_application in *. intuition congruence.
  - intros id c H. by apply Hm', Hm.
  - repeat split; by etrans.
Qed.

(** The rest of the world under the audit node. *)
Lemma check_refund_eligibility_rest settings now state w :
  let w' := (check_refund_eligibility settings now state w).2 in
  orders (db w') = orders (db w)
  /\ message_cards (db w') = message_cards (db w)
  /\ broker w `prefix_of` broker w'
  /\ wire w `prefix_of` wire w'
  /\ payments w' = payments w
  /\ sms w' = sms w.
Proof.
  unfold check_refund_eligibility, risk_tier.
  destruct (AgentState.refund_data state) as [rdt|]; [|done].
  repeat match goal with
  | |- context [if Qge_bool ?x ?y then _ else _] => destruct (Qge_bool x y)
  end; cbv zeta; cbn [AuditLog.context_snapshot].
  1,2: destruct (json_ok (context_snapshot_of state rdt)); cbn [negb snd];
    [|done];
    match goal with
    | |- context [notify_status_change ?n ?t ?s ?d ?w0] =>
        pose proof (notify_status_change_only_sends n t s d w0)
          as (Hdb & Hb & _ & Hp & Hs);
        pose proof (notify_status_change_wire n t s d w0) as Hw;
        set (w4 := notify_status_change n t s d w0) in *
    end; simpl in *; rewrite Hdb, Hb, Hp, Hs; simpl;
    repeat split; try done; by apply prefix_app_r.
  unfold auto_approve. destruct (RefundData.refund_id rdt) as [rid|];
    [|done].
  by destruct (refund_applications (db w) !! rid).
Qed.

Lemma step_rest op w :
  orders (db (step op w)) = orders (db w)
  /\ (forall id c, message_cards (db w) !! id = Some c ->
        message_cards (db (step op w)) !! id = Some c)
  /\ broker w `prefix_of` broker (step op w)
  /\ wire w `prefix_of` wire (step op w)
  /\ payments w `prefix_of` payments (step op w)
  /\ sms w `prefix_of` sms (step op w).
Proof.
  destruct op as [now id request adm|now sn state|settings now state|
    now ce oid uid rd rc|tid uid|now msg]; simpl.
  - destruct (admin_decision now id request adm w) as [[r|e] w'] eqn:E.
    + apply admin_decision_world in E
        as (a & w1 & w2 & w3 & card & Ha & Hp & -> & -> & -> & Hs & Hwire).
      destruct Hs as (Hdb & Hb & _ & Hpay & Hsms). cbn [snd].
      rewrite Hdb, Hb, Hpay, Hsms. simpl in *.
      match goal with
      | |- context [update_refund ?n ?e ?rq ?ad ?al ?w0] =>
          pose proof (update_refund_frame n e rq ad al w0)
            as (_ & _ & Hw2 & Hp2 & Hs2 & Ho2 & Hm2);
          pose proof (update_refund_table n e rq ad al w0) as Ht;
          set (w2 := update_refund n e rq ad al w0) in *
      end.
      simpl in *. rewrite Ho2, Hm2, Hp2, Hs2. rewrite Hw2 in Hwire.
      repeat split; try done.
      * intros k c Hc. by apply add_row_lookup_old.
      * destruct Ht as [[_ ->]|(? & ? & _ & _ & _ & Hpre)]; done.
    + apply admin_decision_raise in E as ->. by repeat split.
  - unfold handle_refund. destruct sn as [sn|]; [|by repeat split].
    destruct (List.find _ _) as [[oid o]|]; [|by repeat split].
    destruct (negb _); [by repeat split|].
    by destruct (non_returnable_names _); repeat split.
  - destruct (check_refund_eligibility_rest settings now state w)
      as (-> & -> & ? & ? & -> & ->). by repeat split.
  - unfold create_refund_application.
    destruct (orders (db w) !! oid) as [o|]; [|by repeat split].
    destruct (Z.eqb (Order.user_id o) uid); [|by repeat split].
    destruct (check_eligibility now oid o (db w)) as [[] msg];
      [|by repeat split].
    simpl. by destruct ce; repeat split.
  - by repeat split.
  - unfold run_task.
    destruct (run_delivery_effect 0 now msg w)
      as (_ & Ho & _ & _ & Hw & Hb & Hp & Hs & Hm & _).
    rewrite Hw. by repeat split.
Qed.

Lemma step_keeps_case op w id a :
  audit_logs (db w) !! id = Some a ->
  exists a', audit_logs (db (step op w)) !! id = Some a' /\ same_case a a'.
Proof.
  intros Ha.
  destruct (step_audit_logs op w)
    as [->|[(now & id' & request & adm & a0 & -> & Ha0 & Hp & ->)
           |(settings & now & state & log & -> & Hp & ->)]].
  - exists a. by repeat split.
  - destruct (decide (id' = id)) as [->|Hne].
    + rewrite lookup_insert_eq. eexists. split; [done|].
      rewrite Ha in Ha0. injection Ha0 as <-. by repeat split.
    + rewrite lookup_insert_ne by done. exists a. by repeat split.
  - rewrite lookup_insert_ne.
    + exists a. by repeat split.
    + intros Heq. rewrite <- Heq, next_id_fresh in Ha. done.
Qed.

Lemma step_keeps_application op w id r :
  refund_applications (db w) !! id = Some r ->
  exists r', refund_applications (db (step op w)) !! id = Some r'
             /\ same_application r r'.
Proof.
  intros Hr.
  destruct (step_refund_applications op w)
    as [->|[(id' & r0 & r' & Hr0 & -> & Hsame & _)|(r0 & _ & -> & _)]].
  - exists r. by repeat split.
  - destruct (decide (id' = id)) as [->|Hne].
    + rewrite lookup_insert_eq. exists r'. split; [done|].
      rewrite Hr in Hr0. by injection Hr0 as <-.
    + rewrite lookup_insert_ne by done. exists r. by repeat split.
  - rewrite lookup_insert_ne.
    + exists r. by repeat split.
    + intros Heq. rewrite <- Heq, next_id_fresh in Hr. done.
Qed.

Lemma step_grows op w : grows w (step op w).
Proof.
  destruct (step_rest op w) as (Ho & Hm & Hb & Hw & Hp & Hs).
  split; [done|]. split; [|split; [|done]].
  - intros id a. apply step_keeps_case.
  - intros id r. apply step_keeps_application.
Qed.

(** Over any sequence of operations nothing is taken away.  The orders
    are never changed; every audit log and every refund application
    that was there is still there and is about the same case (thread,
    user, order, application, amount, reason, creation time); every
    message card is as it was; and the broker, the wire, the payments
    and the SMS are extended at the end, never rewritten. *)
Theorem run_grows (ops : list Op) (w : World) : grows w (run ops w).
Proof.
  revert w. induction ops as [|op ops IH]; intros w; [apply grows_refl|].
  simpl. eapply grows_trans; [apply step_grows|apply IH].
Qed.

(** ** Polling after the pipeline *)

(** A row that passes the filter and is newer than every other row that
    does is the one [latest_by] selects. *)
Lemma latest_by_newest {A} (created_at : A -> Z) (P : A -> bool)
    (m : gmap Z A) (k : Z) (a : A) :
  m !! k = Some a -> P a = true ->
  (forall k' a', k' <> k -> m !! k' = Some a' -> P a' = true ->
                 created_at a' < created_at a) ->
  latest_by created_at P m = Some (k, a).
Proof.
  intros Hk HP Hnew. pose proof (latest_by_spec created_at P m) as H.
  destruct (latest_by created_at P m) as [[k0 a0]|]; simpl in H.
  - destruct H as (Hk0 & HP0 & Hmax).
    destruct (decide (k0 = k)) as [->|Hne]; [congruence|].
    specialize (Hnew k0 a0 Hne Hk0 HP0). specialize (Hmax k a Hk HP). lia.
  - rewrite (H k a Hk) in HP. done.
Qed.

(** After an escalation the customer who polls the thread is told to
    wait.  When the audit node is given refund data at or above the
    medium threshold and a context snapshot that can be stored as JSON
    (so that its commit goes through), and the clock has moved on since
    the earlier cases of the thread, [get_thread_status] for the thread
    and the user of the state answers [WAITING_ADMIN] and names the audit
    log just written, its risk tier and the time of the escalation. *)
Theorem poll_after_escalation (settings : Settings) (now : Z)
    (state : AgentState.t) (w : World) (rd : RefundData.t) :
  AgentState.refund_data state = Some rd ->
  risk_tier settings (amount_of rd) <> RiskLevel.LOW ->
  json_ok (context_snapshot_of state rd) = true ->
  (forall id a,
     audit_logs (db w) !! id = Some a ->
     of_thread (AgentState.thread_id state) (AgentState.user_id state) a
     = true ->
     AuditLog.created_at a < now) ->
  let w' := (check_refund_eligibility settings now state w).2 in
  let '(r, w'') :=
    get_thread_status (AgentState.thread_id state)
      (AgentState.user_id state) w' in
  w'' = w'
  /\ StatusResponse.status r = "WAITING_ADMIN"
  /\ StatusResponse.timestamp r = Some now
  /\ exists trigger_reason,
       StatusResponse.data r
       = JDict [("audit_log_id", JInt (next_id (audit_logs (db w))));
                ("risk_level", JRisk (risk_tier settings (amount_of rd)));
                ("trigger_reason", JText trigger_reason)].
Proof.
  intros Hrd Htier Hok Hold w'.
  pose proof (escalation_writes settings now state w rd Hrd Htier Hok) as H.
  subst w'.
  destruct (check_refund_eligibility settings now state w) as [u w'].
  cbv zeta in H. cbn [snd].
  destruct H as (_ & _ & (log & Hlogs & Hp & _ & Ht & Hu & Hc & Hrisk) & _).
  unfold get_thread_status. rewrite Hlogs.
  rewrite (latest_by_newest AuditLog.created_at _ _
             (next_id (audit_logs (db w))) log).
  - rewrite Hp, Hc, Hrisk. split; [done|]. split; [done|].
    split; [done|]. by eexists.
  - apply lookup_insert_eq.
  - unfold of_thread. by rewrite Ht, Hu, String.eqb_refl, Z.eqb_refl.
  - intros k' a' Hne Hk' HP. rewrite lookup_insert_ne in Hk' by done.
    rewrite Hc. by apply (Hold k' a').
Qed.

Lemma poll_after_escalation_witness :
  StatusResponse.status
    (get_thread_status "thread-1" 1
       (check_refund_eligibility default_settings 110
          (refund_state "thread-1" 1 3 2500) shop_big).2).1
  = "WAITING_ADMIN".
Proof.
  pose proof (poll_after_escalation default_settings 110
                (refund_state "thread-1" 1 3 2500) shop_big _ eq_refl) as H.
  cbv zeta in H.
  destruct (get_thread_status _ _ _) as [r w''].
  refine (proj1 (proj2 (H _ eq_refl _))).
  - vm_compute. discriminate.
  - intros id a Ha. vm_compute in Ha. discriminate Ha.
Defined.



(** ** The tasks, after the code that enqueues them *)

(** The task the audit node enqueues finds its audit log.  After an
    escalation whose commit went through (refund data at or above the
    medium threshold, a context snapshot that can be stored as JSON) the
    last message on the broker is [notify_admin_audit] for the new audit
    log; a worker that takes it at any later time succeeds at the first
    delivery and adds one [SYSTEM] card for the thread, from no one to
    no one.  It sends nothing on any socket, enqueues nothing and leaves
    the audit log pending. *)
Theorem escalation_then_notify (settings : Settings) (now : Z)
    (state : AgentState.t) (w : World) (rd : RefundData.t) (now2 : Z) :
  AgentState.refund_data state = Some rd ->
  risk_tier settings (amount_of rd) <> RiskLevel.LOW ->
  json_ok (context_snapshot_of state rd) = true ->
  let w1 := (check_refund_eligibility settings now state w).2 in
  let id := next_id (audit_logs (db w)) in
  last (broker w1) = Some (notify_admin_audit_msg id)
  /\ let '(outcome, w2) := run_task now2 (notify_admin_audit_msg id) w1 in
     outcome = Success (JDict [("status", JStr "success");
                               ("audit_log_id", JInt id);
                               ("notified_at", JInt now2)])
     /\ (exists card,
           message_cards (db w2) = add_row card (message_cards (db w))
           /\ MessageCard.thread_id card = AgentState.thread_id state
           /\ MessageCard.message_type card = MessageType.SYSTEM
           /\ MessageCard.sender_id card = None
           /\ MessageCard.receiver_id card = None)
     /\ audit_logs (db w2) = audit_logs (db w1)
     /\ decided id w2 = false
     /\ wire w2 = wire w1
     /\ broker w2 = broker w1.
Proof.
  intros Hrd Htier Hok w1 id.
  pose proof (escalation_writes settings now state w rd Hrd Htier Hok) as H.
  subst w1.
  destruct (check_refund_eligibility settings now state w) as [u w1].
  cbv zeta in H. cbn [snd].
  destruct H as (_ & _ & (log & Hlogs & Hp & _ & Ht & _) & _ & Hcards & Hb).
  fold id in Hlogs, Hb.
  split; [rewrite Hb; apply last_snoc|].
  assert (Hlog : audit_logs (db w1) !! id = Some log)
    by (rewrite Hlogs; apply lookup_insert_eq).
  unfold run_task. simpl. unfold notify_admin_audit, decided.
  rewrite Hlog. simpl.
  rewrite Hlog, Hp, Hcards. split; [done|]. split; [|done].
  eexists. split; [reflexivity|]. by rewrite <- Ht.
Qed.

Lemma escalation_then_notify_witness :
  last (broker (check_refund_eligibility default_settings 110
                  (refund_state "thread-1" 1 3 2500) shop_big).2)
  = Some (notify_admin_audit_msg (next_id (audit_logs (db shop_big)))).
Proof.
  pose proof (escalation_then_notify default_settings 110
                (refund_state "thread-1" 1 3 2500) shop_big _ 130
                eq_refl) as H.
  cbv zeta in H. destruct H as [H _]; [|reflexivity|exact H].
  vm_compute. discriminate.
Defined.


